(** * QuoteDriftTracker: a shallow embedding of the analysis core

    The Python sources modelled here are [utils.py], [models.py],
    [config.py], [data_analyzer.py], [quote_tracker.py] and the worker
    wrappers of [web_app.py].

    Numeric conventions.
    - Python [int] is [Z].
    - Python [float] is modelled in exact arithmetic by [Q]; a Python
      level division is partial and raises [ZeroDivisionError].
    - A numpy [float64] is [Np.float64]: a rational, an infinity or NaN,
      with the IEEE rules for the special values (numpy divides by zero
      without raising).  Square roots leave [Q]; the values the code
      derives from one (standard deviations and quotients by them) are
      kept exact as [Np.surd], a [float64] coefficient times the root of
      a positive rational.
    - Exceptions are explicit: a computation that may raise lives in
      [Py.res].
    - Rounding, overflow and underflow of float64 are not modelled.  A
      statement that rests on an exact cancellation (the mean of equal
      values being that value, a deviation being exactly zero) either
      carries a hypothesis under which the float64 operations involved
      are exact, or says that it is a fact of exact arithmetic. *)

From Stdlib Require Import String DecimalString ZArith QArith Qabs Qround Qminmax List Sorted Bool Lia Lqa.
Import ListNotations.

(* ================================================================== *)
(** ** Python run-time model *)

Module Py.

Inductive exn : Type :=
| ZeroDivisionError
| IndexError
| ValueError (msg : string).

Inductive res (A : Type) : Type :=
| Ok (a : A)
| Raise (e : exn).
Arguments Ok {A} a.
Arguments Raise {A} e.

Definition bind {A B} (c : res A) (k : A -> res B) : res B :=
  match c with
  | Ok a => k a
  | Raise e => Raise e
  end.

Declare Scope py_scope.
Delimit Scope py_scope with py.
Notation "x <- c ;; k" := (bind c (fun x => k))
  (at level 61, c at next level, right associativity) : py_scope.
Notation "c ;;; k" := (bind c (fun _ => k))
  (at level 61, right associativity) : py_scope.
Local Open Scope py_scope.

(** [for x in l: acc.append(f x)] *)
Fixpoint mapM {A B} (f : A -> res B) (l : list A) : res (list B) :=
  match l with
  | [] => Ok []
  | x :: l' => y <- f x ;; ys <- mapM f l' ;; Ok (y :: ys)
  end.

(** [for x in l: acc = f acc x] *)
Fixpoint foldM {A S} (f : S -> A -> res S) (l : list A) (acc : S) : res S :=
  match l with
  | [] => Ok acc
  | x :: l' => acc' <- f acc x ;; foldM f l' acc'
  end.

(** [range(a, b)] *)
Definition range (a b : nat) : list nat := seq a (b - a).

(** [l[i]] for a non-negative index. *)
Definition getitem {A} (l : list A) (i : nat) : res A :=
  match nth_error l i with
  | Some x => Ok x
  | None => Raise IndexError
  end.

(** [l[-n:]]: the last [n] elements, the whole list when it is shorter. *)
Definition slice_last {A} (n : nat) (l : list A) : list A :=
  skipn (length l - n) l.

Local Open Scope Q_scope.

Definition Qltb (a b : Q) : bool := negb (Qle_bool b a).

(** [a / b] on Python numbers: the exact quotient, without the rounding
    and the underflow of a float division. *)
Definition truediv (a b : Q) : res Q :=
  if Qeq_bool b 0 then Raise ZeroDivisionError else Ok (a / b).

(** Round to the nearest integer, ties to the even one. *)
Definition round_half_even (x : Q) : Z :=
  let f := Qfloor x in
  match Qcompare (x - inject_Z f) (1 # 2) with
  | Lt => f
  | Gt => (f + 1)%Z
  | Eq => if Z.even f then f else (f + 1)%Z
  end.

(** [round(x, ndigits)] *)
Definition round (x : Q) (ndigits : nat) : Q :=
  let scale := inject_Z (10 ^ Z.of_nat ndigits) in
  inject_Z (round_half_even (x * scale)) / scale.

(** Truthiness of an [Optional[int]]: [None] and [0] are false. *)
Definition truthy (o : option Z) : bool :=
  match o with
  | None => false
  | Some z => negb (z =? 0)%Z
  end.

(** A slice bound as Python normalises it: a negative index counts from
    the end, and the result is clamped to [0, len]. *)
Definition clamp_index (len : nat) (i : Z) : nat :=
  let j := if (i <? 0)%Z then (i + Z.of_nat len)%Z else i in
  Z.to_nat (Z.min (Z.max j 0) (Z.of_nat len)).

(** [l[a:b]] *)
Definition slice {A} (l : list A) (a b : Z) : list A :=
  let start := clamp_index (length l) a in
  let stop := clamp_index (length l) b in
  firstn (stop - start) (skipn start l).

(** [range(n)] for an integer [n]; empty when [n <= 0]. *)
Definition range_upto (n : Z) : list nat := seq 0 (Z.to_nat n).

(** [int(x)] of a float: truncation toward zero. *)
Definition int_of_float (x : Q) : Z := Z.quot (Qnum x) (Zpos (Qden x)).

(** [sum(l)] of floats: a left fold from 0. *)
Definition sum (l : list Q) : Q := fold_left Qplus l 0.

(** [min(l)] and [max(l)] of a list of ints; both raise on an empty list. *)
Definition min_int (l : list Z) : res Z :=
  match l with
  | [] => Raise (ValueError "min() arg is an empty sequence")
  | x :: l' => Ok (fold_left Z.min l' x)
  end.

Definition max_int (l : list Z) : res Z :=
  match l with
  | [] => Raise (ValueError "max() arg is an empty sequence")
  | x :: l' => Ok (fold_left Z.max l' x)
  end.

(** [max(l, key=abs)]: the first element of largest absolute value. *)
Definition max_by_abs (l : list Q) : res Q :=
  match l with
  | [] => Raise (ValueError "max() arg is an empty sequence")
  | x :: l' =>
      Ok (fold_left (fun best y => if Qltb (Qabs best) (Qabs y) then y else best)
                    l' x)
  end.

(** [c in s] for a character and a string. *)
Definition char_in (c : Ascii.ascii) (s : string) : bool :=
  existsb (Ascii.eqb c) (list_ascii_of_string s).

(** [all(c in alphabet for c in s)] *)
Definition all_chars_in (alphabet s : string) : bool :=
  forallb (fun c => char_in c alphabet) (list_ascii_of_string s).

(** [d.get(key)] on a dict literal written as its list of items. *)
Fixpoint dict_get {V} (d : list (string * V)) (key : string) : option V :=
  match d with
  | [] => None
  | (k, v) :: d' => if String.eqb k key then Some v else dict_get d' key
  end.

End Py.

(* ================================================================== *)
(** ** numpy routines used by the analyzer *)

Module Np.
Import Py.
Local Open Scope Q_scope.

Inductive float64 : Type :=
| Fin (q : Q)
| Inf (negative : bool)
| NaN.

Definition isnan (x : float64) : bool :=
  match x with NaN => true | _ => false end.

Definition is_zero (x : float64) : bool :=
  match x with Fin q => Qeq_bool q 0 | _ => false end.

Definition fneg (x : float64) : float64 :=
  match x with
  | Fin q => Fin (- q)
  | Inf s => Inf (negb s)
  | NaN => NaN
  end.

Definition fabs (x : float64) : float64 :=
  match x with
  | Fin q => Fin (Qabs q)
  | Inf _ => Inf false
  | NaN => NaN
  end.

Definition fadd (x y : float64) : float64 :=
  match x, y with
  | NaN, _ | _, NaN => NaN
  | Fin a, Fin b => Fin (a + b)
  | Inf s, Fin _ | Fin _, Inf s => Inf s
  | Inf s, Inf t => if Bool.eqb s t then Inf s else NaN
  end.

Definition fsub (x y : float64) : float64 := fadd x (fneg y).

Definition fmul (x y : float64) : float64 :=
  match x, y with
  | NaN, _ | _, NaN => NaN
  | Fin a, Fin b => Fin (a * b)
  | Inf s, Fin b | Fin b, Inf s =>
      if Qeq_bool b 0 then NaN else Inf (xorb s (Qltb b 0))
  | Inf s, Inf t => Inf (xorb s t)
  end.

(** IEEE division: a zero divisor gives an infinity, or NaN for [0/0];
    nothing is raised.  Zeros carry no sign in this model. *)
Definition fdiv (x y : float64) : float64 :=
  match x, y with
  | NaN, _ | _, NaN => NaN
  | Fin a, Fin b =>
      if Qeq_bool b 0
      then (if Qeq_bool a 0 then NaN else Inf (Qltb a 0))
      else Fin (a / b)
  | Fin _, Inf _ => Fin 0
  | Inf s, Fin b => Inf (xorb s (Qltb b 0))
  | Inf _, Inf _ => NaN
  end.

(** What a numpy scalar division signals under the default error state:
    a RuntimeWarning ("divide by zero encountered" for a non-zero finite
    number over zero, "invalid value encountered" for [0/0] and
    [inf/inf]) and nothing otherwise.  A warning is not an exception. *)
Inductive RuntimeWarning : Type :=
| DivideByZero
| InvalidValue.

Definition fdiv_warnings (x y : float64) : list RuntimeWarning :=
  match x, y with
  | Fin a, Fin b =>
      if Qeq_bool b 0
      then (if Qeq_bool a 0 then [InvalidValue] else [DivideByZero])
      else []
  | Inf _, Inf _ => [InvalidValue]
  | _, _ => []
  end.

(** [x < y]; every comparison with NaN is false. *)
Definition fltb (x y : float64) : bool :=
  match x, y with
  | NaN, _ | _, NaN => false
  | Fin a, Fin b => Qltb a b
  | Fin _, Inf s => negb s
  | Inf s, Fin _ => s
  | Inf s, Inf t => s && negb t
  end.

Definition of_Z (z : Z) : float64 := Fin (inject_Z z).
Definition of_nat (n : nat) : float64 := Fin (inject_Z (Z.of_nat n)).

(** A value [coef * sqrt radicand], [radicand > 0]. *)
Record surd : Type := mkSurd { coef : float64; radicand : Q }.

Definition of_float (x : float64) : surd := mkSurd x 1.

(** [np.sqrt] *)
Definition sqrt (x : float64) : surd :=
  match x with
  | Fin q =>
      if Qltb q 0 then of_float NaN
      else if Qeq_bool q 0 then of_float (Fin 0)
      else mkSurd (Fin 1) q
  | Inf false => of_float (Inf false)
  | Inf true => of_float NaN
  | NaN => of_float NaN
  end.

Definition smul (x y : surd) : surd :=
  mkSurd (fmul (coef x) (coef y)) (radicand x * radicand y).

(** [c1 √r1 / (c2 √r2) = (c1 / (c2 r2)) √(r1 r2)]. *)
Definition sdiv (x y : surd) : surd :=
  mkSurd (fdiv (coef x) (fmul (coef y) (Fin (radicand y))))
         (radicand x * radicand y).

(** The warnings of the division [sdiv] models. *)
Definition sdiv_warnings (x y : surd) : list RuntimeWarning :=
  fdiv_warnings (coef x) (fmul (coef y) (Fin (radicand y))).

Definition sisnan (x : surd) : bool := isnan (coef x).

(** [x == 0] *)
Definition sis_zero (x : surd) : bool := is_zero (coef x).

(** Sign and square decide the order of two surds. *)
Definition ssign (x : surd) : comparison :=
  match coef x with
  | Fin c => c ?= 0
  | Inf s => if s then Lt else Gt
  | NaN => Eq
  end.

Definition ssquare (x : surd) : float64 :=
  fmul (fmul (coef x) (coef x)) (Fin (radicand x)).

Definition sltb (x y : surd) : bool :=
  if sisnan x || sisnan y then false
  else
    match ssign x, ssign y with
    | Lt, Eq | Lt, Gt | Eq, Gt => true
    | Gt, Gt => fltb (ssquare x) (ssquare y)
    | Lt, Lt => fltb (ssquare y) (ssquare x)
    | _, _ => false
    end.

Definition sgtb (x y : surd) : bool := sltb y x.

(** [np.clip(x, lo, hi)] = [minimum(maximum(x, lo), hi)]. *)
Definition sclip (x lo hi : surd) : surd :=
  if sisnan x then x
  else
    let y := if sltb x lo then lo else x in
    if sltb hi y then hi else y.

Definition fsum (l : list float64) : float64 := fold_left fadd l (Fin 0).

Definition floats (l : list Q) : list float64 := map Fin l.

(** [np.mean]: the sum over the length; NaN for an empty list.  The sum
    and the quotient are exact here; in float64 they are rounded, so the
    mean of equal values is that value only where the partial sums are
    representable (for integers, below 2^53). *)
Definition mean (l : list Q) : float64 :=
  fdiv (fsum (floats l)) (of_nat (length l)).

(** [np.var] (population variance, [ddof = 0]), exact like [mean]: it is
    zero exactly when all values are equal. *)
Definition var (l : list Q) : float64 :=
  let m := mean l in
  let sq := map (fun x => let d := fsub (Fin x) m in fmul d d) l in
  fdiv (fsum sq) (of_nat (length l)).

(** [np.std] *)
Definition std (l : list Q) : surd := sqrt (var l).

(** [np.min] and [np.max] raise on an empty list. *)
Definition amin (l : list Q) : res Q :=
  match l with
  | [] => Raise (ValueError "zero-size array to reduction operation minimum which has no identity")
  | x :: l' => Ok (fold_left Qmin l' x)
  end.

Definition amax (l : list Q) : res Q :=
  match l with
  | [] => Raise (ValueError "zero-size array to reduction operation maximum which has no identity")
  | x :: l' => Ok (fold_left Qmax l' x)
  end.

Fixpoint insert (x : Q) (l : list Q) : list Q :=
  match l with
  | [] => [x]
  | y :: l' => if Qle_bool x y then x :: l else y :: insert x l'
  end.

Definition sort (l : list Q) : list Q := fold_right insert [] l.

(** [np.percentile(l, q)], linear interpolation between the two order
    statistics around the position [q/100 * (n-1)]. *)
Definition percentile (l : list Q) (q : Q) : float64 :=
  match l with
  | [] => NaN
  | _ :: _ =>
      let s := sort l in
      let n := length l in
      let pos := q / 100 * inject_Z (Z.of_nat (n - 1)) in
      let i := Z.to_nat (Qfloor pos) in
      let g := pos - inject_Z (Qfloor pos) in
      let lo := nth i s 0 in
      let hi := nth (Nat.min (i + 1) (n - 1)) s 0 in
      Fin (lo + (hi - lo) * g)
  end.

(** One entry of [np.cov] for two rows of observations ([ddof = 1]):
    the products of the deviations, times [1 / (n - 1)]; exact like
    [mean]. *)
Definition cov (x y : list Q) : float64 :=
  let mx := mean x in
  let my := mean y in
  let prods :=
    map (fun ab => fmul (fsub (Fin (fst ab)) mx) (fsub (Fin (snd ab)) my))
        (combine x y) in
  fmul (fsum prods) (fdiv (Fin 1) (of_nat (length x - 1))).

(** [np.corrcoef(x, y)[0, 1]]: the covariance divided by the square
    roots of both diagonal entries, then clipped to [-1, 1]. *)
Definition corrcoef01 (x y : list Q) : surd :=
  let c := sdiv (sdiv (of_float (cov x y)) (sqrt (cov x x))) (sqrt (cov y y)) in
  sclip c (of_float (Fin (-1))) (of_float (Fin 1)).

End Np.

(* ================================================================== *)
(** ** models.py *)

Module Models.
Local Open Scope Q_scope.

Record QuoteData : Type := mkQuoteData {
  timestamp : Q;
  request_time : Q;
  response_time : Q;
  latency : Q;
  output_amount : Z;
  price_impact_pct : Q;
  route_plan : list string;
  success : bool;
  error : option string
}.

End Models.

(* ================================================================== *)
(** ** utils.py *)

Module Utils.
Import Py.
Local Open Scope py_scope.
Local Open Scope Q_scope.

Definition calculate_drift (previous_amount current_amount : Z) : res Q :=
  if (previous_amount =? 0)%Z then Ok 0
  else
    r <- truediv (inject_Z (current_amount - previous_amount))
                 (inject_Z previous_amount) ;;
    Ok (r * 100).

(** Strings are read one [ascii] per character. *)
Definition base58_chars : string :=
  "123456789ABCDEFGHJKLMNPQRSTUVWXYZabcdefghijkmnopqrstuvwxyz".

(** [detect_outliers]: the indices whose z-score exceeds the threshold. *)
Definition detect_outliers (values : list Q) (z_threshold : Q) : list nat :=
  if (length values <? 3)%nat then []
  else
    let mean := Np.mean values in
    let std_dev := Np.std values in
    if Np.sis_zero std_dev then []
    else
      map fst
          (filter (fun iv =>
                     let z_score :=
                       Np.sdiv (Np.of_float
                                  (Np.fabs (Np.fsub (Np.Fin (snd iv)) mean)))
                               std_dev in
                     Np.sgtb z_score (Np.of_float (Np.Fin z_threshold)))
                  (combine (seq 0 (length values)) values)).

Definition calculate_moving_average (values : list Q) (window_size : Z)
  : res (list Q) :=
  if (Z.of_nat (length values) <? window_size)%Z then Ok values
  else
    mapM (fun i =>
            let window :=
              slice values (Z.of_nat i) (Z.of_nat i + window_size) in
            truediv (sum window) (inject_Z window_size))
         (range_upto (Z.of_nat (length values) - window_size + 1)).

Record ProfitAnalysis : Type := mkProfitAnalysis {
  gross_profit : Q;
  gas_cost : Q;
  net_profit : Q;
  is_profitable : bool;
  profit_margin : Q
}.

Definition calculate_profit_potential (price_difference : Q) (amount : Z)
  (gas : Q) : res ProfitAnalysis :=
  let absolute_difference := Qabs price_difference / 100 * inject_Z amount in
  let net := absolute_difference - gas in
  margin <- (if (0 <? amount)%Z then
               r <- truediv net (inject_Z amount) ;; Ok (r * 100)
             else Ok 0) ;;
  Ok {| gross_profit := absolute_difference;
        gas_cost := gas;
        net_profit := net;
        is_profitable := Qltb 0 net;
        profit_margin := margin |}.

(** [validate_solana_address]; nothing in the [try] block can raise for
    a string. *)
Definition validate_solana_address (address : string) : bool :=
  if (String.length address <? 32)%nat || (44 <? String.length address)%nat
  then false
  else all_chars_in base58_chars address.

End Utils.

(* ================================================================== *)
(** ** config.py *)

Module Config.
Import Py.
Local Open Scope py_scope.
Local Open Scope Q_scope.

Record t : Type := mk {
  input_mint : string;
  output_mint : string;
  amount : Z;
  frequency : Q;
  duration : Z;
  concurrent_requests : Z;
  slippage_bps : Z;
  latency_injection : Q;
  output_file : string;
  api_timeout : Q;
  max_retries : Z
}.

Definition post_init (self : t) : res unit :=
  if Qle_bool (frequency self) 0 then
    Raise (ValueError "Frequency must be greater than 0")
  else if (duration self <=? 0)%Z then
    Raise (ValueError "Duration must be greater than 0")
  else if (concurrent_requests self <=? 0)%Z then
    Raise (ValueError "Concurrent requests must be greater than 0")
  else if (amount self <=? 0)%Z then
    Raise (ValueError "Amount must be greater than 0")
  else if (slippage_bps self <? 0)%Z then
    Raise (ValueError "Slippage BPS cannot be negative")
  else if Qltb (latency_injection self) 0 then
    Raise (ValueError "Latency injection cannot be negative")
  else Ok tt.

(** The dataclass constructor: the generated [__init__] stores the
    fields and then runs [__post_init__]. *)
Definition new (fields : t) : res t :=
  post_init fields ;;; Ok fields.

(** The dataclass defaults. *)
Definition default : t := {|
  input_mint := "So11111111111111111111111111111111111111112";
  output_mint := "EPjFWdd5AufqSSqeM2qN1xzybapC8G4wEGGkZwyTDt1v";
  amount := 1000000;
  frequency := 5;
  duration := 60;
  concurrent_requests := 10;
  slippage_bps := 50;
  latency_injection := 0;
  output_file := "quote_analysis.csv";
  api_timeout := 10;
  max_retries := 3
|}.

Definition requests_per_worker (self : t) : res Q :=
  truediv (frequency self) (inject_Z (concurrent_requests self)).

Definition worker_interval (self : t) : res Q :=
  r <- requests_per_worker self ;;
  truediv 1 r.

(** [int(frequency * duration)] for a finite frequency; the product is
    exact (an infinite or NaN frequency, for which [int] raises, has no
    counterpart in [Q]). *)
Definition total_expected_requests (self : t) : Z :=
  int_of_float (frequency self * inject_Z (duration self)).

(** The dict literal of [get_token_display_name]. *)
Definition token_map : list (string * string) :=
  [ ("So11111111111111111111111111111111111111112", "SOL");
    ("EPjFWdd5AufqSSqeM2qN1xzybapC8G4wEGGkZwyTDt1v", "USDC");
    ("Es9vMFrzaCERmJfrF4H2FYD4KCoNkY11McCe8BenwNYB", "USDT");
    ("mSoLzYCxHdYgdzU16g5QSh3i5K3z3KZK7ytfqcJm7So", "mSOL");
    ("bSo13r4TkiE4KumL71LsHTPpL2euBYLFx6h9HP3piy1", "bSOL");
    ("DezXAZ8z7PnrnRJjz3wXBoRgixCa6xjnB7YaB1pPB263", "BONK");
    ("7vfCXTUXx5WJV5JADk17DUJ4ksgau7utNKj4b963voxs", "ETH");
    ("A9mUU4qviSctJVPJdBJWkb28deg915LYJKrzQ19ji3FM", "USDCet") ]%string.

Definition get_token_display_name (self : t) (mint_address : string) : string :=
  match dict_get token_map mint_address with
  | Some name => name
  | None => (String.substring 0 8 mint_address ++ "...")%string
  end.

Record ConfigDict : Type := mkConfigDict {
  d_input_mint : string;
  d_input_token : string;
  d_output_mint : string;
  d_output_token : string;
  d_amount : Z;
  d_frequency : Q;
  d_duration : Z;
  d_concurrent_requests : Z;
  d_slippage_bps : Z;
  d_latency_injection : Q;
  d_output_file : string;
  d_total_expected_requests : Z;
  d_requests_per_worker : Q;
  d_worker_interval : Q
}.

Definition to_dict (self : t) : res ConfigDict :=
  per_worker <- requests_per_worker self ;;
  interval <- worker_interval self ;;
  Ok {| d_input_mint := input_mint self;
        d_input_token := get_token_display_name self (input_mint self);
        d_output_mint := output_mint self;
        d_output_token := get_token_display_name self (output_mint self);
        d_amount := amount self;
        d_frequency := frequency self;
        d_duration := duration self;
        d_concurrent_requests := concurrent_requests self;
        d_slippage_bps := slippage_bps self;
        d_latency_injection := latency_injection self;
        d_output_file := output_file self;
        d_total_expected_requests := total_expected_requests self;
        d_requests_per_worker := per_worker;
        d_worker_interval := interval |}.

(** The inner function of [validate_token_addresses]. *)
Definition is_valid_address (address : string) : bool :=
  if (String.length address <? 32)%nat || (44 <? String.length address)%nat
  then false
  else
    all_chars_in "123456789ABCDEFGHJKLMNPQRSTUVWXYZabcdefghijkmnopqrstuvwxyz"
                 address.

Definition validate_token_addresses (self : t) : bool :=
  is_valid_address (input_mint self)
  && is_valid_address (output_mint self)
  && negb (String.eqb (input_mint self) (output_mint self)).

(** The module-level table [COMMON_TOKENS]. *)
Definition COMMON_TOKENS : list (string * string) :=
  [ ("SOL", "So11111111111111111111111111111111111111112");
    ("USDC", "EPjFWdd5AufqSSqeM2qN1xzybapC8G4wEGGkZwyTDt1v");
    ("USDT", "Es9vMFrzaCERmJfrF4H2FYD4KCoNkY11McCe8BenwNYB");
    ("mSOL", "mSoLzYCxHdYgdzU16g5QSh3i5K3z3KZK7ytfqcJm7So");
    ("bSOL", "bSo13r4TkiE4KumL71LsHTPpL2euBYLFx6h9HP3piy1");
    ("BONK", "DezXAZ8z7PnrnRJjz3wXBoRgixCa6xjnB7YaB1pPB263");
    ("ETH", "7vfCXTUXx5WJV5JADk17DUJ4ksgau7utNKj4b963voxs") ]%string.

End Config.

(* ================================================================== *)
(** ** data_analyzer.py *)

Module DataAnalyzer.
Import Py Np Models.
Local Open Scope py_scope.
Local Open Scope Q_scope.

Record t : Type := mk {
  drift_threshold : Q;
  latency_advantage_threshold : Q
}.

(** [DataAnalyzer.__init__] *)
Definition init : t := {|
  drift_threshold := 1 # 100;
  latency_advantage_threshold := 5 # 100
|}.

Record Percentiles : Type := mkPercentiles {
  p10 : float64; p25 : float64; p50 : float64; p75 : float64;
  p90 : float64; p95 : float64; p99 : float64
}.

Record AnalysisResult : Type := mkAnalysisResult {
  total_quotes : nat;
  successful_quotes : nat;
  failed_quotes : Z;
  success_rate : Q;
  avg_latency : float64;
  min_latency : Q;
  max_latency : Q;
  latency_std_dev : surd;
  avg_output_amount : float64;
  min_output_amount : Q;
  max_output_amount : Q;
  output_amount_std_dev : surd;
  avg_drift : float64;
  min_drift : Q;
  max_drift : Q;
  drift_std_dev : surd;
  drift_variance : float64;
  price_variance : float64;
  price_volatility : surd;
  frontrun_opportunities : Z;
  latency_price_correlation : surd;
  duration : Q;
  avg_request_interval : float64;
  positive_drifts : nat;
  negative_drifts : nat;
  significant_drifts : nat;
  drift_percentiles : option Percentiles;
  latency_percentiles_ms : option Percentiles
}.

Record Anomaly : Type := mkAnomaly {
  anomaly_timestamp : Q;
  anomaly_output_amount : Z;
  z_score : surd;
  deviation_pct : float64;
  latency_ms : Q
}.

Definition analyze_frontrun_opportunities (self : t) (quotes : list QuoteData)
  : res Z :=
  foldM (fun opportunities i =>
           current <- getitem quotes i ;;
           previous <- getitem quotes (i - 1) ;;
           let timing_advantage := latency previous - latency current in
           price_drift <- Utils.calculate_drift (output_amount previous)
                                                (output_amount current) ;;
           if Qltb (latency_advantage_threshold self) timing_advantage
              && Qltb (drift_threshold self) (Qabs price_drift)
           then Ok (opportunities + 1)%Z
           else Ok opportunities)
        (range 1 (length quotes)) 0%Z.

Definition calculate_latency_price_correlation (self : t)
  (quotes : list QuoteData) : res surd :=
  if (length quotes <? 3)%nat then Ok (of_float (Fin 0))
  else
    rows <- mapM (fun i =>
                    current <- getitem quotes i ;;
                    previous <- getitem quotes (i - 1) ;;
                    price_change <- Utils.calculate_drift
                                      (output_amount previous)
                                      (output_amount current) ;;
                    Ok (latency current, Qabs price_change))
                 (range 1 (length quotes)) ;;
    let latencies := map fst rows in
    let price_changes := map snd rows in
    if (length latencies <? 2)%nat then Ok (of_float (Fin 0))
    else
      let correlation := corrcoef01 latencies price_changes in
      Ok (if sisnan correlation then of_float (Fin 0) else correlation).

Definition calculate_avg_interval (self : t) (timestamps : list Q)
  : res float64 :=
  if (length timestamps <? 2)%nat then Ok (Fin 0)
  else
    intervals <- mapM (fun i =>
                         a <- getitem timestamps i ;;
                         b <- getitem timestamps (i - 1) ;;
                         Ok (a - b))
                      (range 1 (length timestamps)) ;;
    Ok (mean intervals).

Definition percentiles_of (l : list Q) : Percentiles := {|
  p10 := percentile l 10; p25 := percentile l 25; p50 := percentile l 50;
  p75 := percentile l 75; p90 := percentile l 90; p95 := percentile l 95;
  p99 := percentile l 99
|}.

(** Both percentile helpers return an empty dict for an empty list. *)
Definition calculate_drift_percentiles (self : t) (drifts : list Q)
  : option Percentiles :=
  match drifts with
  | [] => None
  | _ :: _ => Some (percentiles_of drifts)
  end.

Definition calculate_latency_percentiles (self : t) (latencies : list Q)
  : option Percentiles :=
  match latencies with
  | [] => None
  | _ :: _ =>
      let latencies_ms := map (fun l => l * 1000) latencies in
      Some (percentiles_of latencies_ms)
  end.

Definition is_empty {A} (l : list A) : bool :=
  match l with [] => true | _ :: _ => false end.

(** The loop of [analyze_quotes] that fills [drifts]: one entry per
    index [1 .. len-1] of the successful quotes. *)
Definition drift_series (successful_quotes : list QuoteData) : res (list Q) :=
  mapM (fun i =>
          previous <- getitem successful_quotes (i - 1) ;;
          current <- getitem successful_quotes i ;;
          Utils.calculate_drift (output_amount previous)
                                (output_amount current))
       (range 1 (length successful_quotes)).

Definition analyze_quotes (self : t) (quotes : list QuoteData)
  : res (option AnalysisResult) :=
  if is_empty quotes then Ok None
  else
    let successful := filter success quotes in
    if (length successful <? 2)%nat then Ok None
    else
      let output_amounts := map (fun q => inject_Z (output_amount q)) successful in
      let latencies := map latency successful in
      let timestamps := map timestamp successful in
      drifts <- drift_series successful ;;
      if is_empty drifts then Ok None
      else
        rate <- truediv (inject_Z (Z.of_nat (length successful)))
                        (inject_Z (Z.of_nat (length quotes))) ;;
        min_lat <- amin latencies ;;
        max_lat <- amax latencies ;;
        min_out <- amin output_amounts ;;
        max_out <- amax output_amounts ;;
        min_dr <- amin drifts ;;
        max_dr <- amax drifts ;;
        opportunities <- analyze_frontrun_opportunities self successful ;;
        correlation <- calculate_latency_price_correlation self successful ;;
        t_last <- getitem timestamps (length timestamps - 1) ;;
        t_first <- getitem timestamps 0 ;;
        interval <- calculate_avg_interval self timestamps ;;
        Ok (Some {|
          total_quotes := length quotes;
          successful_quotes := length successful;
          failed_quotes := Z.of_nat (length quotes) - Z.of_nat (length successful);
          success_rate := rate * 100;
          avg_latency := mean latencies;
          min_latency := min_lat;
          max_latency := max_lat;
          latency_std_dev := std latencies;
          avg_output_amount := mean output_amounts;
          min_output_amount := min_out;
          max_output_amount := max_out;
          output_amount_std_dev := std output_amounts;
          avg_drift := mean drifts;
          min_drift := min_dr;
          max_drift := max_dr;
          drift_std_dev := std drifts;
          drift_variance := var drifts;
          price_variance := var output_amounts;
          price_volatility :=
            smul (sdiv (std output_amounts) (of_float (mean output_amounts)))
                 (of_float (Fin 100));
          frontrun_opportunities := opportunities;
          latency_price_correlation := correlation;
          duration := t_last - t_first;
          avg_request_interval := interval;
          positive_drifts := length (filter (fun d => Qltb 0 d) drifts);
          negative_drifts := length (filter (fun d => Qltb d 0) drifts);
          significant_drifts :=
            length (filter (fun d => Qltb (drift_threshold self) (Qabs d)) drifts);
          drift_percentiles := calculate_drift_percentiles self drifts;
          latency_percentiles_ms := calculate_latency_percentiles self latencies
        |}).

(** The z-score the loop of [detect_price_anomalies] computes for one
    quote: a numpy division, so a zero [std_amount] raises nothing. *)
Definition z_score_of (mean_amount : float64) (std_amount : surd)
  (quote : QuoteData) : surd :=
  sdiv (of_float (fabs (fsub (of_Z (output_amount quote)) mean_amount)))
       std_amount.

Definition detect_price_anomalies (self : t) (quotes : list QuoteData)
  (z_threshold : Q) : list Anomaly :=
  let successful := filter success quotes in
  if (length successful <? 10)%nat then []
  else
    let output_amounts := map (fun q => inject_Z (output_amount q)) successful in
    let mean_amount := mean output_amounts in
    let std_amount := std output_amounts in
    fold_left
      (fun anomalies quote =>
         let z := z_score_of mean_amount std_amount quote in
         if sgtb z (of_float (Fin z_threshold)) then
           anomalies ++ [ {|
             anomaly_timestamp := timestamp quote;
             anomaly_output_amount := output_amount quote;
             z_score := z;
             deviation_pct :=
               fmul (fdiv (fsub (of_Z (output_amount quote)) mean_amount)
                          mean_amount)
                    (Fin 100);
             latency_ms := latency quote * 1000
           |} ]
         else anomalies)
      successful [].

(** The warnings of the z-score division of the loop. *)
Definition z_score_warnings (mean_amount : float64) (std_amount : surd)
  (quote : QuoteData) : list RuntimeWarning :=
  sdiv_warnings
    (of_float (fabs (fsub (of_Z (output_amount quote)) mean_amount)))
    std_amount.

(** [detect_price_anomalies] together with the RuntimeWarnings numpy
    signals while it runs, in order: the loop divides by [std_amount]
    for every successful quote, and by [mean_amount] for every quote it
    reports. *)
Definition detect_price_anomalies_warned (self : t) (quotes : list QuoteData)
  (z_threshold : Q) : list Anomaly * list RuntimeWarning :=
  let successful := filter success quotes in
  if (length successful <? 10)%nat then ([], [])
  else
    let output_amounts := map (fun q => inject_Z (output_amount q)) successful in
    let mean_amount := mean output_amounts in
    let std_amount := std output_amounts in
    fold_left
      (fun (st : list Anomaly * list RuntimeWarning) quote =>
         let z := z_score_of mean_amount std_amount quote in
         let warned :=
           snd st ++ z_score_warnings mean_amount std_amount quote in
         if sgtb z (of_float (Fin z_threshold)) then
           (fst st ++ [ {|
              anomaly_timestamp := timestamp quote;
              anomaly_output_amount := output_amount quote;
              z_score := z;
              deviation_pct :=
                fmul (fdiv (fsub (of_Z (output_amount quote)) mean_amount)
                           mean_amount)
                     (Fin 100);
              latency_ms := latency quote * 1000
            |} ],
            warned
            ++ fdiv_warnings (fsub (of_Z (output_amount quote)) mean_amount)
                             mean_amount)
         else (fst st, warned))
      successful ([], []).

Definition calculate_std_dev (self : t) (values : list Q) : surd :=
  if is_empty values || (length values <? 2)%nat then of_float (Fin 0)
  else std values.

(** The dict [calculate_mev_profitability] returns; the empty dict of its
    early return is [None]. *)
Record MevProfitability : Type := mkMevProfitability {
  profitable_opportunities : Z;
  total_potential_profit : Q;
  avg_profit_per_opportunity : Q;
  profitability_rate : Q
}.

(** The loop runs over the indices of the successful quotes and reads
    [quotes[i]] and [quotes[i-1]] from the list it was given. *)
Definition calculate_mev_profitability (self : t) (quotes : list QuoteData)
  (gas_cost : Q) : res (option MevProfitability) :=
  let successful := filter success quotes in
  if (length successful <? 2)%nat then Ok None
  else
    st <- foldM (fun (st : Z * Q) i =>
                   current <- getitem quotes i ;;
                   previous <- getitem quotes (i - 1) ;;
                   let price_diff :=
                     (output_amount current - output_amount previous)%Z in
                   let profit_potential :=
                     inject_Z (Z.abs price_diff) - gas_cost in
                   if Qltb 0 profit_potential
                   then Ok ((fst st + 1)%Z, snd st + profit_potential)
                   else Ok st)
                (range 1 (length successful)) (0%Z, 0) ;;
    avg <- truediv (snd st) (inject_Z (Z.max (fst st) 1)) ;;
    rate <- truediv (inject_Z (fst st))
                    (inject_Z (Z.of_nat (length successful))) ;;
    Ok (Some {| profitable_opportunities := fst st;
                total_potential_profit := snd st;
                avg_profit_per_opportunity := avg;
                profitability_rate := rate * 100 |}).

End DataAnalyzer.

(* ================================================================== *)
(** ** quote_tracker.py *)

Module QuoteTracker.
Import Py Models.
Local Open Scope py_scope.
Local Open Scope Q_scope.

(** The first statement of [quote_worker]: the interval the loop then
    sleeps for after every request. *)
Definition quote_worker_interval (config : Config.t) : res Q :=
  r <- truediv (Config.frequency config)
               (inject_Z (Config.concurrent_requests config)) ;;
  truediv 1 r.

(** What [front_running_simulator] prints for one detected pair. *)
Record Opportunity : Type := mkOpportunity {
  timing_advantage : Q;
  price_drift : Q;
  profit_potential : Q;
  opportunity_timestamp : Q
}.

(** The [for] loop of [front_running_simulator] over the recent
    successful quotes; the result lists the reports in the order printed. *)
Definition scan_pairs (config : Config.t) (recent_quotes : list QuoteData)
  : res (list Opportunity) :=
  foldM (fun reported i =>
           current <- getitem recent_quotes i ;;
           previous <- getitem recent_quotes (i - 1) ;;
           let timing := latency previous - latency current in
           drift <- Utils.calculate_drift (output_amount previous)
                                          (output_amount current) ;;
           if Qltb (5 # 100) timing && Qltb (1 # 100) (Qabs drift) then
             Ok (reported ++ [ {|
               timing_advantage := timing;
               price_drift := drift;
               profit_potential := Qabs drift * inject_Z (Config.amount config);
               opportunity_timestamp := timestamp current
             |} ])
           else Ok reported)
        (range 1 (length recent_quotes)) [].

(** One pass of the [while] loop of [front_running_simulator], after its
    sleep, over the quotes collected so far. *)
Definition front_running_scan (config : Config.t) (quotes : list QuoteData)
  : res (list Opportunity) :=
  if (length quotes <? 10)%nat then Ok []
  else
    let recent_quotes := filter success (slice_last 20 quotes) in
    if (length recent_quotes <? 5)%nat then Ok []
    else scan_pairs config recent_quotes.

(** One row handed to [csv.DictWriter.writerow].  The [datetime] column
    is the local-time rendering of [timestamp] and is kept as that
    timestamp. *)
Record CsvRow : Type := mkCsvRow {
  row_datetime : Q;
  row_timestamp : Q;
  latency_ms : Q;
  row_output_amount : Z;
  price_usdc : Q;
  row_price_impact_pct : Q;
  drift_pct : Q;
  is_mev_opportunity : bool
}.

(** The body of the export loop: from [previous_amount] and the quote to
    the row written and the next [previous_amount]. *)
Definition export_row (previous_amount : option Z) (quote : QuoteData)
  : res (CsvRow * option Z) :=
  drift <- (if truthy previous_amount then
              match previous_amount with
              | Some p => Utils.calculate_drift p (output_amount quote)
              | None => Ok 0
              end
            else Ok 0) ;;
  let is_mev := Qltb (1 # 100) (Qabs drift) in
  Ok ({| row_datetime := timestamp quote;
         row_timestamp := timestamp quote;
         latency_ms := round (latency quote * 1000) 2;
         row_output_amount := output_amount quote;
         price_usdc := round (inject_Z (output_amount quote) / 1000000) 6;
         row_price_impact_pct := round (price_impact_pct quote) 4;
         drift_pct := round drift 4;
         is_mev_opportunity := is_mev |},
      Some (output_amount quote)).

(** [export_to_csv]: [None] when there is nothing to export (the method
    returns before opening the file), otherwise the rows written. *)
Definition export_to_csv (quotes : list QuoteData)
  : res (option (list CsvRow)) :=
  let successful_quotes := filter success quotes in
  if DataAnalyzer.is_empty successful_quotes then Ok None
  else
    st <- foldM (fun (st : option Z * list CsvRow) quote =>
                   r <- export_row (fst st) quote ;;
                   Ok (snd r, snd st ++ [fst r]))
                successful_quotes (None, []) ;;
    Ok (Some (snd st)).

(** The mutable attributes of a [QuoteTracker] that its worker touches. *)
Record tracker : Type := mkTracker {
  quotes : list QuoteData;
  total_requests : Z;
  successful_requests : Z;
  failed_requests : Z
}.

(** [QuoteTracker.__init__] *)
Definition init : tracker :=
  {| quotes := []; total_requests := 0; successful_requests := 0;
     failed_requests := 0 |}.

(** What the HTTP request of [get_quote] comes back with: a 200 response
    with its JSON fields as far as they are present, any other status
    with its body text, or an exception raised inside the [try] block
    (by the transport, the JSON decoder or the number conversions). *)
Inductive response : Type :=
| Http200 (outAmount : option Z) (priceImpactPct : option Q)
          (routePlan : option (list string))
| HttpError (status : Z) (error_text : string)
| Raised (message : string).

Definition from_option {A} (o : option A) (default : A) : A :=
  match o with Some x => x | None => default end.

(** [get_quote], given the two clock readings and the response: the
    quote built and the tracker with its counters updated. *)
Definition get_quote (self : tracker) (request_time response_time : Q)
  (r : response) : QuoteData * tracker :=
  let lat := (response_time - request_time)%Q in
  match r with
  | Http200 outAmount priceImpactPct routePlan =>
      ({| timestamp := request_time;
          request_time := request_time;
          response_time := response_time;
          latency := lat;
          output_amount := from_option outAmount 0%Z;
          price_impact_pct := from_option priceImpactPct 0;
          route_plan := from_option routePlan [];
          success := true;
          error := None |},
       {| quotes := quotes self;
          total_requests := total_requests self;
          successful_requests := (successful_requests self + 1)%Z;
          failed_requests := failed_requests self |})
  | HttpError status error_text =>
      ({| timestamp := request_time;
          request_time := request_time;
          response_time := response_time;
          latency := lat;
          output_amount := 0;
          price_impact_pct := 0;
          route_plan := [];
          success := false;
          error := Some ("HTTP " ++ NilZero.string_of_int (Z.to_int status)
                         ++ ": " ++ error_text)%string |},
       {| quotes := quotes self;
          total_requests := total_requests self;
          successful_requests := successful_requests self;
          failed_requests := (failed_requests self + 1)%Z |})
  | Raised message =>
      ({| timestamp := request_time;
          request_time := request_time;
          response_time := response_time;
          latency := lat;
          output_amount := 0;
          price_impact_pct := 0;
          route_plan := [];
          success := false;
          error := Some message |},
       {| quotes := quotes self;
          total_requests := total_requests self;
          successful_requests := successful_requests self;
          failed_requests := (failed_requests self + 1)%Z |})
  end.

(** The values [quote_worker] formats into its progress line. *)
Inductive printed : Type :=
| Update (worker_id : nat) (amount : Z) (latency_millis : Q) (drift : Q)
         (successful failed : Z)
| Failure (worker_id : nat) (message : option string).

(** [next((q for q in reversed(l[:-1]) if q.success), None)] *)
Definition previous_successful (l : list QuoteData) : option QuoteData :=
  find success (rev (removelast l)).

(** The body of the [while] loop of [quote_worker] up to its sleep. *)
Definition quote_worker_iteration (self : tracker) (worker_id : nat)
  (request_time response_time : Q) (r : response) : res (tracker * printed) :=
  let '(quote, self1) := get_quote self request_time response_time r in
  let self2 :=
    {| quotes := quotes self1 ++ [quote];
       total_requests := (total_requests self1 + 1)%Z;
       successful_requests := successful_requests self1;
       failed_requests := failed_requests self1 |} in
  if success quote then
    drift <- (if (1 <? length (quotes self2))%nat then
                match previous_successful (quotes self2) with
                | Some prev_quote =>
                    Utils.calculate_drift (output_amount prev_quote)
                                          (output_amount quote)
                | None => Ok 0
                end
              else Ok 0) ;;
    Ok (self2,
        Update worker_id (output_amount quote) (latency quote * 1000) drift
               (successful_requests self2) (failed_requests self2))
  else Ok (self2, Failure worker_id (error quote)).

(** One fetch as a worker sees it: who asked, when, and what came back. *)
Record fetch : Type := mkFetch {
  fetch_worker : nat;
  fetch_requested : Q;
  fetch_responded : Q;
  fetch_response : response
}.

(** A run of worker iterations in the order the event loop resumes them. *)
Definition run_workers (self : tracker) (fetches : list fetch) : res tracker :=
  foldM (fun st f =>
           r <- quote_worker_iteration st (fetch_worker f) (fetch_requested f)
                                       (fetch_responded f) (fetch_response f) ;;
           Ok (fst r))
        fetches self.

(** The figures [print_statistics] prints; [None] when it returns
    without printing. *)
Record Statistics : Type := mkStatistics {
  stat_runtime : Q;
  stat_total_requests : Z;
  stat_success_rate : Q;
  stat_avg_latency_ms : Q;
  stat_min_amount : Z;
  stat_max_amount : Z;
  stat_max_drift : Q;
  stat_avg_drift : Q;
  stat_drift_std_dev : Np.surd
}.

Definition print_statistics (self : tracker) (analyzer : DataAnalyzer.t)
  (now start_time : Q) : res (option Statistics) :=
  if DataAnalyzer.is_empty (quotes self) then Ok None
  else
    let successful_quotes := filter success (quotes self) in
    if (length successful_quotes <? 2)%nat then Ok None
    else
      let output_amounts := map output_amount successful_quotes in
      let latencies := map latency successful_quotes in
      drifts <- mapM (fun i =>
                        previous <- getitem successful_quotes (i - 1) ;;
                        current <- getitem successful_quotes i ;;
                        Utils.calculate_drift (output_amount previous)
                                              (output_amount current))
                     (range 1 (length successful_quotes)) ;;
      if DataAnalyzer.is_empty drifts then Ok None
      else
        rate <- truediv (inject_Z (successful_requests self))
                        (inject_Z (total_requests self)) ;;
        avg_lat <- truediv (sum latencies)
                           (inject_Z (Z.of_nat (length latencies))) ;;
        lo <- min_int output_amounts ;;
        hi <- max_int output_amounts ;;
        max_drift <- max_by_abs drifts ;;
        avg_drift <- truediv (sum drifts)
                             (inject_Z (Z.of_nat (length drifts))) ;;
        Ok (Some {| stat_runtime := now - start_time;
                    stat_total_requests := total_requests self;
                    stat_success_rate := rate * 100;
                    stat_avg_latency_ms := avg_lat * 1000;
                    stat_min_amount := lo;
                    stat_max_amount := hi;
                    stat_max_drift := max_drift;
                    stat_avg_drift := avg_drift;
                    stat_drift_std_dev :=
                      DataAnalyzer.calculate_std_dev analyzer drifts |}).

End QuoteTracker.

(* ================================================================== *)
(** ** web_app.py: the worker wrappers and the shared quote list *)

Module WebApp.
Import Py Models.
Local Open Scope py_scope.

(** The globals a worker iteration touches. *)
Record state : Type := mkState {
  latest_quotes : list QuoteData;
  total_requests : Z
}.

Definition interval (config : Config.t) : res Q :=
  r <- truediv (Config.frequency config)
               (inject_Z (Config.concurrent_requests config)) ;;
  truediv 1 r.

(** What one iteration of [demo_worker_wrapper] and of
    [live_worker_wrapper] does between receiving [quote] and its next
    [await]: append, count, and trim.  No other task runs in between. *)
Definition worker_iteration (st : state) (quote : QuoteData) : state :=
  let appended := latest_quotes st ++ [quote] in
  {| latest_quotes :=
       if (1000 <? length appended)%nat then slice_last 500 appended
       else appended;
     total_requests := (total_requests st + 1)%Z |}.

(** A run of iterations, in the order the event loop resumes them. *)
Definition run (st : state) (quotes : list QuoteData) : state :=
  fold_left worker_iteration quotes st.

Local Open Scope Q_scope.

(** One entry of the [quotes] list [get_data] returns; the first entry
    carries no [drift] and no [is_mev] key.  The [timestamp] text is the
    local-time rendering of the quote's timestamp and is kept as that
    timestamp. *)
Record FormattedQuote : Type := mkFormattedQuote {
  f_timestamp : Q;
  f_latency : Q;
  f_output_amount : Z;
  f_success : bool;
  f_error : option string;
  f_drift : option Q;
  f_is_mev : option bool
}.

Definition format_quote (quote : QuoteData) : FormattedQuote :=
  {| f_timestamp := timestamp quote;
     f_latency := round (latency quote * 1000) 1;
     f_output_amount := output_amount quote;
     f_success := success quote;
     f_error := error quote;
     f_drift := None;
     f_is_mev := None |}.

(** [formatted[i]['drift'] = d; formatted[i]['is_mev'] = m] *)
Fixpoint set_drift (formatted : list FormattedQuote) (i : nat) (d : Q) (m : bool)
  : list FormattedQuote :=
  match formatted, i with
  | [], _ => []
  | f :: rest, O =>
      {| f_timestamp := f_timestamp f; f_latency := f_latency f;
         f_output_amount := f_output_amount f; f_success := f_success f;
         f_error := f_error f; f_drift := Some d; f_is_mev := Some m |} :: rest
  | f :: rest, S j => f :: set_drift rest j d m
  end.

(** [recent_quotes] of [get_data]. *)
Definition recent (latest : list QuoteData) : list QuoteData :=
  if (50 <? length latest)%nat then slice_last 50 latest else latest.

(** The [quotes] entry of the JSON [get_data] answers with. *)
Definition get_data (latest : list QuoteData) : res (list FormattedQuote) :=
  let recent_quotes := recent latest in
  let formatted_quotes := map format_quote recent_quotes in
  if (1 <? length recent_quotes)%nat then
    foldM (fun formatted i =>
             current <- getitem recent_quotes i ;;
             previous <- getitem recent_quotes (i - 1) ;;
             if success current && success previous then
               r <- truediv (inject_Z (output_amount current
                                       - output_amount previous))
                            (inject_Z (output_amount previous)) ;;
               let drift := r * 100 in
               Ok (set_drift formatted i (round drift 4)
                             (Qltb (1 # 100) (Qabs drift)))
             else Ok (set_drift formatted i 0 false))
          (range 1 (length formatted_quotes)) formatted_quotes
  else Ok formatted_quotes.

(** The dict [stats_reporter] stores in [latest_stats]. *)
Record Stats : Type := mkStats {
  s_total_requests : nat;
  s_successful_requests : nat;
  s_success_rate : Q;
  s_avg_latency_ms : Q;
  s_min_price : Q;
  s_max_price : Q;
  s_mev_opportunities : nat;
  s_max_drift : Q;
  s_avg_drift : Q;
  s_runtime : Q
}.

(** The [try] block of one pass of [stats_reporter]: the new value of
    [latest_stats], or [None] when the block assigns nothing. *)
Definition compute_stats (latest : list QuoteData) (now start_time : Q)
  : res (option Stats) :=
  if DataAnalyzer.is_empty latest then Ok None
  else
    let successful_quotes := filter success latest in
    if (1 <? length successful_quotes)%nat then
      let latencies := map latency successful_quotes in
      let output_amounts := map output_amount successful_quotes in
      drifts <- mapM (fun i =>
                        previous <- getitem successful_quotes (i - 1) ;;
                        current <- getitem successful_quotes i ;;
                        r <- truediv (inject_Z (output_amount current
                                                - output_amount previous))
                                     (inject_Z (output_amount previous)) ;;
                        Ok (r * 100))
                     (range 1 (length successful_quotes)) ;;
      rate <- truediv (inject_Z (Z.of_nat (length successful_quotes)))
                      (inject_Z (Z.of_nat (length latest))) ;;
      avg_lat <- truediv (sum latencies)
                         (inject_Z (Z.of_nat (length latencies))) ;;
      lo <- min_int output_amounts ;;
      hi <- max_int output_amounts ;;
      max_drift <- (if DataAnalyzer.is_empty drifts then Ok 0
                    else max_by_abs drifts) ;;
      avg_drift <- (if DataAnalyzer.is_empty drifts then Ok 0
                    else truediv (sum drifts)
                                 (inject_Z (Z.of_nat (length drifts)))) ;;
      Ok (Some {| s_total_requests := length latest;
                  s_successful_requests := length successful_quotes;
                  s_success_rate := round (rate * 100) 1;
                  s_avg_latency_ms := round (avg_lat * 1000) 1;
                  s_min_price := round (inject_Z lo / 1000000) 4;
                  s_max_price := round (inject_Z hi / 1000000) 4;
                  s_mev_opportunities :=
                    length (filter (fun d => Qltb (1 # 100) (Qabs d)) drifts);
                  s_max_drift := round max_drift 4;
                  s_avg_drift := round avg_drift 4;
                  s_runtime := round (now - start_time) 1 |})
    else Ok None.

(** One pass of the loop of [stats_reporter]: an exception in the [try]
    block is printed and swallowed, and [latest_stats] stays as it was. *)
Definition stats_reporter_pass (latest : list QuoteData)
  (latest_stats : option Stats) (now start_time : Q) : option Stats :=
  match compute_stats latest now start_time with
  | Ok (Some stats) => Some stats
  | Ok None => latest_stats
  | Raise _ => latest_stats
  end.

End WebApp.

(* ================================================================== *)
(** ** Closed forms used to state the properties *)

Module Rules.
Import Models.
Local Open Scope Q_scope.

(** [zip(l, l[1:])]: each element with its successor. *)
Definition consecutive {A} (l : list A) : list (A * A) := combine l (tl l).

(** The value [calculate_drift] returns. *)
Definition drift (previous_amount current_amount : Z) : Q :=
  if (previous_amount =? 0)%Z then 0
  else inject_Z (current_amount - previous_amount)
       / inject_Z previous_amount * 100.

Definition pair_drift (pc : QuoteData * QuoteData) : Q :=
  drift (output_amount (fst pc)) (output_amount (snd pc)).

(** The drift series as the specification words it: a pair whose first
    amount is zero contributes nothing. *)
Definition drift_series_skipping (l : list QuoteData) : list Q :=
  map pair_drift
      (filter (fun pc => negb (output_amount (fst pc) =? 0)%Z) (consecutive l)).

(** The detection rule for a pair (previous, current). *)
Definition is_opportunity (timing_threshold drift_threshold : Q)
  (pc : QuoteData * QuoteData) : Prop :=
  timing_threshold < latency (fst pc) - latency (snd pc)
  /\ drift_threshold < Qabs (pair_drift pc).

Definition opportunityb (timing_threshold drift_threshold : Q)
  (pc : QuoteData * QuoteData) : bool :=
  Py.Qltb timing_threshold (latency (fst pc) - latency (snd pc))
  && Py.Qltb drift_threshold (Qabs (pair_drift pc)).

(** The report printed for a detected pair. *)
Definition report (config : Config.t) (pc : QuoteData * QuoteData)
  : QuoteTracker.Opportunity :=
  {| QuoteTracker.timing_advantage := latency (fst pc) - latency (snd pc);
     QuoteTracker.price_drift := pair_drift pc;
     QuoteTracker.profit_potential :=
       Qabs (pair_drift pc) * inject_Z (Config.amount config);
     QuoteTracker.opportunity_timestamp := timestamp (snd pc) |}.

(** The two series [calculate_latency_price_correlation] correlates. *)
Definition correlated_latencies (l : list QuoteData) : list Q :=
  map (fun pc => latency (snd pc)) (consecutive l).

Definition correlated_price_changes (l : list QuoteData) : list Q :=
  map (fun pc => Qabs (pair_drift pc)) (consecutive l).

(** The unrounded drift behind the [i]-th exported row. *)
Definition export_drift (successful : list QuoteData) (i : nat) : Q :=
  match i with
  | O => 0
  | S j =>
      match nth_error successful j, nth_error successful i with
      | Some p, Some c => drift (output_amount p) (output_amount c)
      | _, _ => 0
      end
  end.

(** The row [export_to_csv] writes for a quote whose unrounded drift to
    its predecessor is [d]. *)
Definition csv_row (d : Q) (quote : QuoteData) : QuoteTracker.CsvRow :=
  {| QuoteTracker.row_datetime := timestamp quote;
     QuoteTracker.row_timestamp := timestamp quote;
     QuoteTracker.latency_ms := Py.round (latency quote * 1000) 2;
     QuoteTracker.row_output_amount := output_amount quote;
     QuoteTracker.price_usdc :=
       Py.round (inject_Z (output_amount quote) / 1000000) 6;
     QuoteTracker.row_price_impact_pct := Py.round (price_impact_pct quote) 4;
     QuoteTracker.drift_pct := Py.round d 4;
     QuoteTracker.is_mev_opportunity := Py.Qltb (1 # 100) (Qabs d) |}.

Definition previous_drift (previous_amount : option Z) (quote : QuoteData) : Q :=
  match previous_amount with
  | Some p => drift p (output_amount quote)
  | None => 0
  end.

Fixpoint csv_rows (previous_amount : option Z) (l : list QuoteData)
  : list QuoteTracker.CsvRow :=
  match l with
  | [] => []
  | quote :: l' =>
      csv_row (previous_drift previous_amount quote) quote
      :: csv_rows (Some (output_amount quote)) l'
  end.

(** The record [detect_price_anomalies] emits for a quote. *)
Definition anomaly (mean_amount : Np.float64) (std_amount : Np.surd)
  (quote : QuoteData) : DataAnalyzer.Anomaly :=
  {| DataAnalyzer.anomaly_timestamp := timestamp quote;
     DataAnalyzer.anomaly_output_amount := output_amount quote;
     DataAnalyzer.z_score :=
       DataAnalyzer.z_score_of mean_amount std_amount quote;
     DataAnalyzer.deviation_pct :=
       Np.fmul (Np.fdiv (Np.fsub (Np.of_Z (output_amount quote)) mean_amount)
                        mean_amount)
               (Np.Fin 100);
     DataAnalyzer.latency_ms := latency quote * 1000 |}.

(** The amounts [detect_price_anomalies] takes mean and deviation of. *)
Definition amounts (successful : list QuoteData) : list Q :=
  map (fun q => inject_Z (output_amount q)) successful.

End Rules.

(* ================================================================== *)
(** ** Concrete quotes for the examples *)

Module Fixtures.
Import Models.
Local Open Scope Q_scope.

(** A quote as [get_quote] builds it: requested at [ts], answered after
    [lat] seconds; an [error] text is present exactly on failure. *)
Definition sample (ts lat : Q) (amount : Z) (ok : bool) : QuoteData :=
  {| timestamp := ts; request_time := ts; response_time := ts + lat;
     latency := lat; output_amount := amount; price_impact_pct := 0;
     route_plan := [];
     success := ok;
     error := if ok then None else Some "HTTP 500: error"%string |}.

(** The defaults, with a run duration of zero seconds. *)
Definition zero_duration_config : Config.t := {|
  Config.input_mint := Config.input_mint Config.default;
  Config.output_mint := Config.output_mint Config.default;
  Config.amount := 1000000;
  Config.frequency := 5;
  Config.duration := 0;
  Config.concurrent_requests := 10;
  Config.slippage_bps := 50;
  Config.latency_injection := 0;
  Config.output_file := Config.output_file Config.default;
  Config.api_timeout := 10;
  Config.max_retries := 3
|}.

(** A full log: 1000 quotes, numbered by their timestamps. *)
Definition full_log : list QuoteData :=
  map (fun i => sample (inject_Z (Z.of_nat i)) (1 # 10) 1000000 true)
      (seq 0 1000).

(** Two successful quotes 0.01004 % apart. *)
Definition small_drift_quotes : list QuoteData :=
  [sample 0 (1 # 10) 10000000 true; sample 1 (1 # 10) 10001004 true].

(** Twenty quotes at amount 100, a failed request, one quote at 1000. *)
Definition spike_quotes : list QuoteData :=
  repeat (sample 0 (1 # 10) 100 true) 20
  ++ [sample 1 (1 # 10) 0 false; sample 2 (2 # 10) 1000 true].

(** Three successful quotes around a failed one. *)
Definition mixed_quotes : list QuoteData :=
  [sample 0 (1 # 10) 100 true; sample 1 (2 # 10) 0 false;
   sample 2 (3 # 10) 110 true; sample 3 (1 # 10) 99 true].

(** A successful fetch, a rate-limited one, and another successful one. *)
Definition three_fetches : list QuoteTracker.fetch :=
  [ QuoteTracker.mkFetch 0 0 (1 # 10)
      (QuoteTracker.Http200 (Some 100%Z) (Some (1 # 1000)) None);
    QuoteTracker.mkFetch 1 (1 # 2) 1
      (QuoteTracker.HttpError 429 "rate limited");
    QuoteTracker.mkFetch 0 1 (12 # 10)
      (QuoteTracker.Http200 (Some 101%Z) None None) ].

End Fixtures.

(* ================================================================== *)
(** ** Loops that never raise *)

Section Loops.
Import Py.
Local Open Scope py_scope.

Lemma mapM_ext_in {A B} (f g : A -> res B) (l : list A) :
  (forall x, In x l -> f x = g x) -> mapM f l = mapM g l.
Proof.
  induction l as [|x l IH]; intros H; simpl; [reflexivity|].
  rewrite (H x (or_introl eq_refl)), IH; [reflexivity|].
  intros y Hy. apply H. now right.
Qed.

Lemma mapM_pure {A B} (h : A -> B) (l : list A) :
  mapM (fun x => Ok (h x)) l = Ok (map h l).
Proof.
  induction l as [|x l IH]; simpl; [reflexivity|]. now rewrite IH.
Qed.

Lemma foldM_ext_in {A S} (f g : S -> A -> res S) (l : list A) (s : S) :
  (forall a x, In x l -> f a x = g a x) -> foldM f l s = foldM g l s.
Proof.
  revert s. induction l as [|x l IH]; intros s H; simpl; [reflexivity|].
  rewrite (H s x (or_introl eq_refl)). destruct (g s x); simpl; [|reflexivity].
  apply IH. intros b y Hy. apply H. now right.
Qed.

Lemma foldM_pure {A S} (h : S -> A -> S) (l : list A) (s : S) :
  foldM (fun a x => Ok (h a x)) l s = Ok (fold_left h l s).
Proof.
  revert s. induction l as [|x l IH]; intros s; simpl; [reflexivity|]. apply IH.
Qed.

Lemma bind_Ok {A B} (a : A) (k : A -> res B) : bind (Ok a) k = k a.
Proof. reflexivity. Qed.

Lemma getitem_nth {A} (d : A) (l : list A) (i : nat) :
  (i < length l)%nat -> getitem l i = Ok (nth i l d).
Proof.
  intros H. unfold getitem.
  rewrite (nth_error_nth' l d H). reflexivity.
Qed.

Lemma in_range_1 (n i : nat) :
  In i (range 1 n) -> (1 <= i /\ i - 1 < n /\ i < n)%nat.
Proof.
  unfold range. rewrite in_seq. lia.
Qed.

(** Walking the indices [1 .. len-1] and reading [l[i-1]], [l[i]] visits
    the consecutive pairs in order. *)
Lemma map_range_consecutive {A B} (d : A) (F : A * A -> B) (l : list A) :
  map (fun i => F (nth (i - 1) l d, nth i l d)) (range 1 (length l))
  = map F (Rules.consecutive l).
Proof.
  unfold range, Rules.consecutive.
  destruct l as [|x rest]; [reflexivity|].
  simpl length. replace (S (length rest) - 1)%nat with (length rest) by lia.
  simpl tl.
  assert (G : forall rest pre x,
             map (fun i => F (nth (i - 1) (pre ++ x :: rest) d,
                              nth i (pre ++ x :: rest) d))
                 (seq (S (length pre)) (length rest))
             = map F (combine (x :: rest) rest)).
  { clear. induction rest as [|y rest IH]; intros pre x; [reflexivity|].
    cbn [length seq map combine]. f_equal.
    - replace (S (length pre) - 1)%nat with (length pre) by lia.
      rewrite nth_middle.
      replace (pre ++ x :: y :: rest) with ((pre ++ [x]) ++ y :: rest)
        by (rewrite <- app_assoc; reflexivity).
      replace (S (length pre)) with (length (pre ++ [x]))
        by (rewrite length_app; simpl; lia).
      rewrite nth_middle. reflexivity.
    - specialize (IH (pre ++ [x]) y).
      rewrite length_app in IH. simpl in IH.
      replace (length pre + 1)%nat with (S (length pre)) in IH by lia.
      rewrite <- app_assoc in IH. exact IH. }
  exact (G rest [] x).
Qed.

Lemma fold_left_map {A B S} (h : S -> B -> S) (f : A -> B) (l : list A) (s : S) :
  fold_left (fun a x => h a (f x)) l s = fold_left h (map f l) s.
Proof.
  revert s. induction l as [|x l IH]; intros s; simpl; [reflexivity|]. apply IH.
Qed.

Lemma length_consecutive {A} (l : list A) :
  length (Rules.consecutive l) = (length l - 1)%nat.
Proof.
  unfold Rules.consecutive. rewrite length_combine.
  destruct l; cbn [length tl]; lia.
Qed.

Lemma nth_error_consecutive {A} (l : list A) (i : nat) (p c : A) :
  nth_error l i = Some p -> nth_error l (S i) = Some c ->
  nth_error (Rules.consecutive l) i = Some (p, c).
Proof.
  unfold Rules.consecutive. revert i.
  induction l as [|x l IH]; intros i Hp Hc; [destruct i; discriminate|].
  destruct l as [|y l]; [destruct i; simpl in Hc; try discriminate;
                         destruct i; discriminate|].
  destruct i as [|i].
  - simpl in *. congruence.
  - simpl in Hp. change (nth_error (y :: l) (S i) = Some c) in Hc.
    simpl tl in *. cbn [combine nth_error]. apply IH; assumption.
Qed.

End Loops.

(** Inside a loop over [range(1, len(l))], both [l[i-1]] and [l[i]] are
    in range: replace the two reads by the elements read. *)
Ltac read_pair d l Hi :=
  let H1 := fresh in
  let H2 := fresh in
  let H3 := fresh in
  apply in_range_1 in Hi; destruct Hi as (H1 & H2 & H3);
  rewrite (getitem_nth d l _ H2), (getitem_nth d l _ H3).

(* ================================================================== *)
(** ** Drift *)

Section Drift.
Import Py Models.
Local Open Scope py_scope.
Local Open Scope Q_scope.

Lemma inject_Z_nonzero (z : Z) : z <> 0%Z -> Qeq_bool (inject_Z z) 0 = false.
Proof.
  intros H. destruct (Qeq_bool (inject_Z z) 0) eqn:E; [|reflexivity].
  apply Qeq_bool_eq in E. unfold Qeq in E. simpl in E. lia.
Qed.

Lemma calculate_drift_ok (p c : Z) :
  Utils.calculate_drift p c = Ok (Rules.drift p c).
Proof.
  unfold Utils.calculate_drift, Rules.drift.
  destruct (Z.eqb_spec p 0) as [->|Hp]; [reflexivity|].
  unfold truediv. rewrite (inject_Z_nonzero p Hp). reflexivity.
Qed.

Lemma drift_series_ok (l : list QuoteData) :
  DataAnalyzer.drift_series l = Ok (map Rules.pair_drift (Rules.consecutive l)).
Proof.
  unfold DataAnalyzer.drift_series.
  destruct l as [|d l']; [reflexivity|].
  set (l := d :: l').
  rewrite (mapM_ext_in _
             (fun i => Ok (Rules.pair_drift (nth (i - 1) l d, nth i l d)))).
  - rewrite mapM_pure. now rewrite (map_range_consecutive d Rules.pair_drift l).
  - intros i Hi. read_pair d l Hi. simpl.
    apply calculate_drift_ok.
Qed.

End Drift.

(* ================================================================== *)
(** ** The drift series of [analyze_quotes] *)

Section DriftSeries.
Import Py Models Fixtures.
Local Open Scope Q_scope.

(** C2, as stated, fails: two successful quotes of which the first has
    amount 0 give a drift series with one entry, the conventional 0.0,
    where the statement has the pair skipped and the series empty. *)
Lemma drift_series_zero_previous_emits :
  let quotes := [sample 0 (1 # 10) 0 true; sample 1 (1 # 10) 5 true] in
  filter success quotes = quotes
  /\ output_amount (sample 0 (1 # 10) 0 true) = 0%Z
  /\ DataAnalyzer.drift_series (filter success quotes) = Ok [0]
  /\ Rules.drift_series_skipping (filter success quotes) = [].
Proof. repeat split. Qed.

(** C2, amended: for the successful quotes in log order the drift series
    has exactly one entry per consecutive pair (i, i+1); the entry is
    (amount_{i+1} - amount_i) / amount_i * 100 when amount_i is not 0 and
    the value 0.0 when amount_i is 0.  No pair is skipped, and computing
    the series raises nothing. *)
Theorem drift_series_per_pair (quotes : list QuoteData) :
  let successful := filter success quotes in
  exists drifts,
    DataAnalyzer.drift_series successful = Ok drifts
    /\ length drifts = (length successful - 1)%nat
    /\ forall i previous current,
         nth_error successful i = Some previous ->
         nth_error successful (S i) = Some current ->
         exists d,
           nth_error drifts i = Some d
           /\ (output_amount previous <> 0%Z ->
               d = inject_Z (output_amount current - output_amount previous)
                   / inject_Z (output_amount previous) * 100)
           /\ (output_amount previous = 0%Z -> d = 0).
Proof.
  intros successful.
  exists (map Rules.pair_drift (Rules.consecutive successful)).
  split; [apply drift_series_ok|].
  split; [rewrite length_map; apply length_consecutive|].
  intros i previous current Hp Hc.
  exists (Rules.pair_drift (previous, current)). split.
  - rewrite nth_error_map, (nth_error_consecutive _ _ _ _ Hp Hc). reflexivity.
  - unfold Rules.pair_drift, Rules.drift. simpl. split; intros H.
    + destruct (Z.eqb_spec (output_amount previous) 0); [contradiction|reflexivity].
    + rewrite H. reflexivity.
Qed.

Lemma drift_series_per_pair_witness :
  exists drifts,
    DataAnalyzer.drift_series
      (filter success [sample 0 (1 # 10) 200 true; sample 1 (1 # 10) 0 false;
                       sample 2 (1 # 10) 0 true; sample 3 (1 # 10) 7 true])
    = Ok drifts
    /\ nth_error drifts 0 = Some (inject_Z (0 - 200) / inject_Z 200 * 100)
    /\ nth_error drifts 1 = Some 0.
Proof.
  destruct (drift_series_per_pair
              [sample 0 (1 # 10) 200 true; sample 1 (1 # 10) 0 false;
               sample 2 (1 # 10) 0 true; sample 3 (1 # 10) 7 true])
    as (drifts & Hok & _ & Hnth).
  exists drifts. split; [exact Hok|]. split.
  - destruct (Hnth 0%nat _ _ eq_refl eq_refl) as (d & Hd & Hnz & _).
    rewrite Hd. f_equal. apply Hnz. discriminate.
  - destruct (Hnth 1%nat _ _ eq_refl eq_refl) as (d & Hd & _ & Hz).
    rewrite Hd. f_equal. apply Hz. reflexivity.
Defined.

End DriftSeries.

(* ================================================================== *)
(** ** The opportunity detector *)

Section Detector.
Import Py Models Fixtures.
Local Open Scope py_scope.
Local Open Scope Q_scope.

Lemma Qltb_lt (a b : Q) : Qltb a b = true <-> a < b.
Proof.
  unfold Qltb. rewrite negb_true_iff. split; intros H.
  - apply Qnot_le_lt. intros Hle. apply Qle_bool_iff in Hle. congruence.
  - destruct (Qle_bool b a) eqn:E; [|reflexivity].
    apply Qle_bool_iff in E. exfalso. exact (Qlt_not_le _ _ H E).
Qed.

Lemma opportunityb_spec (timing drift : Q) (pc : QuoteData * QuoteData) :
  Rules.opportunityb timing drift pc = true
  <-> Rules.is_opportunity timing drift pc.
Proof.
  unfold Rules.opportunityb, Rules.is_opportunity.
  rewrite andb_true_iff, !Qltb_lt. reflexivity.
Qed.

Lemma count_fold {A} (b : A -> bool) (l : list A) (n : Z) :
  fold_left (fun a x => if b x then (a + 1)%Z else a) l n
  = (n + Z.of_nat (length (filter b l)))%Z.
Proof.
  revert n. induction l as [|x l IH]; intros n; simpl; [lia|].
  rewrite IH. destruct (b x); simpl length; lia.
Qed.

Lemma collect_fold {A B} (b : A -> bool) (f : A -> B) (l : list A) (acc : list B) :
  fold_left (fun a x => if b x then a ++ [f x] else a) l acc
  = acc ++ map f (filter b l).
Proof.
  revert acc. induction l as [|x l IH]; intros acc; simpl.
  - now rewrite app_nil_r.
  - rewrite IH. destruct (b x); [|reflexivity].
    simpl. now rewrite <- app_assoc.
Qed.

Lemma pairs_of_range {A} (d : A) (l : list A) :
  map (fun i => (nth (i - 1) l d, nth i l d)) (range 1 (length l))
  = Rules.consecutive l.
Proof.
  rewrite (map_range_consecutive d (fun pc => pc) l). apply map_id.
Qed.

Lemma analyze_frontrun_opportunities_ok (self : DataAnalyzer.t)
  (quotes : list QuoteData) :
  DataAnalyzer.analyze_frontrun_opportunities self quotes
  = Ok (Z.of_nat (length (filter
          (Rules.opportunityb (DataAnalyzer.latency_advantage_threshold self)
                              (DataAnalyzer.drift_threshold self))
          (Rules.consecutive quotes)))).
Proof.
  unfold DataAnalyzer.analyze_frontrun_opportunities.
  destruct quotes as [|d l']; [reflexivity|].
  set (l := d :: l').
  set (b := Rules.opportunityb _ _).
  rewrite (foldM_ext_in _
    (fun a i => Ok (if b (nth (i - 1) l d, nth i l d) then (a + 1)%Z else a))).
  - rewrite foldM_pure.
    rewrite (fold_left_map (fun a pc => if b pc then (a + 1)%Z else a)
                           (fun i => (nth (i - 1) l d, nth i l d))).
    rewrite pairs_of_range, count_fold. reflexivity.
  - intros a i Hi. read_pair d l Hi. simpl.
    rewrite calculate_drift_ok. simpl.
    unfold b, Rules.opportunityb, Rules.pair_drift. simpl.
    destruct (_ && _); reflexivity.
Qed.

Lemma scan_pairs_ok (config : Config.t) (recent : list QuoteData) :
  QuoteTracker.scan_pairs config recent
  = Ok (map (Rules.report config)
            (filter (Rules.opportunityb (5 # 100) (1 # 100))
                    (Rules.consecutive recent))).
Proof.
  unfold QuoteTracker.scan_pairs.
  destruct recent as [|d l']; [reflexivity|].
  set (l := d :: l').
  set (b := Rules.opportunityb _ _).
  rewrite (foldM_ext_in _
    (fun a i => Ok (if b (nth (i - 1) l d, nth i l d)
                    then a ++ [Rules.report config (nth (i - 1) l d, nth i l d)]
                    else a))).
  - rewrite foldM_pure.
    rewrite (fold_left_map
               (fun a pc => if b pc then a ++ [Rules.report config pc] else a)
               (fun i => (nth (i - 1) l d, nth i l d))).
    rewrite pairs_of_range, collect_fold. reflexivity.
  - intros a i Hi. read_pair d l Hi. simpl.
    rewrite calculate_drift_ok. simpl.
    unfold b, Rules.opportunityb, Rules.report, Rules.pair_drift. simpl.
    destruct (_ && _); reflexivity.
Qed.

(** C4: the counter of [DataAnalyzer] and the scanner of [QuoteTracker]
    select exactly the consecutive pairs (previous, current) with
    previous.latency - current.latency > timing threshold and
    |drift(previous, current)| > drift threshold; the thresholds are 0.05
    and 0.01 (the analyzer's defaults, the scanner's constants); the
    scanner looks at the successful quotes among the last 20 once 10
    quotes exist and 5 of those are successful.  For the pair with
    latencies 0.30, 0.10 and amounts 1,000,000, 990,000 both find exactly
    one opportunity, of timing advantage 0.20 and price drift -1.0. *)
Theorem opportunity_rule (self : DataAnalyzer.t) (config : Config.t)
  (quotes : list QuoteData) :
  let rule := Rules.opportunityb (DataAnalyzer.latency_advantage_threshold self)
                                 (DataAnalyzer.drift_threshold self) in
  let scanned := Rules.opportunityb (5 # 100) (1 # 100) in
  let recent := filter success (slice_last 20 quotes) in
  let previous := sample 0 (30 # 100) 1000000 true in
  let current := sample 1 (10 # 100) 990000 true in
  (forall timing drift pc,
      Rules.opportunityb timing drift pc = true
      <-> timing < latency (fst pc) - latency (snd pc)
          /\ drift < Qabs (Rules.drift (output_amount (fst pc))
                                    (output_amount (snd pc))))
  /\ DataAnalyzer.analyze_frontrun_opportunities self quotes
     = Ok (Z.of_nat (length (filter rule (Rules.consecutive quotes))))
  /\ QuoteTracker.scan_pairs config quotes
     = Ok (map (Rules.report config) (filter scanned (Rules.consecutive quotes)))
  /\ QuoteTracker.front_running_scan config quotes
     = Ok (if (length quotes <? 10)%nat || (length recent <? 5)%nat then []
           else map (Rules.report config)
                    (filter scanned (Rules.consecutive recent)))
  /\ DataAnalyzer.latency_advantage_threshold DataAnalyzer.init = 5 # 100
  /\ DataAnalyzer.drift_threshold DataAnalyzer.init = 1 # 100
  /\ DataAnalyzer.analyze_frontrun_opportunities DataAnalyzer.init
       [previous; current] = Ok 1%Z
  /\ exists o,
       QuoteTracker.scan_pairs config [previous; current] = Ok [o]
       /\ QuoteTracker.timing_advantage o == 20 # 100
       /\ QuoteTracker.price_drift o == - (1)
       /\ QuoteTracker.opportunity_timestamp o = timestamp current.
Proof.
  intros rule scanned recent previous current.
  split; [intros timing drift pc; apply opportunityb_spec|].
  split; [apply analyze_frontrun_opportunities_ok|].
  split; [apply scan_pairs_ok|].
  split.
  { unfold QuoteTracker.front_running_scan. fold recent.
    destruct (length quotes <? 10)%nat; [reflexivity|].
    destruct (length recent <? 5)%nat; [reflexivity|].
    apply scan_pairs_ok. }
  split; [reflexivity|]. split; [reflexivity|]. split; [reflexivity|].
  eexists. split; [rewrite scan_pairs_ok; reflexivity|].
  repeat split; reflexivity.
Qed.

End Detector.

(* ================================================================== *)
(** ** Sums, means and variances of finite values *)

Section Statistics.
Import Py Np.
Local Open Scope Q_scope.

Lemma fsum_fin (l : list Q) (a : Q) :
  fold_left fadd (map Fin l) (Fin a) = Fin (fold_left Qplus l a).
Proof.
  revert a. induction l as [|x l IH]; intros a; simpl; [reflexivity|]. apply IH.
Qed.

Lemma fold_Qplus_shift (l : list Q) (a : Q) :
  fold_left Qplus l a == a + fold_left Qplus l 0.
Proof.
  revert a. induction l as [|x l IH]; intros a; simpl.
  - ring.
  - rewrite (IH (a + x)), (IH (0 + x)). ring.
Qed.

Lemma fold_Qplus_cons (x : Q) (l : list Q) :
  fold_left Qplus (x :: l) 0 == x + fold_left Qplus l 0.
Proof.
  simpl. rewrite fold_Qplus_shift. ring.
Qed.

Lemma fold_Qplus_nonneg (l : list Q) :
  (forall x, In x l -> 0 <= x) -> 0 <= fold_left Qplus l 0.
Proof.
  induction l as [|x l IH]; intros H; [apply Qle_refl|].
  rewrite fold_Qplus_cons.
  assert (0 <= x) by (apply H; now left).
  assert (0 <= fold_left Qplus l 0) by (apply IH; intros y Hy; apply H; now right).
  lra.
Qed.

Lemma fold_Qplus_zero_inv (l : list Q) :
  (forall x, In x l -> 0 <= x) -> fold_left Qplus l 0 == 0 ->
  forall x, In x l -> x == 0.
Proof.
  induction l as [|y l IH]; intros Hpos Hsum x Hx; [destruct Hx|].
  rewrite fold_Qplus_cons in Hsum.
  assert (0 <= y) by (apply Hpos; now left).
  assert (0 <= fold_left Qplus l 0)
    by (apply fold_Qplus_nonneg; intros z Hz; apply Hpos; now right).
  destruct Hx as [<-|Hx]; [lra|].
  apply IH; [intros z Hz; apply Hpos; now right | lra | exact Hx].
Qed.

Lemma fold_Qplus_all_zero (l : list Q) :
  (forall x, In x l -> x == 0) -> fold_left Qplus l 0 == 0.
Proof.
  induction l as [|y l IH]; intros H; [reflexivity|].
  rewrite fold_Qplus_cons, (H y (or_introl eq_refl)), IH; [ring|].
  intros z Hz. apply H. now right.
Qed.

Lemma of_nat_nonzero (n : nat) :
  n <> O -> Qeq_bool (inject_Z (Z.of_nat n)) 0 = false.
Proof.
  intros H. apply inject_Z_nonzero. lia.
Qed.

(** The mean of a non-empty list is the finite value sum / n. *)
Lemma mean_fin (l : list Q) :
  l <> [] ->
  mean l = Fin (fold_left Qplus l 0 / inject_Z (Z.of_nat (length l))).
Proof.
  intros H. unfold mean, fsum, floats, of_nat. rewrite fsum_fin. simpl.
  rewrite of_nat_nonzero; [reflexivity|].
  destruct l; [contradiction|discriminate].
Qed.

Lemma var_fin (l : list Q) (m : Q) :
  l <> [] -> mean l = Fin m ->
  var l = Fin (fold_left Qplus (map (fun x => (x + - m) * (x + - m)) l) 0
               / inject_Z (Z.of_nat (length l))).
Proof.
  intros H Hm. unfold var. rewrite Hm. cbv zeta.
  rewrite (map_ext _ (fun x => Fin ((x + - m) * (x + - m))))
    by reflexivity.
  rewrite <- (map_map (fun x => (x + - m) * (x + - m)) Fin).
  unfold fsum, of_nat. rewrite fsum_fin. simpl.
  rewrite of_nat_nonzero; [reflexivity|].
  destruct l; [contradiction|discriminate].
Qed.

Lemma cov_fin (x y : list Q) (mx my : Q) :
  (2 <= length x)%nat -> mean x = Fin mx -> mean y = Fin my ->
  cov x y = Fin (fold_left Qplus
                   (map (fun ab => (fst ab + - mx) * (snd ab + - my))
                        (combine x y)) 0
                 * (1 / inject_Z (Z.of_nat (length x - 1)))).
Proof.
  intros H Hx Hy. unfold cov. rewrite Hx, Hy. cbv zeta.
  rewrite (map_ext _ (fun ab => Fin ((fst ab + - mx) * (snd ab + - my))))
    by reflexivity.
  rewrite <- (map_map (fun ab => (fst ab + - mx) * (snd ab + - my)) Fin).
  unfold fsum, of_nat. rewrite fsum_fin. simpl.
  rewrite of_nat_nonzero; [reflexivity|lia].
Qed.

Lemma Qdiv_zero_inv (a b : Q) : ~ b == 0 -> a / b == 0 -> a == 0.
Proof.
  intros Hb H.
  assert (E : a == a / b * b) by (field; exact Hb).
  rewrite E, H. ring.
Qed.

Lemma Qsquare_nonneg (a : Q) : 0 <= a * a.
Proof.
  destruct (Qlt_le_dec a 0) as [H|H].
  - setoid_replace (a * a) with ((- a) * (- a)) by ring.
    apply Qmult_le_0_compat; lra.
  - apply Qmult_le_0_compat; assumption.
Qed.

Lemma Qsquare_zero_inv (a : Q) : a * a == 0 -> a == 0.
Proof.
  intros H. destruct (Qmult_integral _ _ H); assumption.
Qed.

(** A zero variance means every entry equals the mean. *)
Lemma var_zero_deviations (l : list Q) (m : Q) :
  l <> [] -> mean l = Fin m -> is_zero (var l) = true ->
  forall x, In x l -> x + - m == 0.
Proof.
  intros Hne Hm Hz x Hx.
  rewrite (var_fin l m Hne Hm) in Hz. simpl in Hz.
  apply Qeq_bool_eq in Hz.
  apply Qdiv_zero_inv in Hz.
  2:{ intros E. apply Qeq_eq_bool in E.
      rewrite of_nat_nonzero in E; [discriminate|].
      destruct l; [contradiction|discriminate]. }
  apply Qsquare_zero_inv.
  apply (fold_Qplus_zero_inv
           (map (fun x => (x + - m) * (x + - m)) l)); [| exact Hz |].
  - intros z Hin. apply in_map_iff in Hin. destruct Hin as (w & <- & _).
    apply Qsquare_nonneg.
  - apply in_map_iff. exists x. split; [reflexivity|exact Hx].
Qed.

Lemma products_zero (x y : list Q) (mx my : Q) :
  (forall a, In a x -> a + - mx == 0) \/ (forall b, In b y -> b + - my == 0) ->
  fold_left Qplus
    (map (fun ab => (fst ab + - mx) * (snd ab + - my)) (combine x y)) 0 == 0.
Proof.
  intros H. apply fold_Qplus_all_zero. intros z Hz.
  apply in_map_iff in Hz. destruct Hz as ((a, b) & <- & Hin). simpl.
  destruct H as [H|H].
  - rewrite (H a (in_combine_l _ _ _ _ Hin)). ring.
  - rewrite (H b (in_combine_r _ _ _ _ Hin)). ring.
Qed.

End Statistics.

(* ================================================================== *)
(** ** The latency/price correlation *)

Section Correlation.
Import Py Np Models Fixtures.
Local Open Scope py_scope.
Local Open Scope Q_scope.

Lemma sqrt_fin_cases (v : Q) :
  sqrt (Fin v) = of_float NaN
  \/ (v == 0 /\ sqrt (Fin v) = of_float (Fin 0))
  \/ (~ v == 0 /\ sqrt (Fin v) = mkSurd (Fin 1) v).
Proof.
  unfold sqrt. destruct (Qltb v 0); [now left|right].
  destruct (Qeq_bool v 0) eqn:E.
  - left. split; [now apply Qeq_bool_eq|reflexivity].
  - right. split; [now apply Qeq_bool_neq|reflexivity].
Qed.

(** Dividing a zero or a NaN by a standard deviation gives a zero or a
    NaN again, and a NaN when the deviation is zero. *)
Lemma sdiv_by_sqrt (x : surd) (v : Q) :
  isnan (coef x) = true \/ is_zero (coef x) = true ->
  (isnan (coef (sdiv x (sqrt (Fin v)))) = true
   \/ is_zero (coef (sdiv x (sqrt (Fin v)))) = true)
  /\ (v == 0 -> isnan (coef (sdiv x (sqrt (Fin v)))) = true)
  /\ (isnan (coef x) = true -> isnan (coef (sdiv x (sqrt (Fin v)))) = true).
Proof.
  intros Hx. destruct x as [[c|s|] r]; simpl in Hx.
  - destruct Hx as [Hx|Hx]; [discriminate|].
    destruct (sqrt_fin_cases v) as [E|[[Hv E]|[Hv E]]]; rewrite E; simpl.
    + repeat split; auto.
    + rewrite Hx. repeat split; auto.
    + assert (Hnz : Qeq_bool (1 * v) 0 = false).
      { destruct (Qeq_bool (1 * v) 0) eqn:E1; [|reflexivity].
        apply Qeq_bool_eq in E1. exfalso. apply Hv. rewrite <- E1. ring. }
      rewrite Hnz. simpl. repeat split.
      * right. apply Qeq_eq_bool. apply Qeq_bool_eq in Hx. rewrite Hx.
        unfold Qdiv. ring.
      * intros H0. contradiction.
      * discriminate.
  - destruct Hx; discriminate.
  - simpl. repeat split; auto.
Qed.

Lemma corrcoef01_nan (x y : list Q) :
  length x = length y -> (2 <= length x)%nat ->
  is_zero (var x) = true \/ is_zero (var y) = true ->
  sisnan (corrcoef01 x y) = true.
Proof.
  intros Hlen Hx Hz.
  assert (Hy : (2 <= length y)%nat) by lia.
  assert (Hxne : x <> []) by (destruct x; [simpl in Hx; lia|discriminate]).
  assert (Hyne : y <> []) by (destruct y; [simpl in Hy; lia|discriminate]).
  pose proof (mean_fin x Hxne) as Hmx. pose proof (mean_fin y Hyne) as Hmy.
  set (mx := _ / _) in Hmx. set (my := _ / _) in Hmy.
  assert (Hdev : (forall a, In a x -> a + - mx == 0)
                 \/ (forall b, In b y -> b + - my == 0)).
  { destruct Hz as [Hz|Hz]; [left|right].
    - exact (var_zero_deviations x mx Hxne Hmx Hz).
    - exact (var_zero_deviations y my Hyne Hmy Hz). }
  unfold corrcoef01.
  rewrite (cov_fin x y mx my Hx Hmx Hmy).
  rewrite (cov_fin x x mx mx Hx Hmx Hmx).
  rewrite (cov_fin y y my my Hy Hmy Hmy).
  set (cxy := _ * _). set (cxx := _ * _). set (cyy := _ * _).
  assert (Hxy : cxy == 0).
  { unfold cxy. rewrite (products_zero x y mx my Hdev). ring. }
  assert (Hvar : cxx == 0 \/ cyy == 0).
  { destruct Hdev as [H|H]; [left|right].
    - unfold cxx. rewrite (products_zero x x mx mx (or_introl H)). ring.
    - unfold cyy. rewrite (products_zero y y my my (or_introl H)). ring. }
  assert (H0 : isnan (coef (of_float (Fin cxy))) = true
               \/ is_zero (coef (of_float (Fin cxy))) = true).
  { right. simpl. now apply Qeq_eq_bool. }
  destruct (sdiv_by_sqrt _ cxx H0) as (H1 & H1z & _).
  destruct (sdiv_by_sqrt _ cyy H1) as (_ & H2z & H2n).
  assert (Hnan : sisnan (sdiv (sdiv (of_float (Fin cxy)) (sqrt (Fin cxx)))
                              (sqrt (Fin cyy))) = true).
  { unfold sisnan. destruct Hvar as [H|H]; auto. }
  unfold sclip. rewrite Hnan. exact Hnan.
Qed.

Lemma correlation_ok (self : DataAnalyzer.t) (quotes : list QuoteData) :
  DataAnalyzer.calculate_latency_price_correlation self quotes
  = Ok (if (length quotes <? 3)%nat then of_float (Fin 0)
        else
          let latencies := Rules.correlated_latencies quotes in
          let changes := Rules.correlated_price_changes quotes in
          if (length latencies <? 2)%nat then of_float (Fin 0)
          else
            let c := corrcoef01 latencies changes in
            if sisnan c then of_float (Fin 0) else c).
Proof.
  unfold DataAnalyzer.calculate_latency_price_correlation.
  destruct quotes as [|d l']; [reflexivity|].
  set (l := d :: l').
  destruct (length l <? 3)%nat; [reflexivity|].
  set (F := fun pc : QuoteData * QuoteData =>
              (latency (snd pc), Qabs (Rules.pair_drift pc))).
  rewrite (mapM_ext_in _ (fun i => Ok (F (nth (i - 1) l d, nth i l d)))).
  - rewrite mapM_pure, bind_Ok. cbv beta zeta.
    rewrite (map_range_consecutive d F l).
    unfold Rules.correlated_latencies, Rules.correlated_price_changes.
    rewrite !map_map. unfold F. cbn [fst snd].
    destruct (_ <? 2)%nat; [reflexivity|].
    destruct (sisnan _); reflexivity.
  - intros i Hi. read_pair d l Hi. simpl.
    rewrite calculate_drift_ok. reflexivity.
Qed.

(** C1, as stated, fails: three quotes make two consecutive pairs, fewer
    than three, and the correlation returned is +1 (positive, of square
    1), not 0.0. *)
Lemma correlation_two_pairs_nonzero :
  let quotes := [sample 0 (1 # 10) 100 true; sample 1 (2 # 10) 101 true;
                 sample 2 (3 # 10) 103 true] in
  length (Rules.consecutive quotes) = 2%nat
  /\ exists r,
       DataAnalyzer.calculate_latency_price_correlation DataAnalyzer.init quotes
       = Ok r
       /\ sisnan r = false
       /\ sgtb r (of_float (Fin 0)) = true
       /\ exists sq, ssquare r = Fin sq /\ sq == 1.
Proof.
  split; [reflexivity|]. eexists. split; [reflexivity|].
  split; [vm_compute; reflexivity|]. split; [vm_compute; reflexivity|].
  eexists. split; [vm_compute; reflexivity|]. reflexivity.
Qed.

(** The absolute drifts of a list in which no consecutive pair changes
    the amount are all zero, and so is their variance. *)
Lemma unchanged_amounts_variance (quotes : list QuoteData) :
  (2 <= length quotes)%nat ->
  (forall pc, In pc (Rules.consecutive quotes) ->
     output_amount (fst pc) = 0%Z
     \/ output_amount (snd pc) = output_amount (fst pc)) ->
  is_zero (var (Rules.correlated_price_changes quotes)) = true.
Proof.
  intros Hlen Hsame.
  set (changes := Rules.correlated_price_changes quotes).
  assert (Hz : forall x, In x changes -> x == 0).
  { intros x Hx. unfold changes, Rules.correlated_price_changes in Hx.
    apply in_map_iff in Hx. destruct Hx as (pc & <- & Hpc).
    unfold Rules.pair_drift, Rules.drift.
    destruct (Z.eqb_spec (output_amount (fst pc)) 0) as [_|Hnz];
      [reflexivity|].
    destruct (Hsame pc Hpc) as [E|E]; [contradiction|].
    rewrite E, Z.sub_diag. unfold Qdiv. rewrite !Qmult_0_l. reflexivity. }
  assert (Hne : changes <> []).
  { intros E. apply (f_equal (@length Q)) in E.
    unfold changes, Rules.correlated_price_changes in E.
    rewrite length_map, length_consecutive in E. simpl in E. lia. }
  pose proof (mean_fin changes Hne) as Hm. set (m := _ / _) in Hm.
  assert (Hm0 : m == 0).
  { unfold m. rewrite fold_Qplus_all_zero by exact Hz. unfold Qdiv. ring. }
  rewrite (var_fin changes m Hne Hm). cbn [is_zero].
  apply Qeq_eq_bool. rewrite fold_Qplus_all_zero; [unfold Qdiv; ring|].
  intros z Hz'. apply in_map_iff in Hz'. destruct Hz' as (w & <- & Hw).
  rewrite (Hz w Hw), Hm0. ring.
Qed.

(** C1, amended: the correlation computation never raises and never
    returns NaN.  It returns 0.0 when fewer than 3 quotes, that is fewer
    than 2 consecutive pairs, are passed; otherwise it returns numpy's
    coefficient of the latencies and the absolute drifts, with 0.0 in
    place of a NaN.  The coefficient is NaN, and the result 0.0, in
    particular when no consecutive pair changes the amount: every drift
    is then exactly 0.0, in float64 as well. *)
Theorem correlation_defaults_to_zero (self : DataAnalyzer.t)
  (quotes : list QuoteData) :
  let latencies := Rules.correlated_latencies quotes in
  let changes := Rules.correlated_price_changes quotes in
  exists r,
    DataAnalyzer.calculate_latency_price_correlation self quotes = Ok r
    /\ sisnan r = false
    /\ ((length quotes < 3)%nat -> r = of_float (Fin 0))
    /\ ((length (Rules.consecutive quotes) < 2)%nat -> r = of_float (Fin 0))
    /\ ((3 <= length quotes)%nat ->
        r = if sisnan (corrcoef01 latencies changes)
            then of_float (Fin 0)
            else corrcoef01 latencies changes)
    /\ ((forall pc, In pc (Rules.consecutive quotes) ->
           output_amount (fst pc) = 0%Z
           \/ output_amount (snd pc) = output_amount (fst pc)) ->
        r = of_float (Fin 0)).
Proof.
  intros latencies changes.
  eexists. split; [apply correlation_ok|].
  fold latencies changes. cbv zeta.
  assert (Hl : length latencies = (length quotes - 1)%nat).
  { unfold latencies, Rules.correlated_latencies.
    rewrite length_map. apply length_consecutive. }
  assert (Hc : length changes = (length quotes - 1)%nat).
  { unfold changes, Rules.correlated_price_changes.
    rewrite length_map. apply length_consecutive. }
  destruct (Nat.ltb_spec (length quotes) 3) as [H3|H3].
  { repeat split; try reflexivity. intros H. lia. }
  destruct (Nat.ltb_spec (length latencies) 2) as [H2|H2]; [lia|].
  split; [|split; [|split; [|split]]].
  - destruct (sisnan (corrcoef01 latencies changes)) eqn:E; [reflexivity|exact E].
  - lia.
  - rewrite length_consecutive. lia.
  - reflexivity.
  - intros Hsame. rewrite corrcoef01_nan; [reflexivity| lia | lia |].
    right. apply unchanged_amounts_variance; [lia|exact Hsame].
Qed.

Lemma correlation_defaults_to_zero_witness :
  DataAnalyzer.calculate_latency_price_correlation DataAnalyzer.init
    [sample 0 (1 # 10) 250 true; sample 1 (3 # 10) 250 true;
     sample 2 (2 # 10) 250 true; sample 3 (4 # 10) 250 true]
  = Ok (of_float (Fin 0)).
Proof.
  destruct (correlation_defaults_to_zero DataAnalyzer.init
              [sample 0 (1 # 10) 250 true; sample 1 (3 # 10) 250 true;
               sample 2 (2 # 10) 250 true; sample 3 (4 # 10) 250 true])
    as (r & Hr & _ & _ & _ & _ & Hz).
  rewrite Hr. f_equal. apply Hz.
  intros pc Hpc. right. simpl in Hpc.
  repeat (destruct Hpc as [<-|Hpc]; [reflexivity|]). destruct Hpc.
Defined.

End Correlation.

(* ================================================================== *)
(** ** [analyze_quotes] *)

Section Analyze.
Import Py Np Models Fixtures.
Local Open Scope py_scope.
Local Open Scope Q_scope.

Variable self : DataAnalyzer.t.

Lemma calculate_avg_interval_ok (timestamps : list Q) :
  DataAnalyzer.calculate_avg_interval self timestamps
  = Ok (if (length timestamps <? 2)%nat then Fin 0
        else mean (map (fun pc => snd pc - fst pc)
                       (Rules.consecutive timestamps))).
Proof.
  unfold DataAnalyzer.calculate_avg_interval.
  destruct timestamps as [|d l']; [reflexivity|].
  set (l := d :: l').
  destruct (length l <? 2)%nat; [reflexivity|].
  rewrite (mapM_ext_in _
             (fun i => Ok ((fun pc : Q * Q => snd pc - fst pc)
                             (nth (i - 1) l d, nth i l d)))).
  - rewrite mapM_pure, bind_Ok.
    now rewrite (map_range_consecutive d (fun pc : Q * Q => snd pc - fst pc) l).
  - intros i Hi. read_pair d l Hi. reflexivity.
Qed.

Lemma filter_length_le {A} (f : A -> bool) (l : list A) :
  (length (filter f l) <= length l)%nat.
Proof.
  induction l as [|x l IH]; simpl; [lia|]. destruct (f x); simpl; lia.
Qed.

Lemma analyze_quotes_absent (quotes : list QuoteData) :
  (length (filter success quotes) < 2)%nat ->
  DataAnalyzer.analyze_quotes self quotes = Ok None.
Proof.
  intros H. unfold DataAnalyzer.analyze_quotes.
  destruct (DataAnalyzer.is_empty quotes); [reflexivity|].
  destruct (Nat.ltb_spec (length (filter success quotes)) 2); [reflexivity|lia].
Qed.

Lemma analyze_quotes_present (quotes : list QuoteData) :
  (2 <= length (filter success quotes))%nat ->
  exists r,
    DataAnalyzer.analyze_quotes self quotes = Ok (Some r)
    /\ DataAnalyzer.total_quotes r = length quotes
    /\ DataAnalyzer.successful_quotes r = length (filter success quotes).
Proof.
  intros H. unfold DataAnalyzer.analyze_quotes.
  pose proof (filter_length_le success quotes) as Hle.
  destruct quotes as [|q0 quotes']; [simpl in H; lia|].
  cbn [DataAnalyzer.is_empty].
  set (quotes := q0 :: quotes') in *.
  destruct (Nat.ltb_spec (length (filter success quotes)) 2) as [|_]; [lia|].
  destruct (filter success quotes) as [|a [|b s]] eqn:Es;
    [simpl in H; lia | simpl in H; lia |].
  set (successful := a :: b :: s).
  rewrite drift_series_ok, bind_Ok.
  cbn [Rules.consecutive tl combine map DataAnalyzer.is_empty successful].
  unfold truediv. rewrite of_nat_nonzero by discriminate. rewrite bind_Ok.
  cbn [amin amax map]. rewrite !bind_Ok.
  rewrite analyze_frontrun_opportunities_ok, bind_Ok.
  rewrite correlation_ok, bind_Ok.
  rewrite (getitem_nth 0) by (simpl; lia). rewrite bind_Ok.
  cbn [getitem nth_error]. rewrite bind_Ok.
  rewrite calculate_avg_interval_ok, bind_Ok.
  eexists. split; [reflexivity|]. split; reflexivity.
Qed.

(** C3: [analyze_quotes] never raises; it returns None exactly when the
    input holds fewer than 2 successful quotes, and a result exactly when
    it holds at least 2. *)
Theorem analyze_quotes_absent_iff (quotes : list QuoteData) :
  let n := length (filter success quotes) in
  (exists r, DataAnalyzer.analyze_quotes self quotes = Ok r)
  /\ (DataAnalyzer.analyze_quotes self quotes = Ok None <-> (n < 2)%nat)
  /\ ((exists r, DataAnalyzer.analyze_quotes self quotes = Ok (Some r))
      <-> (2 <= n)%nat).
Proof.
  intros n. unfold n.
  destruct (Nat.lt_ge_cases (length (filter success quotes)) 2) as [Hlt|Hge].
  - pose proof (analyze_quotes_absent quotes Hlt) as E.
    split; [eexists; exact E|]. split.
    + split; [intros _; exact Hlt | intros _; exact E].
    + split; [intros [r Hr]; rewrite E in Hr; discriminate | lia].
  - destruct (analyze_quotes_present quotes Hge) as (r & E & _).
    split; [eexists; exact E|]. split.
    + split; [intros Hn; rewrite E in Hn; discriminate | lia].
    + split; [intros _; exact Hge | intros _; eexists; exact E].
Qed.

End Analyze.

(* ================================================================== *)
(** ** Configuration *)

Section Configuration.
Import Py Fixtures.
Local Open Scope Q_scope.

Lemma Qle_bool_false (a b : Q) : Qle_bool a b = false <-> b < a.
Proof.
  rewrite <- Qltb_lt. unfold Qltb. destruct (Qle_bool a b); simpl; split; congruence.
Qed.

Lemma Qltb_false (a b : Q) : Qltb a b = false <-> b <= a.
Proof.
  unfold Qltb. rewrite negb_false_iff. apply Qle_bool_iff.
Qed.

(** C7, as stated, fails: none of the five listed conditions holds for
    the defaults with duration 0, and construction still raises. *)
Lemma config_zero_duration_raises :
  0 < Config.frequency zero_duration_config
  /\ (0 < Config.concurrent_requests zero_duration_config)%Z
  /\ (0 < Config.amount zero_duration_config)%Z
  /\ (0 <= Config.slippage_bps zero_duration_config)%Z
  /\ 0 <= Config.latency_injection zero_duration_config
  /\ Config.new zero_duration_config
     = Raise (ValueError "Duration must be greater than 0").
Proof.
  repeat split; try reflexivity; simpl; try lia; discriminate.
Qed.

(** A check of [__post_init__] that fails: the constructor raises, and
    the failed condition is among the six. *)
Ltac refused :=
  simpl; split; split;
  [ discriminate
  | intros (Hf & Hd & Hw & Ha & Hs & Hl); first [lia | lra]
  | intros _; tauto
  | intros _; eexists; reflexivity ].

(** C7, amended: constructing a configuration raises (a ValueError)
    exactly when frequency <= 0, duration <= 0, worker count <= 0,
    amount <= 0, slippage < 0 or injected latency < 0, and succeeds,
    returning the configuration unchanged, exactly when none of these
    six conditions holds. *)
Theorem config_validation (c : Config.t) :
  (Config.new c = Ok c
   <-> 0 < Config.frequency c
       /\ (0 < Config.duration c)%Z
       /\ (0 < Config.concurrent_requests c)%Z
       /\ (0 < Config.amount c)%Z
       /\ (0 <= Config.slippage_bps c)%Z
       /\ 0 <= Config.latency_injection c)
  /\ ((exists msg, Config.new c = Raise (ValueError msg))
      <-> Config.frequency c <= 0
          \/ (Config.duration c <= 0)%Z
          \/ (Config.concurrent_requests c <= 0)%Z
          \/ (Config.amount c <= 0)%Z
          \/ (Config.slippage_bps c < 0)%Z
          \/ Config.latency_injection c < 0).
Proof.
  unfold Config.new, Config.post_init.
  destruct (Qle_bool (Config.frequency c) 0) eqn:Ef.
  { apply Qle_bool_iff in Ef. refused. }
  apply Qle_bool_false in Ef.
  destruct (Z.leb_spec (Config.duration c) 0) as [Ed|Ed]; [refused|].
  destruct (Z.leb_spec (Config.concurrent_requests c) 0) as [Ew|Ew]; [refused|].
  destruct (Z.leb_spec (Config.amount c) 0) as [Ea|Ea]; [refused|].
  destruct (Z.ltb_spec (Config.slippage_bps c) 0) as [Es|Es]; [refused|].
  destruct (Qltb (Config.latency_injection c) 0) eqn:El.
  { apply Qltb_lt in El. refused. }
  apply Qltb_false in El. simpl. split; split.
  - intros _. repeat split; assumption.
  - reflexivity.
  - intros [msg H]. discriminate.
  - intros [H|[H|[H|[H|[H|H]]]]]; try lia; lra.
Qed.

Lemma Qdiv_pos (a b : Q) : 0 < a -> 0 < b -> 0 < a / b.
Proof.
  intros Ha Hb. unfold Qdiv. apply Qmult_lt_0_compat; [exact Ha|].
  now apply Qinv_lt_0_compat.
Qed.

Lemma Qeq_bool_pos (a : Q) : 0 < a -> Qeq_bool a 0 = false.
Proof.
  intros H. destruct (Qeq_bool a 0) eqn:E; [|reflexivity].
  apply Qeq_bool_eq in E. lra.
Qed.

(** C9: for a frequency F > 0 and a worker count W > 0 every worker loop
    ([Config.worker_interval], [quote_worker], the two web wrappers)
    computes its interval without raising, and the interval is W / F. *)
Theorem worker_interval_exact (c : Config.t) :
  0 < Config.frequency c ->
  (0 < Config.concurrent_requests c)%Z ->
  exists v,
    Config.worker_interval c = Ok v
    /\ QuoteTracker.quote_worker_interval c = Ok v
    /\ WebApp.interval c = Ok v
    /\ v == inject_Z (Config.concurrent_requests c) / Config.frequency c.
Proof.
  intros HF HW.
  assert (HWq : 0 < inject_Z (Config.concurrent_requests c)).
  { unfold Qlt. simpl. lia. }
  pose proof (Qdiv_pos _ _ HF HWq) as Hr.
  exists (1 / (Config.frequency c / inject_Z (Config.concurrent_requests c))).
  unfold Config.worker_interval, Config.requests_per_worker,
    QuoteTracker.quote_worker_interval, WebApp.interval, truediv.
  rewrite (Qeq_bool_pos _ HWq). simpl.
  rewrite (Qeq_bool_pos _ Hr).
  repeat split. field. split; lra.
Qed.

Lemma worker_interval_exact_witness :
  exists v, Config.worker_interval Config.default = Ok v /\ v == 2.
Proof.
  destruct (worker_interval_exact Config.default) as (v & H & _ & _ & Hv).
  - reflexivity.
  - reflexivity.
  - exists v. split; [exact H|]. rewrite Hv. reflexivity.
Defined.

End Configuration.

(* ================================================================== *)
(** ** Retention of the shared quote list *)

Section Retention.
Import Py Models Fixtures.

Lemma slice_last_length {A} (n : nat) (l : list A) :
  length (slice_last n l) = Nat.min n (length l).
Proof.
  unfold slice_last. rewrite length_skipn. lia.
Qed.

Lemma slice_last_suffix {A} (n : nat) (l : list A) :
  l = firstn (length l - n) l ++ slice_last n l.
Proof.
  unfold slice_last. symmetry. apply firstn_skipn.
Qed.

Lemma worker_iteration_bound (st : WebApp.state) (q : QuoteData) :
  (length (WebApp.latest_quotes (WebApp.worker_iteration st q)) <= 1000)%nat.
Proof.
  unfold WebApp.worker_iteration. simpl.
  destruct (Nat.ltb_spec 1000 (length (WebApp.latest_quotes st ++ [q]))).
  - rewrite slice_last_length. lia.
  - lia.
Qed.

Lemma run_bound (quotes : list QuoteData) (st : WebApp.state) :
  (length (WebApp.latest_quotes st) <= 1000)%nat ->
  (length (WebApp.latest_quotes (WebApp.run st quotes)) <= 1000)%nat.
Proof.
  revert st. induction quotes as [|q quotes IH]; intros st H; simpl; [exact H|].
  apply IH. apply worker_iteration_bound.
Qed.

(** C6: starting from a list within the cap of 1000, the list is within
    the cap after every run of worker iterations; an iteration whose
    append takes the length past 1000 leaves exactly the last 500 entries
    of the appended list, and any other iteration leaves the appended
    list as it is. *)
Theorem retention_cap (st : WebApp.state) (quotes : list QuoteData) :
  (length (WebApp.latest_quotes st) <= 1000)%nat ->
  (length (WebApp.latest_quotes (WebApp.run st quotes)) <= 1000)%nat
  /\ forall q,
       let appended := WebApp.latest_quotes st ++ [q] in
       let kept := WebApp.latest_quotes (WebApp.worker_iteration st q) in
       ((1000 < length appended)%nat ->
        length kept = 500%nat
        /\ kept = skipn (length appended - 500) appended
        /\ appended = firstn (length appended - 500) appended ++ kept)
       /\ ((length appended <= 1000)%nat -> kept = appended).
Proof.
  intros H. split; [now apply run_bound|].
  intros q appended kept. unfold kept, WebApp.worker_iteration. simpl.
  fold appended.
  destruct (Nat.ltb_spec 1000 (length appended)) as [Hgt|Hle]; split; intros H'.
  - split; [rewrite slice_last_length; lia|].
    split; [reflexivity|apply slice_last_suffix].
  - lia.
  - lia.
  - reflexivity.
Qed.

Lemma retention_cap_witness :
  length (WebApp.latest_quotes
            (WebApp.worker_iteration
               {| WebApp.latest_quotes := full_log; WebApp.total_requests := 1000 |}
               (sample 1000 (1 # 10) 1000000 true))) = 500%nat.
Proof.
  destruct (retention_cap
              {| WebApp.latest_quotes := full_log; WebApp.total_requests := 1000 |}
              [])
    as (_ & Hstep).
  - cbn [WebApp.latest_quotes]. unfold full_log.
    rewrite length_map, length_seq. lia.
  - destruct (Hstep (sample 1000 (1 # 10) 1000000 true)) as (Htrim & _).
    apply Htrim. cbn [WebApp.latest_quotes]. unfold full_log.
    rewrite length_app, length_map, length_seq. cbn [length]. lia.
Defined.

End Retention.

(* ================================================================== *)
(** ** The CSV export *)

Section CsvExport.
Import Py Models Fixtures.
Local Open Scope py_scope.
Local Open Scope Q_scope.

Lemma round_half_even_Z (x : Q) (z : Z) :
  x == inject_Z z -> round_half_even x = z.
Proof.
  intros H. unfold round_half_even.
  rewrite (Qfloor_comp _ _ H), Qfloor_Z.
  assert (E : x - inject_Z z == 0) by lra.
  rewrite (Qcompare_comp _ _ E (1 # 2) (1 # 2) (Qeq_refl _)).
  reflexivity.
Qed.

(** Rounding amount / 10^6 to six decimals changes nothing. *)
Lemma round_micro (z : Z) :
  round (inject_Z z / 1000000) 6 == inject_Z z / 1000000.
Proof.
  unfold round.
  rewrite (round_half_even_Z _ z).
  - change (inject_Z (10 ^ Z.of_nat 6)) with 1000000. reflexivity.
  - change (inject_Z (10 ^ Z.of_nat 6)) with 1000000. field.
Qed.

Lemma export_row_ok (previous_amount : option Z) (quote : QuoteData) :
  QuoteTracker.export_row previous_amount quote
  = Ok (Rules.csv_row (Rules.previous_drift previous_amount quote) quote,
        Some (output_amount quote)).
Proof.
  unfold QuoteTracker.export_row.
  destruct previous_amount as [p|]; simpl; [|reflexivity].
  destruct (Z.eqb_spec p 0) as [->|Hp]; simpl; [reflexivity|].
  rewrite calculate_drift_ok. reflexivity.
Qed.

Lemma export_fold (l : list QuoteData) (previous_amount : option Z)
  (rows : list QuoteTracker.CsvRow) :
  exists last,
    foldM (fun (st : option Z * list QuoteTracker.CsvRow) quote =>
             r <- QuoteTracker.export_row (fst st) quote ;;
             Ok (snd r, snd st ++ [fst r]))
          l (previous_amount, rows)
    = Ok (last, rows ++ Rules.csv_rows previous_amount l).
Proof.
  revert previous_amount rows.
  induction l as [|q l IH]; intros previous_amount rows; simpl.
  - exists previous_amount. now rewrite app_nil_r.
  - rewrite export_row_ok. simpl.
    destruct (IH (Some (output_amount q))
                 (rows ++ [Rules.csv_row (Rules.previous_drift previous_amount q) q]))
      as [last E].
    exists last. rewrite E, <- app_assoc. reflexivity.
Qed.

Lemma export_to_csv_ok (quotes : list QuoteData) :
  QuoteTracker.export_to_csv quotes
  = Ok (match filter success quotes with
        | [] => None
        | _ :: _ => Some (Rules.csv_rows None (filter success quotes))
        end).
Proof.
  unfold QuoteTracker.export_to_csv.
  destruct (filter success quotes) as [|q s]; [reflexivity|].
  cbn [DataAnalyzer.is_empty].
  destruct (export_fold (q :: s) None []) as [last E].
  rewrite E. reflexivity.
Qed.

Lemma length_csv_rows (l : list QuoteData) (previous_amount : option Z) :
  length (Rules.csv_rows previous_amount l) = length l.
Proof.
  revert previous_amount. induction l as [|q l IH]; intros p; simpl; [reflexivity|].
  now rewrite IH.
Qed.

Lemma nth_error_csv_rows (l : list QuoteData) (previous_amount : option Z)
  (i : nat) (quote : QuoteData) :
  nth_error l i = Some quote ->
  nth_error (Rules.csv_rows previous_amount l) i
  = Some (Rules.csv_row
            (match i with
             | O => Rules.previous_drift previous_amount quote
             | S _ => Rules.export_drift l i
             end) quote).
Proof.
  revert previous_amount i.
  induction l as [|x l IH]; intros p i H; [destruct i; discriminate|].
  destruct i as [|j]; simpl in H.
  - injection H as ->. reflexivity.
  - cbn [Rules.csv_rows nth_error]. rewrite (IH _ _ H). do 2 f_equal.
    unfold Rules.export_drift. cbn [nth_error]. rewrite H.
    destruct j as [|k]; [reflexivity|].
    cbn [nth_error]. reflexivity.
Qed.

(** C5, as stated, fails: for two successful quotes 0.01004 % apart the
    second row carries drift_pct 0.01, which does not exceed 0.01, and
    is_mev_opportunity true. *)
Lemma export_flag_not_from_rounded_drift :
  exists first second,
    QuoteTracker.export_to_csv small_drift_quotes = Ok (Some [first; second])
    /\ QuoteTracker.drift_pct second == 1 # 100
    /\ Qltb (1 # 100) (Qabs (QuoteTracker.drift_pct second)) = false
    /\ QuoteTracker.is_mev_opportunity second = true.
Proof.
  do 2 eexists. split; [reflexivity|]. repeat split.
Qed.

(** C5, amended: for a non-empty sequence of successful quotes the export
    writes one row per quote; the first row has drift_pct 0.0 and
    is_mev_opportunity false; every row has price_usdc =
    output_amount / 1_000_000, drift_pct = the drift to the previous
    exported quote rounded to 4 decimals, and is_mev_opportunity =
    (|d| > 0.01) for that drift d before rounding. *)
Theorem export_rows (quotes : list QuoteData) :
  let successful := filter success quotes in
  successful <> [] ->
  exists rows,
    QuoteTracker.export_to_csv quotes = Ok (Some rows)
    /\ length rows = length successful
    /\ (exists first,
          nth_error rows 0 = Some first
          /\ QuoteTracker.drift_pct first == 0
          /\ QuoteTracker.is_mev_opportunity first = false)
    /\ forall i quote,
         nth_error successful i = Some quote ->
         exists row,
           nth_error rows i = Some row
           /\ QuoteTracker.row_output_amount row = output_amount quote
           /\ QuoteTracker.price_usdc row
              == inject_Z (output_amount quote) / 1000000
           /\ QuoteTracker.drift_pct row
              = round (Rules.export_drift successful i) 4
           /\ QuoteTracker.is_mev_opportunity row
              = Qltb (1 # 100) (Qabs (Rules.export_drift successful i)).
Proof.
  intros successful Hne.
  exists (Rules.csv_rows None successful).
  split.
  { rewrite export_to_csv_ok. fold successful.
    destruct successful; [contradiction|reflexivity]. }
  split; [apply length_csv_rows|].
  split.
  { destruct successful as [|q s]; [contradiction|].
    eexists. split; [reflexivity|]. split; reflexivity. }
  intros i quote Hq.
  eexists. split; [apply (nth_error_csv_rows _ _ _ _ Hq)|].
  assert (E : match i with
              | O => Rules.previous_drift None quote
              | S _ => Rules.export_drift successful i
              end = Rules.export_drift successful i)
    by (destruct i; reflexivity).
  rewrite E. cbn [Rules.csv_row QuoteTracker.row_output_amount
                   QuoteTracker.price_usdc QuoteTracker.drift_pct
                   QuoteTracker.is_mev_opportunity].
  split; [reflexivity|]. split; [apply round_micro|]. split; reflexivity.
Qed.

Lemma export_rows_witness :
  exists rows,
    QuoteTracker.export_to_csv small_drift_quotes = Ok (Some rows)
    /\ length rows = 2%nat.
Proof.
  destruct (export_rows small_drift_quotes) as (rows & H & Hlen & _).
  - discriminate.
  - exists rows. split; [exact H|exact Hlen].
Defined.

End CsvExport.

(* ================================================================== *)
(** ** Price anomalies *)

Section Anomalies.
Import Py Np Models Fixtures.
Local Open Scope Q_scope.

Lemma detect_price_anomalies_ok (self : DataAnalyzer.t)
  (quotes : list QuoteData) (z_threshold : Q) :
  let successful := filter success quotes in
  let mean_amount := mean (Rules.amounts successful) in
  let std_amount := std (Rules.amounts successful) in
  DataAnalyzer.detect_price_anomalies self quotes z_threshold
  = if (length successful <? 10)%nat then []
    else map (Rules.anomaly mean_amount std_amount)
             (filter (fun q => sgtb (DataAnalyzer.z_score_of mean_amount std_amount q)
                                    (of_float (Fin z_threshold)))
                     successful).
Proof.
  intros successful mean_amount std_amount.
  unfold DataAnalyzer.detect_price_anomalies. fold successful.
  destruct (length successful <? 10)%nat; [reflexivity|].
  cbv zeta. fold (Rules.amounts successful). fold mean_amount std_amount.
  apply (collect_fold
           (fun q => sgtb (DataAnalyzer.z_score_of mean_amount std_amount q)
                          (of_float (Fin z_threshold)))
           (Rules.anomaly mean_amount std_amount) successful []).
Qed.

Lemma filter_none {A} (f : A -> bool) (l : list A) :
  (forall x, In x l -> f x = false) -> filter f l = [].
Proof.
  induction l as [|x l IH]; intros H; simpl; [reflexivity|].
  rewrite (H x (or_introl eq_refl)). apply IH. intros y Hy. apply H. now right.
Qed.

Lemma inject_Z_of_nat_succ (n : nat) :
  inject_Z (Z.of_nat (S n)) == inject_Z (Z.of_nat n) + 1.
Proof.
  rewrite Nat2Z.inj_succ. unfold Z.succ. rewrite inject_Z_plus. reflexivity.
Qed.

Lemma fold_Qplus_constant (l : list Q) (c : Q) :
  (forall x, In x l -> x == c) ->
  fold_left Qplus l 0 == inject_Z (Z.of_nat (length l)) * c.
Proof.
  induction l as [|x l IH]; intros H.
  - simpl. ring.
  - cbn [length]. rewrite inject_Z_of_nat_succ, fold_Qplus_cons.
    rewrite IH by (intros y Hy; apply H; now right).
    assert (E : x == c) by (apply H; now left).
    lra.
Qed.

Lemma mean_constant (l : list Q) (c : Q) :
  l <> [] -> (forall x, In x l -> x == c) ->
  exists m, mean l = Fin m /\ m == c.
Proof.
  intros Hne H. eexists. split; [apply (mean_fin l Hne)|].
  rewrite (fold_Qplus_constant l c H). field.
  intros E. apply Qeq_eq_bool in E.
  rewrite of_nat_nonzero in E; [discriminate|].
  destruct l; [contradiction|discriminate].
Qed.

(** The population deviation of equal values is exactly zero. *)
Lemma std_constant (l : list Q) (c : Q) :
  l <> [] -> (forall x, In x l -> x == c) -> std l = of_float (Fin 0).
Proof.
  intros Hne H.
  destruct (mean_constant l c Hne H) as (m & Hm & Hmc).
  unfold std. rewrite (var_fin l m Hne Hm).
  set (v := _ / _).
  assert (Hv : v == 0).
  { unfold v. rewrite fold_Qplus_all_zero; [unfold Qdiv; ring|].
    intros z Hz. apply in_map_iff in Hz. destruct Hz as (w & <- & Hw).
    rewrite (H w Hw), Hmc. ring. }
  unfold sqrt.
  assert (E1 : Qltb v 0 = false) by (apply Qltb_false; lra).
  rewrite E1, (Qeq_eq_bool _ _ Hv). reflexivity.
Qed.

Lemma z_score_zero_over_zero (m : Q) (quote : QuoteData) :
  inject_Z (output_amount quote) == m ->
  coef (DataAnalyzer.z_score_of (Fin m) (of_float (Fin 0)) quote) = NaN.
Proof.
  intros H.
  unfold DataAnalyzer.z_score_of, sdiv, of_float, of_Z, fsub, fneg, fadd,
    fabs, fmul, fdiv.
  cbn [coef radicand].
  change (Qeq_bool (0 * 1) 0) with true. cbv iota.
  assert (E : Qeq_bool (Qabs (inject_Z (output_amount quote) + - m)) 0 = true).
  { apply Qeq_eq_bool.
    assert (E0 : inject_Z (output_amount quote) + - m == 0) by lra.
    rewrite E0. reflexivity. }
  rewrite E. reflexivity.
Qed.

Lemma sgtb_nan (x y : surd) : sisnan x = true -> sgtb x y = false.
Proof.
  intros H. unfold sgtb, sltb. rewrite H, orb_true_r. reflexivity.
Qed.

(** The warnings are an annotation: the anomalies of the traced run are
    those of [detect_price_anomalies]. *)
Lemma fold_left_fst {A B W} (f : A -> B -> A) (g : A * W -> B -> A * W)
  (l : list B) (st : A * W) :
  (forall st q, fst (g st q) = f (fst st) q) ->
  fst (fold_left g l st) = fold_left f l (fst st).
Proof.
  intros H. revert st. induction l as [|q l IH]; intros st; [reflexivity|].
  simpl. rewrite IH, H. reflexivity.
Qed.

Lemma detect_price_anomalies_warned_fst (self : DataAnalyzer.t)
  (quotes : list QuoteData) (z_threshold : Q) :
  fst (DataAnalyzer.detect_price_anomalies_warned self quotes z_threshold)
  = DataAnalyzer.detect_price_anomalies self quotes z_threshold.
Proof.
  unfold DataAnalyzer.detect_price_anomalies_warned,
    DataAnalyzer.detect_price_anomalies.
  destruct (length (filter success quotes) <? 10)%nat; [reflexivity|].
  cbv zeta. apply fold_left_fst.
  intros st q. destruct (sgtb _ _); reflexivity.
Qed.






End Anomalies.

Section Spike.
Import Py Np Models Fixtures.
Local Open Scope Q_scope.

Lemma amounts_of_map (successful : list QuoteData) :
  Rules.amounts successful = map inject_Z (map output_amount successful).
Proof.
  unfold Rules.amounts. now rewrite map_map.
Qed.

(** C8: [detect_price_anomalies] returns the empty list when fewer than
    10 quotes are successful; when the successful amounts are twenty
    times 100 followed by 1000 and the threshold is 2.0, it returns
    exactly one record, for the quote of amount 1000, whose z-score,
    |1000 - mean| / std over all successful amounts, exceeds 2.0 (its
    square is 20). *)
Theorem anomaly_detection (self : DataAnalyzer.t) (quotes : list QuoteData)
  (z_threshold : Q) :
  let successful := filter success quotes in
  let mean_amount := mean (Rules.amounts successful) in
  let std_amount := std (Rules.amounts successful) in
  ((length successful < 10)%nat ->
   DataAnalyzer.detect_price_anomalies self quotes z_threshold = [])
  /\ (map output_amount successful = repeat 100%Z 20 ++ [1000%Z] ->
      exists before quote record,
        successful = before ++ [quote]
        /\ output_amount quote = 1000%Z
        /\ DataAnalyzer.detect_price_anomalies self quotes 2 = [record]
        /\ DataAnalyzer.anomaly_output_amount record = 1000%Z
        /\ DataAnalyzer.anomaly_timestamp record = timestamp quote
        /\ DataAnalyzer.z_score record
           = sdiv (of_float (fabs (fsub (of_Z 1000) mean_amount))) std_amount
        /\ sgtb (DataAnalyzer.z_score record) (of_float (Fin 2)) = true
        /\ exists sq, ssquare (DataAnalyzer.z_score record) = Fin sq /\ sq == 20).
Proof.
  intros successful mean_amount std_amount. split.
  - intros H. rewrite detect_price_anomalies_ok. fold successful.
    destruct (Nat.ltb_spec (length successful) 10); [reflexivity|lia].
  - intros H.
    assert (Hlen : length successful = 21%nat).
    { rewrite <- (length_map output_amount), H. reflexivity. }
    pose proof (amounts_of_map successful) as Ha. rewrite H in Ha.
    destruct (map_eq_app _ _ _ _ H) as (before & rest & Hs & Hb & Hr).
    destruct rest as [|quote [|? ?]]; try discriminate.
    injection Hr as Hq.
    exists before, quote, (Rules.anomaly mean_amount std_amount quote).
    assert (Hz : DataAnalyzer.z_score_of mean_amount std_amount quote
                 = sdiv (of_float (fabs (fsub (of_Z 1000) mean_amount))) std_amount).
    { unfold DataAnalyzer.z_score_of. now rewrite Hq. }
    assert (Hgt : sgtb (sdiv (of_float (fabs (fsub (of_Z 1000) mean_amount)))
                             std_amount) (of_float (Fin 2)) = true).
    { unfold mean_amount, std_amount. rewrite Ha. vm_compute. reflexivity. }
    assert (Hlow : forall q, In q before ->
               sgtb (DataAnalyzer.z_score_of mean_amount std_amount q)
                    (of_float (Fin 2)) = false).
    { intros q Hin.
      assert (E : output_amount q = 100%Z).
      { apply (repeat_spec 20 100%Z). rewrite <- Hb. now apply in_map. }
      unfold DataAnalyzer.z_score_of. rewrite E.
      unfold mean_amount, std_amount. rewrite Ha. vm_compute. reflexivity. }
    split; [exact Hs|]. split; [exact Hq|]. split.
    { rewrite detect_price_anomalies_ok.
      fold successful mean_amount std_amount. rewrite Hlen.
      cbn [Nat.ltb Nat.leb]. rewrite Hs, filter_app, (filter_none _ _ Hlow).
      cbn [filter app]. rewrite Hz, Hgt. reflexivity. }
    split; [exact Hq|]. split; [reflexivity|].
    cbn [Rules.anomaly DataAnalyzer.z_score]. rewrite Hz.
    split; [reflexivity|]. split; [exact Hgt|].
    unfold mean_amount, std_amount. rewrite Ha.
    eexists. split; [vm_compute; reflexivity|]. reflexivity.
Qed.

Lemma anomaly_detection_witness :
  exists record,
    DataAnalyzer.detect_price_anomalies DataAnalyzer.init spike_quotes 2
    = [record]
    /\ DataAnalyzer.anomaly_output_amount record = 1000%Z
    /\ sgtb (DataAnalyzer.z_score record) (of_float (Fin 2)) = true.
Proof.
  destruct (anomaly_detection DataAnalyzer.init spike_quotes 2) as (_ & H).
  destruct (H eq_refl)
    as (before & quote & record & _ & _ & Hd & Ha & _ & _ & Hgt & _).
  exists record. split; [exact Hd|]. split; [exact Ha|exact Hgt].
Defined.

End Spike.

(* ================================================================== *)
(** ** utils.py: drift, moving averages, profit estimates *)

Section UtilsFacts.
Import Py.
Local Open Scope py_scope.
Local Open Scope Q_scope.

Lemma inject_Z_pos (z : Z) : (0 < z)%Z -> 0 < inject_Z z.
Proof. intros H. unfold Qlt. simpl. lia. Qed.

Lemma Qdiv_pos_iff (x y : Q) : 0 < y -> (0 < x / y * 100 <-> 0 < x).
Proof.
  intros Hy.
  assert (Hinv : 0 < / y) by now apply Qinv_lt_0_compat.
  split; intros H.
  - assert (E : x == x / y * 100 * (y / 100)) by (field; lra).
    rewrite E. apply Qmult_lt_0_compat; [exact H|].
    apply Qdiv_pos; [exact Hy|reflexivity].
  - unfold Qdiv. apply Qmult_lt_0_compat; [|reflexivity].
    now apply Qmult_lt_0_compat.
Qed.

(** X1: [calculate_drift] never raises: a previous amount of 0 is answered
    with 0.0 before the division, whatever the current amount, and any
    other previous amount p with (current - p) / p * 100.  Equal amounts
    give a drift of 0; for a positive previous amount the drift is
    positive exactly when the amount rose and negative exactly when it
    fell. *)
Theorem calculate_drift_sign (previous_amount current_amount : Z) :
  exists d,
    Utils.calculate_drift previous_amount current_amount = Ok d
    /\ (previous_amount = 0%Z -> d = 0)
    /\ (previous_amount <> 0%Z ->
        d = inject_Z (current_amount - previous_amount)
            / inject_Z previous_amount * 100)
    /\ (previous_amount = current_amount -> d == 0)
    /\ ((0 < previous_amount)%Z ->
        (0 < d <-> (previous_amount < current_amount)%Z)
        /\ (d < 0 <-> (current_amount < previous_amount)%Z)).
Proof.
  exists (Rules.drift previous_amount current_amount).
  split; [apply calculate_drift_ok|].
  unfold Rules.drift. split; [|split; [|split]].
  - intros ->. reflexivity.
  - intros Hp. destruct (Z.eqb_spec previous_amount 0) as [E|_];
      [contradiction|reflexivity].
  - intros <-. destruct (previous_amount =? 0)%Z; [reflexivity|].
    rewrite Z.sub_diag. unfold Qdiv. ring.
  - intros Hp.
    destruct (Z.eqb_spec previous_amount 0) as [E|_]; [lia|].
    pose proof (inject_Z_pos _ Hp) as Hy.
    split.
    + rewrite (Qdiv_pos_iff _ _ Hy). unfold Qlt. simpl. lia.
    + assert (E : inject_Z (current_amount - previous_amount)
                  / inject_Z previous_amount * 100
                  == - (inject_Z (previous_amount - current_amount)
                        / inject_Z previous_amount * 100)).
      { assert (E0 : inject_Z (current_amount - previous_amount)
                     == - inject_Z (previous_amount - current_amount))
          by (unfold Qeq; simpl; lia).
        rewrite E0. field. lra. }
      rewrite E.
      pose proof (Qdiv_pos_iff (inject_Z (previous_amount - current_amount))
                               _ Hy) as Hiff.
      split; intros H.
      * assert (H0 : 0 < inject_Z (previous_amount - current_amount)).
        { apply Hiff. lra. }
        unfold Qlt in H0. simpl in H0. lia.
      * assert (H0 : 0 < inject_Z (previous_amount - current_amount)).
        { unfold Qlt. simpl. lia. }
        apply Hiff in H0. lra.
Qed.

Lemma calculate_drift_sign_witness :
  (exists d, Utils.calculate_drift 200 250 = Ok d /\ 0 < d)
  /\ Utils.calculate_drift 0 5 = Ok 0.
Proof.
  split.
  - destruct (calculate_drift_sign 200 250) as (d & H & _ & _ & _ & Hs).
    exists d. split; [exact H|].
    destruct Hs as ((_ & Hpos) & _); [lia|]. apply Hpos. lia.
  - destruct (calculate_drift_sign 0 5) as (d & H & H0 & _).
    rewrite H, (H0 eq_refl). reflexivity.
Defined.

Lemma slice_window {A} (l : list A) (i w : nat) :
  (i + w <= length l)%nat ->
  slice l (Z.of_nat i) (Z.of_nat i + Z.of_nat w) = firstn w (skipn i l).
Proof.
  intros H. unfold slice, clamp_index.
  destruct (Z.ltb_spec (Z.of_nat i) 0) as [|_]; [lia|].
  destruct (Z.ltb_spec (Z.of_nat i + Z.of_nat w) 0) as [|_]; [lia|].
  replace (Z.to_nat (Z.min (Z.max (Z.of_nat i) 0) (Z.of_nat (length l))))
    with i by lia.
  replace (Z.to_nat (Z.min (Z.max (Z.of_nat i + Z.of_nat w) 0)
                           (Z.of_nat (length l))))
    with (i + w)%nat by lia.
  replace (i + w - i)%nat with w by lia. reflexivity.
Qed.

Lemma mapM_nth_error {A B} (f : A -> res B) (h : A -> B) (l : list A) :
  (forall x, In x l -> f x = Ok (h x)) -> mapM f l = Ok (map h l).
Proof.
  intros H. rewrite (mapM_ext_in f (fun x => Ok (h x)) l H). apply mapM_pure.
Qed.

(** X2: [calculate_moving_average]: a window longer than the list returns
    the list itself; a window of 0 raises ZeroDivisionError, also on an
    empty list; a window of 1 <= w <= len gives len - w + 1 averages, the
    i-th being the sum of the w values from position i divided by w. *)
Theorem moving_average_windows (values : list Q) (window_size : Z) :
  ((Z.of_nat (length values) < window_size)%Z ->
   Utils.calculate_moving_average values window_size = Ok values)
  /\ (window_size = 0%Z ->
      Utils.calculate_moving_average values window_size
      = Raise ZeroDivisionError)
  /\ ((1 <= window_size <= Z.of_nat (length values))%Z ->
      exists averages,
        Utils.calculate_moving_average values window_size = Ok averages
        /\ length averages
           = (length values - Z.to_nat window_size + 1)%nat
        /\ forall i, (i < length averages)%nat ->
             nth_error averages i
             = Some (sum (firstn (Z.to_nat window_size) (skipn i values))
                     / inject_Z window_size)).
Proof.
  unfold Utils.calculate_moving_average. split; [|split].
  - intros H. destruct (Z.ltb_spec (Z.of_nat (length values)) window_size);
      [reflexivity|lia].
  - intros ->.
    destruct (Z.ltb_spec (Z.of_nat (length values)) 0) as [|_]; [lia|].
    unfold range_upto.
    replace (Z.to_nat (Z.of_nat (length values) - 0 + 1))
      with (S (length values)) by lia.
    reflexivity.
  - intros [Hlo Hhi].
    destruct (Z.ltb_spec (Z.of_nat (length values)) window_size) as [|_]; [lia|].
    set (w := Z.to_nat window_size).
    assert (Hw : window_size = Z.of_nat w) by (unfold w; lia).
    unfold range_upto.
    replace (Z.to_nat (Z.of_nat (length values) - window_size + 1))
      with (length values - w + 1)%nat by lia.
    exists (map (fun i => sum (firstn w (skipn i values)) / inject_Z window_size)
                (seq 0 (length values - w + 1))).
    split; [|split].
    + apply mapM_nth_error. intros i Hi. apply in_seq in Hi.
      rewrite Hw at 1. rewrite slice_window by lia.
      unfold truediv. rewrite inject_Z_nonzero by lia. reflexivity.
    + now rewrite length_map, length_seq.
    + intros i Hi. rewrite length_map, length_seq in Hi.
      rewrite nth_error_map, nth_error_seq.
      destruct (Nat.ltb_spec i (length values - w + 1)); [reflexivity|lia].
Qed.

Lemma moving_average_windows_witness :
  exists averages,
    Utils.calculate_moving_average [1; 2; 3; 4] 2 = Ok averages
    /\ length averages = 3%nat.
Proof.
  destruct (moving_average_windows [1; 2; 3; 4] 2) as (_ & _ & H).
  destruct H as (averages & Hok & Hlen & _); [simpl; lia|].
  exists averages. split; [exact Hok|exact Hlen].
Defined.

(** X3: [calculate_profit_potential] never raises (the margin is computed
    only for a positive amount and is 0 otherwise); the trade is flagged
    profitable exactly when the gross profit exceeds the gas cost, and
    for a positive amount exactly when the margin is positive. *)
Theorem profit_potential_flag (price_difference : Q) (amount : Z) (gas : Q) :
  exists r,
    Utils.calculate_profit_potential price_difference amount gas = Ok r
    /\ Utils.net_profit r = Utils.gross_profit r - gas
    /\ (Utils.is_profitable r = true <-> gas < Utils.gross_profit r)
    /\ ((amount <= 0)%Z -> Utils.profit_margin r = 0)
    /\ ((0 < amount)%Z ->
        (Utils.is_profitable r = true <-> 0 < Utils.profit_margin r)).
Proof.
  unfold Utils.calculate_profit_potential.
  destruct (Z.ltb_spec 0 amount) as [Hpos|Hle].
  - unfold truediv. rewrite inject_Z_nonzero by lia. simpl.
    eexists. split; [reflexivity|]. simpl. split; [reflexivity|].
    split; [rewrite Qltb_lt; split; intros H; lra|].
    split; [lia|]. intros _. rewrite Qltb_lt.
    symmetry. apply Qdiv_pos_iff. now apply inject_Z_pos.
  - simpl. eexists. split; [reflexivity|]. simpl. split; [reflexivity|].
    split; [rewrite Qltb_lt; split; intros H; lra|].
    split; [reflexivity|lia].
Qed.

Lemma profit_potential_flag_witness :
  exists r,
    Utils.calculate_profit_potential (-(1)) 1000000 (5 # 1000000) = Ok r
    /\ Utils.is_profitable r = true
    /\ 0 < Utils.profit_margin r.
Proof.
  destruct (profit_potential_flag (-(1)) 1000000 (5 # 1000000))
    as (r & H & _ & Hflag & _ & Hm).
  exists r. split; [exact H|].
  assert (Hp : Utils.is_profitable r = true).
  { injection H as <-. reflexivity. }
  split; [exact Hp|]. apply Hm; [lia|exact Hp].
Defined.

End UtilsFacts.

(* ================================================================== *)
(** ** utils.py: outliers, and their agreement with the analyzer *)

Section Outliers.
Import Py Np Models.
Local Open Scope Q_scope.

Lemma enumerate_filter_bounds {A} (f : nat * A -> bool) (l : list A) (a : nat) :
  Forall (fun i => (a <= i < a + length l)%nat)
         (map fst (filter f (combine (seq a (length l)) l))).
Proof.
  revert a. induction l as [|x l IH]; intros a; simpl; [constructor|].
  assert (Hrest : Forall (fun i => (a <= i < a + S (length l))%nat)
                         (map fst (filter f (combine (seq (S a) (length l)) l)))).
  { eapply Forall_impl; [|apply (IH (S a))]. simpl. intros i Hi. lia. }
  destruct (f (a, x)); [|exact Hrest].
  simpl. constructor; [lia|exact Hrest].
Qed.

Lemma enumerate_filter_sorted {A} (f : nat * A -> bool) (l : list A) (a : nat) :
  StronglySorted lt (map fst (filter f (combine (seq a (length l)) l))).
Proof.
  revert a. induction l as [|x l IH]; intros a; simpl; [constructor|].
  destruct (f (a, x)); [|apply IH].
  simpl. constructor; [apply IH|].
  eapply Forall_impl; [|apply (enumerate_filter_bounds f l (S a))].
  simpl. intros i Hi. lia.
Qed.

(** Reading a list back at the indices a filter over its enumeration
    kept gives the filtered list. *)
Lemma enumerate_filter_nth {A} (f : A -> bool) (d : A) (pre l : list A) :
  map (fun i => nth i (pre ++ l) d)
      (map fst (filter (fun iv => f (snd iv))
                       (combine (seq (length pre) (length l)) l)))
  = filter f l.
Proof.
  revert pre. induction l as [|x l IH]; intros pre; [reflexivity|].
  cbn [length seq combine filter snd].
  specialize (IH (pre ++ [x])).
  rewrite length_app, <- app_assoc in IH. cbn [length app] in IH.
  replace (length pre + 1)%nat with (S (length pre)) in IH by lia.
  destruct (f x).
  - cbn [map fst]. rewrite nth_middle, IH. reflexivity.
  - exact IH.
Qed.

Lemma sqrt_zero_inv (v : Q) :
  sis_zero (sqrt (Fin v)) = true -> v == 0 /\ sqrt (Fin v) = of_float (Fin 0).
Proof.
  unfold sqrt, sis_zero. destruct (Qltb v 0); [discriminate|].
  destruct (Qeq_bool v 0) eqn:E; [|discriminate].
  intros _. split; [now apply Qeq_bool_eq|reflexivity].
Qed.

Lemma std_zero_inv (l : list Q) :
  l <> [] -> sis_zero (std l) = true ->
  std l = of_float (Fin 0)
  /\ exists m, mean l = Fin m /\ forall x, In x l -> x + - m == 0.
Proof.
  intros Hne Hz.
  pose proof (mean_fin l Hne) as Hm. set (m := _ / _) in Hm.
  pose proof (var_fin l m Hne Hm) as Hv. set (v := _ / _) in Hv.
  unfold std in *. rewrite Hv in *.
  destruct (sqrt_zero_inv v Hz) as (Hv0 & Hs).
  split; [exact Hs|]. exists m. split; [exact Hm|].
  apply (var_zero_deviations l m Hne Hm).
  rewrite Hv. simpl. now apply Qeq_eq_bool.
Qed.

(** X4: [detect_outliers] returns no index for fewer than 3 values, and
    none for values that all equal one integer small enough for their
    float64 sum to be exact (the deviation is then exactly zero, and it
    is tested before the division); the indices it returns are valid
    positions of the input, in strictly increasing order. *)
Theorem detect_outliers_indices (values : list Q) (z_threshold : Q) :
  let outliers := Utils.detect_outliers values z_threshold in
  ((length values < 3)%nat -> outliers = [])
  /\ ((exists c : Z,
         (Z.of_nat (length values) * Z.abs c < 2 ^ 53)%Z
         /\ forall x, In x values -> x == inject_Z c) ->
      outliers = [])
  /\ Forall (fun i => (i < length values)%nat) outliers
  /\ StronglySorted lt outliers.
Proof.
  unfold Utils.detect_outliers.
  destruct (Nat.ltb_spec (length values) 3) as [Hlt|Hge].
  { repeat split; constructor. }
  split; [lia|].
  destruct (sis_zero (std values)) eqn:Ez.
  { repeat split; constructor. }
  split; [|split].
  - intros (c & _ & Hc).
    assert (Hne : values <> []) by (destruct values; [simpl in Hge; lia|discriminate]).
    rewrite (std_constant values (inject_Z c) Hne Hc) in Ez. discriminate.
  - eapply Forall_impl; [|apply enumerate_filter_bounds]. simpl. intros i Hi. lia.
  - apply enumerate_filter_sorted.
Qed.

Lemma detect_outliers_indices_witness :
  Utils.detect_outliers (repeat 7 12) 2 = [].
Proof.
  destruct (detect_outliers_indices (repeat 7 12) 2) as (_ & H & _).
  apply H. exists 7%Z. split; [reflexivity|].
  intros x Hx. apply repeat_spec in Hx. now rewrite Hx.
Defined.

Lemma combine_map_r {A B C} (g : B -> C) (l1 : list A) (l2 : list B) :
  combine l1 (map g l2) = map (fun ab => (fst ab, g (snd ab))) (combine l1 l2).
Proof.
  revert l2. induction l1 as [|a l1 IH]; intros [|b l2]; simpl; try reflexivity.
  now rewrite IH.
Qed.

Lemma filter_map_comm {A B} (f : B -> bool) (h : A -> B) (l : list A) :
  filter f (map h l) = map h (filter (fun x => f (h x)) l).
Proof.
  induction l as [|x l IH]; simpl; [reflexivity|].
  destruct (f (h x)); simpl; now rewrite IH.
Qed.

(** X5: With at least 10 successful quotes, the amounts
    [detect_price_anomalies] reports are the amounts at the positions
    [detect_outliers] returns for the successful amounts: the analyzer's
    unguarded z-score loop and the guarded one of utils.py select the
    same samples, also when the deviation is zero (both select none). *)
Theorem anomalies_are_outliers (self : DataAnalyzer.t)
  (quotes : list QuoteData) (z_threshold : Q) :
  let successful := filter success quotes in
  (10 <= length successful)%nat ->
  map DataAnalyzer.anomaly_output_amount
      (DataAnalyzer.detect_price_anomalies self quotes z_threshold)
  = map (fun i => nth i (map output_amount successful) 0%Z)
        (Utils.detect_outliers (Rules.amounts successful) z_threshold).
Proof.
  intros successful Hlen.
  rewrite detect_price_anomalies_ok. fold successful.
  destruct (Nat.ltb_spec (length successful) 10) as [|_]; [lia|].
  unfold Utils.detect_outliers.
  assert (Hla : length (Rules.amounts successful) = length successful)
    by (unfold Rules.amounts; apply length_map).
  rewrite Hla.
  destruct (Nat.ltb_spec (length successful) 3) as [|_]; [lia|].
  set (m := mean (Rules.amounts successful)).
  set (s := std (Rules.amounts successful)).
  assert (Hne : Rules.amounts successful <> []).
  { intros E. rewrite E in Hla. simpl in Hla. lia. }
  destruct (sis_zero s) eqn:Ez.
  - destruct (std_zero_inv _ Hne Ez) as (Hs & m0 & Hm & Hdev).
    rewrite filter_none; [reflexivity|].
    intros q Hq. apply sgtb_nan. unfold sisnan, s, m. rewrite Hs, Hm.
    rewrite z_score_zero_over_zero; [reflexivity|].
    assert (Hin : In (inject_Z (output_amount q)) (Rules.amounts successful)).
    { unfold Rules.amounts. apply in_map_iff. exists q. now split. }
    specialize (Hdev _ Hin). lra.
  - rewrite map_map. cbn [Rules.anomaly DataAnalyzer.anomaly_output_amount].
    unfold Rules.amounts at 1.
    rewrite combine_map_r, filter_map_comm, !map_map. cbn [fst snd].
    set (d := {| timestamp := 0; request_time := 0; response_time := 0;
                 latency := 0; output_amount := 0; price_impact_pct := 0;
                 route_plan := []; success := false; error := None |}).
    rewrite (map_ext (fun x : nat * QuoteData =>
                        nth (fst x) (map output_amount successful) 0%Z)
                     (fun x => output_amount (nth (fst x) successful d)))
      by (intros x; apply (map_nth output_amount successful d)).
    rewrite <- (map_map fst (fun i => output_amount (nth i successful d))).
    rewrite <- (map_map (fun i => nth i successful d) output_amount).
    f_equal. symmetry.
    apply (enumerate_filter_nth
             (fun q => sgtb (DataAnalyzer.z_score_of m s q)
                            (of_float (Fin z_threshold)))
             d [] successful).
Qed.

Lemma anomalies_are_outliers_witness :
  map DataAnalyzer.anomaly_output_amount
      (DataAnalyzer.detect_price_anomalies DataAnalyzer.init
         Fixtures.spike_quotes 2)
  = map (fun i => nth i (map output_amount
                             (filter success Fixtures.spike_quotes)) 0%Z)
        (Utils.detect_outliers
           (Rules.amounts (filter success Fixtures.spike_quotes)) 2).
Proof.
  apply (anomalies_are_outliers DataAnalyzer.init Fixtures.spike_quotes 2).
  simpl. lia.
Defined.

End Outliers.

(* ================================================================== *)
(** ** config.py: derived rates, token names, address validation *)

Section ConfigFacts.
Import Py.
Local Open Scope py_scope.
Local Open Scope Q_scope.

Lemma new_ok_inv (fields c : Config.t) :
  Config.new fields = Ok c ->
  c = fields
  /\ 0 < Config.frequency c
  /\ (0 < Config.duration c)%Z
  /\ (0 < Config.concurrent_requests c)%Z
  /\ (0 < Config.amount c)%Z
  /\ (0 <= Config.slippage_bps c)%Z
  /\ 0 <= Config.latency_injection c.
Proof.
  unfold Config.new, Config.post_init.
  destruct (Qle_bool (Config.frequency fields) 0) eqn:Ef; [discriminate|].
  destruct (Z.leb_spec (Config.duration fields) 0); [discriminate|].
  destruct (Z.leb_spec (Config.concurrent_requests fields) 0); [discriminate|].
  destruct (Z.leb_spec (Config.amount fields) 0); [discriminate|].
  destruct (Z.ltb_spec (Config.slippage_bps fields) 0); [discriminate|].
  destruct (Qltb (Config.latency_injection fields) 0) eqn:El; [discriminate|].
  simpl. intros Hok. injection Hok as <-.
  apply Qle_bool_false in Ef. apply Qltb_false in El.
  repeat split; assumption.
Qed.

Lemma int_of_float_floor (x : Q) :
  0 <= x -> int_of_float x = Qfloor x.
Proof.
  intros H. unfold int_of_float, Qfloor. destruct x as [n d]. simpl.
  apply Z.quot_div_nonneg; [|lia].
  unfold Qle in H. simpl in H. lia.
Qed.

(** X6: As exact arithmetic over a finite frequency (no rounding, no
    underflow, no infinity or NaN): a configuration that passed
    validation is turned into its dict without a division by zero; the
    per-worker rate and the worker interval in it are positive, and the
    expected request count is frequency * duration rounded down, never
    negative. *)
Theorem validated_config_dict (fields c : Config.t) :
  Config.new fields = Ok c ->
  exists d,
    Config.to_dict c = Ok d
    /\ 0 < Config.d_requests_per_worker d
    /\ 0 < Config.d_worker_interval d
    /\ (0 <= Config.d_total_expected_requests d)%Z
    /\ inject_Z (Config.d_total_expected_requests d)
       <= Config.frequency c * inject_Z (Config.duration c)
    /\ Config.frequency c * inject_Z (Config.duration c)
       < inject_Z (Config.d_total_expected_requests d) + 1.
Proof.
  intros H. destruct (new_ok_inv _ _ H) as (_ & HF & HD & HW & _).
  pose proof (inject_Z_pos _ HW) as HWq.
  pose proof (inject_Z_pos _ HD) as HDq.
  pose proof (Qdiv_pos _ _ HF HWq) as Hr.
  unfold Config.to_dict, Config.worker_interval, Config.requests_per_worker,
    truediv.
  rewrite (Qeq_bool_pos _ HWq). simpl. rewrite (Qeq_bool_pos _ Hr). simpl.
  eexists. split; [reflexivity|]. simpl.
  assert (Hx : 0 <= Config.frequency c * inject_Z (Config.duration c)).
  { apply Qmult_le_0_compat; lra. }
  unfold Config.total_expected_requests. rewrite (int_of_float_floor _ Hx).
  split; [exact Hr|].
  split; [apply Qdiv_pos; [reflexivity|exact Hr]|].
  split.
  { change 0%Z with (Qfloor 0). now apply Qfloor_resp_le. }
  split; [apply Qfloor_le|].
  pose proof (Qlt_floor (Config.frequency c * inject_Z (Config.duration c))) as Hlt.
  rewrite inject_Z_plus in Hlt. exact Hlt.
Qed.

Lemma validated_config_dict_witness :
  exists d,
    Config.to_dict Config.default = Ok d
    /\ Config.d_total_expected_requests d = 300%Z.
Proof.
  destruct (validated_config_dict Config.default Config.default eq_refl)
    as (d & H & _).
  exists d. split; [exact H|]. injection H as <-. reflexivity.
Defined.

(** X7: Every address of [COMMON_TOKENS] is displayed under the name it is
    listed with; an address the display table does not know is shown as
    its first 8 characters followed by three dots, at most 11 characters. *)
Theorem token_display_round_trip (self : Config.t) :
  (forall name mint,
      In (name, mint) Config.COMMON_TOKENS ->
      Config.get_token_display_name self mint = name)
  /\ (forall mint,
        dict_get Config.token_map mint = None ->
        Config.get_token_display_name self mint
        = (String.substring 0 8 mint ++ "...")%string
        /\ (String.length (Config.get_token_display_name self mint) <= 11)%nat).
Proof.
  split.
  - intros name mint Hin. simpl in Hin.
    repeat (destruct Hin as [E|Hin]; [injection E as <- <-; reflexivity|]).
    destruct Hin.
  - intros mint Hnone. unfold Config.get_token_display_name. rewrite Hnone.
    split; [reflexivity|].
    assert (Ha : forall s t, String.length (s ++ t)%string
                             = (String.length s + String.length t)%nat).
    { clear. induction s as [|ch s IH]; intros t; simpl; [reflexivity|].
      now rewrite IH. }
    assert (Hs : forall n s, (String.length (String.substring 0 n s) <= n)%nat).
    { clear. induction n as [|n IH]; intros [|ch s]; simpl; try lia.
      specialize (IH s). lia. }
    rewrite Ha. specialize (Hs 8%nat mint).
    change (String.length "...") with 3%nat. lia.
Qed.

Lemma token_display_round_trip_witness :
  Config.get_token_display_name Config.default
    "mSoLzYCxHdYgdzU16g5QSh3i5K3z3KZK7ytfqcJm7So" = "mSOL"%string
  /\ Config.get_token_display_name Config.default "abcdefghijkl"
     = "abcdefgh..."%string.
Proof.
  destruct (token_display_round_trip Config.default) as (Hknown & Hunknown).
  split.
  - apply Hknown. simpl. do 3 right. left. reflexivity.
  - destruct (Hunknown "abcdefghijkl"%string eq_refl) as (E & _).
    rewrite E. reflexivity.
Defined.

Lemma char_in_spec (c : Ascii.ascii) (s : string) :
  char_in c s = true <-> In c (list_ascii_of_string s).
Proof.
  unfold char_in. rewrite existsb_exists. split.
  - intros (x & Hx & E). apply Ascii.eqb_eq in E. now subst.
  - intros H. exists c. split; [exact H|apply Ascii.eqb_refl].
Qed.

Lemma validate_solana_address_spec (address : string) :
  Utils.validate_solana_address address = true
  <-> (32 <= String.length address <= 44)%nat
      /\ forall c, In c (list_ascii_of_string address) ->
                   In c (list_ascii_of_string Utils.base58_chars).
Proof.
  unfold Utils.validate_solana_address.
  destruct (Nat.ltb_spec (String.length address) 32) as [H1|H1]; cbn [orb].
  { split; [discriminate|lia]. }
  destruct (Nat.ltb_spec 44 (String.length address)) as [H2|H2]; cbn [orb].
  { split; [discriminate|lia]. }
  unfold all_chars_in. rewrite forallb_forall.
  split.
  - intros H. split; [lia|]. intros c Hc.
    apply (proj1 (char_in_spec c Utils.base58_chars)). now apply H.
  - intros (_ & H) c Hc.
    apply (proj2 (char_in_spec c Utils.base58_chars)). now apply H.
Qed.

(** X8: [validate_token_addresses] accepts a configuration exactly when both
    mints are 32 to 44 characters long, use only the base58 alphabet, and
    differ; the check inside config.py and [validate_solana_address] of
    utils.py accept the same strings, and none they accept contains one
    of the characters 0, O, I and l. *)
Theorem token_addresses_valid (c : Config.t) :
  let well_formed (a : string) :=
    (32 <= String.length a <= 44)%nat
    /\ forall ch, In ch (list_ascii_of_string a) ->
                  In ch (list_ascii_of_string Utils.base58_chars) in
  (Config.validate_token_addresses c = true
   <-> well_formed (Config.input_mint c)
       /\ well_formed (Config.output_mint c)
       /\ Config.input_mint c <> Config.output_mint c)
  /\ (forall a, Config.is_valid_address a = Utils.validate_solana_address a)
  /\ (forall a ch,
        Utils.validate_solana_address a = true ->
        In ch (list_ascii_of_string "0OIl") ->
        ~ In ch (list_ascii_of_string a)).
Proof.
  intros well_formed. split; [|split].
  - unfold Config.validate_token_addresses.
    change (Config.is_valid_address (Config.input_mint c))
      with (Utils.validate_solana_address (Config.input_mint c)).
    change (Config.is_valid_address (Config.output_mint c))
      with (Utils.validate_solana_address (Config.output_mint c)).
    rewrite !andb_true_iff, !validate_solana_address_spec, negb_true_iff.
    rewrite String.eqb_neq. unfold well_formed. tauto.
  - reflexivity.
  - intros a ch Hv Hch Hin.
    apply validate_solana_address_spec in Hv. destruct Hv as (_ & Hv).
    specialize (Hv ch Hin). simpl in Hch.
    destruct Hch as [<-|[<-|[<-|[<-|[]]]]]; simpl in Hv;
      repeat (destruct Hv as [Hv|Hv]; [discriminate|]); exact Hv.
Qed.

Lemma token_addresses_valid_witness :
  Config.validate_token_addresses Config.default = true.
Proof.
  destruct (token_addresses_valid Config.default) as ((_ & H) & _).
  apply H. split; [|split].
  - split; [simpl; lia|].
    intros ch Hin. apply char_in_spec.
    revert ch Hin. apply forallb_forall. vm_compute. reflexivity.
  - split; [simpl; lia|].
    intros ch Hin. apply char_in_spec.
    revert ch Hin. apply forallb_forall. vm_compute. reflexivity.
  - discriminate.
Defined.

End ConfigFacts.

(* ================================================================== *)
(** ** data_analyzer.py: what an analysis result always satisfies *)

Section AnalysisFacts.
Import Py Np Models.
Local Open Scope py_scope.
Local Open Scope Q_scope.

Variable self : DataAnalyzer.t.

Lemma analyze_quotes_fields (quotes : list QuoteData)
  (r : DataAnalyzer.AnalysisResult) :
  DataAnalyzer.analyze_quotes self quotes = Ok (Some r) ->
  let successful := filter success quotes in
  let drifts := map Rules.pair_drift (Rules.consecutive successful) in
  let timestamps := map timestamp successful in
  (2 <= length successful)%nat
  /\ DataAnalyzer.total_quotes r = length quotes
  /\ DataAnalyzer.successful_quotes r = length successful
  /\ DataAnalyzer.failed_quotes r
     = (Z.of_nat (length quotes) - Z.of_nat (length successful))%Z
  /\ DataAnalyzer.success_rate r
     = inject_Z (Z.of_nat (length successful))
       / inject_Z (Z.of_nat (length quotes)) * 100
  /\ DataAnalyzer.positive_drifts r = length (filter (fun d => Qltb 0 d) drifts)
  /\ DataAnalyzer.negative_drifts r = length (filter (fun d => Qltb d 0) drifts)
  /\ DataAnalyzer.significant_drifts r
     = length (filter (fun d => Qltb (DataAnalyzer.drift_threshold self) (Qabs d))
                      drifts)
  /\ DataAnalyzer.frontrun_opportunities r
     = Z.of_nat (length (filter
         (Rules.opportunityb (DataAnalyzer.latency_advantage_threshold self)
                             (DataAnalyzer.drift_threshold self))
         (Rules.consecutive successful)))
  /\ DataAnalyzer.duration r
     = nth (length timestamps - 1) timestamps 0 - nth 0 timestamps 0
  /\ DataAnalyzer.avg_request_interval r
     = mean (map (fun pc => snd pc - fst pc) (Rules.consecutive timestamps)).
Proof.
  intros H. unfold DataAnalyzer.analyze_quotes in H.
  destruct quotes as [|q0 quotes']; [discriminate|].
  cbn [DataAnalyzer.is_empty] in H.
  set (quotes := q0 :: quotes') in *.
  destruct (Nat.ltb_spec (length (filter success quotes)) 2) as [|Hge];
    [discriminate|].
  destruct (filter success quotes) as [|a [|b s]] eqn:Es;
    [simpl in Hge; lia | simpl in Hge; lia |].
  rewrite drift_series_ok, bind_Ok in H.
  cbn [Rules.consecutive tl combine map DataAnalyzer.is_empty] in H.
  unfold truediv in H. rewrite of_nat_nonzero in H by discriminate.
  rewrite bind_Ok in H.
  cbn [amin amax map] in H. rewrite !bind_Ok in H.
  rewrite analyze_frontrun_opportunities_ok, bind_Ok in H.
  rewrite correlation_ok, bind_Ok in H.
  rewrite (getitem_nth 0) in H by (simpl; lia). rewrite bind_Ok in H.
  cbn [getitem nth_error] in H. rewrite bind_Ok in H.
  rewrite calculate_avg_interval_ok, bind_Ok in H.
  injection H as <-.
  cbv zeta. cbn [DataAnalyzer.total_quotes DataAnalyzer.successful_quotes
                   DataAnalyzer.failed_quotes DataAnalyzer.success_rate
                   DataAnalyzer.positive_drifts DataAnalyzer.negative_drifts
                   DataAnalyzer.significant_drifts
                   DataAnalyzer.frontrun_opportunities DataAnalyzer.duration
                   DataAnalyzer.avg_request_interval].
  repeat split; try reflexivity. exact Hge.
Qed.

Lemma filter_length_mono {A} (f g : A -> bool) (l : list A) :
  (forall x, f x = true -> g x = true) ->
  (length (filter f l) <= length (filter g l))%nat.
Proof.
  intros H. induction l as [|x l IH]; simpl; [lia|].
  destruct (f x) eqn:Ef.
  - rewrite (H x Ef). simpl. lia.
  - destruct (g x); simpl; lia.
Qed.

Lemma filter_disjoint_length {A} (f g : A -> bool) (l : list A) :
  (forall x, f x = true -> g x = false) ->
  (length (filter f l) + length (filter g l) <= length l)%nat.
Proof.
  intros H. induction l as [|x l IH]; simpl; [lia|].
  destruct (f x) eqn:Ef.
  - rewrite (H x Ef). simpl. lia.
  - destruct (g x); simpl; lia.
Qed.

(** X9: Whenever [analyze_quotes] returns a result: the failed count is the
    total minus the successful count, at least 2 quotes are successful,
    the success rate is successful / total * 100 and lies in (0, 100],
    and the positive and the negative drifts together, like the
    significant drifts, number at most successful - 1. *)
Theorem analysis_counts (quotes : list QuoteData)
  (r : DataAnalyzer.AnalysisResult) :
  DataAnalyzer.analyze_quotes self quotes = Ok (Some r) ->
  DataAnalyzer.total_quotes r = length quotes
  /\ DataAnalyzer.successful_quotes r = length (filter success quotes)
  /\ (2 <= DataAnalyzer.successful_quotes r <= DataAnalyzer.total_quotes r)%nat
  /\ (Z.of_nat (DataAnalyzer.successful_quotes r) + DataAnalyzer.failed_quotes r
      = Z.of_nat (DataAnalyzer.total_quotes r))%Z
  /\ DataAnalyzer.success_rate r
       * inject_Z (Z.of_nat (DataAnalyzer.total_quotes r))
     == inject_Z (Z.of_nat (DataAnalyzer.successful_quotes r)) * 100
  /\ 0 < DataAnalyzer.success_rate r <= 100
  /\ (DataAnalyzer.positive_drifts r + DataAnalyzer.negative_drifts r
      <= DataAnalyzer.successful_quotes r - 1)%nat
  /\ (DataAnalyzer.significant_drifts r
      <= DataAnalyzer.successful_quotes r - 1)%nat.
Proof.
  intros H.
  destruct (analyze_quotes_fields quotes r H)
    as (Hge & Ht & Hs & Hf & Hr & Hp & Hn & Hsig & _).
  pose proof (filter_length_le success quotes) as Hle.
  set (n := length (filter success quotes)) in *.
  set (t := length quotes) in *.
  assert (Hnq : 0 < inject_Z (Z.of_nat n)) by (apply inject_Z_pos; lia).
  assert (Htq : 0 < inject_Z (Z.of_nat t)) by (apply inject_Z_pos; lia).
  assert (Hnt : inject_Z (Z.of_nat n) <= inject_Z (Z.of_nat t)).
  { unfold Qle. simpl. lia. }
  assert (Hd : length (map Rules.pair_drift
                           (Rules.consecutive (filter success quotes)))
               = (n - 1)%nat).
  { rewrite length_map. apply length_consecutive. }
  rewrite Ht, Hs, Hf, Hr, Hp, Hn, Hsig.
  split; [reflexivity|]. split; [reflexivity|]. split; [lia|]. split; [lia|].
  split; [field; lra|].
  split.
  { split.
    - apply Qdiv_pos_iff; assumption.
    - assert (E : inject_Z (Z.of_nat n) / inject_Z (Z.of_nat t) <= 1).
      { apply Qle_shift_div_r; [exact Htq|]. lra. }
      lra. }
  split.
  - rewrite <- Hd. apply filter_disjoint_length.
    intros d Hpos. apply Qltb_lt in Hpos. apply Qltb_false. lra.
  - rewrite <- Hd. apply filter_length_le.
Qed.

(** X10: Every front-running opportunity [analyze_quotes] counts is also one
    of its significant drifts, so the opportunity count never exceeds
    the significant-drift count, whatever the analyzer's thresholds. *)
Theorem opportunities_within_significant (quotes : list QuoteData)
  (r : DataAnalyzer.AnalysisResult) :
  DataAnalyzer.analyze_quotes self quotes = Ok (Some r) ->
  (0 <= DataAnalyzer.frontrun_opportunities r
   <= Z.of_nat (DataAnalyzer.significant_drifts r))%Z.
Proof.
  intros H.
  destruct (analyze_quotes_fields quotes r H)
    as (_ & _ & _ & _ & _ & _ & _ & Hsig & Hopp & _).
  rewrite Hsig, Hopp, filter_map_comm, length_map.
  split; [lia|]. apply inj_le. apply filter_length_mono.
  intros pc Hpc. unfold Rules.opportunityb in Hpc.
  apply andb_true_iff in Hpc. exact (proj2 Hpc).
Qed.

Lemma telescope (l : list Q) (x : Q) :
  fold_left Qplus
    (map (fun pc : Q * Q => snd pc - fst pc) (Rules.consecutive (x :: l))) 0
  == nth (length l) (x :: l) 0 - x.
Proof.
  revert x. induction l as [|y l IH]; intros x.
  - simpl. ring.
  - change (Rules.consecutive (x :: y :: l))
      with ((x, y) :: Rules.consecutive (y :: l)).
    cbn [map]. rewrite fold_Qplus_cons, IH.
    cbn [length nth fst snd]. ring.
Qed.

(** X11: In every analysis result the average request interval is the mean
    of at least one interval, a finite number.  As exact arithmetic (the
    float64 mean is rounded), that average times the number of intervals
    (successful - 1) is the duration from the first to the last
    successful quote. *)
Theorem average_interval_spans_duration (quotes : list QuoteData)
  (r : DataAnalyzer.AnalysisResult) :
  DataAnalyzer.analyze_quotes self quotes = Ok (Some r) ->
  exists a,
    DataAnalyzer.avg_request_interval r = Fin a
    /\ a * inject_Z (Z.of_nat (DataAnalyzer.successful_quotes r - 1))
       == DataAnalyzer.duration r.
Proof.
  intros H.
  destruct (analyze_quotes_fields quotes r H)
    as (Hge & _ & Hs & _ & _ & _ & _ & _ & _ & Hdur & Havg).
  rewrite Hs, Hdur, Havg.
  set (ts := map timestamp (filter success quotes)).
  assert (Hlen : length ts = length (filter success quotes))
    by (unfold ts; apply length_map).
  destruct ts as [|x l] eqn:Ets; [simpl in Hlen; lia|].
  simpl in Hlen.
  set (diffs := map (fun pc : Q * Q => snd pc - fst pc)
                    (Rules.consecutive (x :: l))).
  assert (Hd : length diffs = length l).
  { unfold diffs. rewrite length_map, length_consecutive. simpl. lia. }
  assert (Hne : diffs <> []).
  { intros E. rewrite E in Hd. simpl in Hd. lia. }
  eexists. split; [apply (mean_fin diffs Hne)|].
  rewrite Hd. unfold diffs. rewrite telescope.
  replace (length (filter success quotes) - 1)%nat with (length l) by lia.
  cbn [length nth]. replace (S (length l) - 1)%nat with (length l) by lia.
  field. intros E. apply Qeq_eq_bool in E.
  rewrite of_nat_nonzero in E; [discriminate|lia].
Qed.

End AnalysisFacts.

Lemma mixed_quotes_analysed :
  exists r,
    DataAnalyzer.analyze_quotes DataAnalyzer.init Fixtures.mixed_quotes
    = Py.Ok (Some r).
Proof. vm_compute. eexists. reflexivity. Qed.

Lemma analysis_counts_witness :
  exists r,
    DataAnalyzer.analyze_quotes DataAnalyzer.init Fixtures.mixed_quotes
    = Py.Ok (Some r)
    /\ DataAnalyzer.total_quotes r = 4%nat
    /\ DataAnalyzer.successful_quotes r = 3%nat.
Proof.
  destruct mixed_quotes_analysed as [r E]. exists r. split; [exact E|].
  destruct (analysis_counts DataAnalyzer.init Fixtures.mixed_quotes r E)
    as (Ht & Hs & _).
  split; [exact Ht|exact Hs].
Defined.

Lemma opportunities_within_significant_witness :
  exists r,
    DataAnalyzer.analyze_quotes DataAnalyzer.init Fixtures.mixed_quotes
    = Py.Ok (Some r)
    /\ (DataAnalyzer.frontrun_opportunities r
        <= Z.of_nat (DataAnalyzer.significant_drifts r))%Z.
Proof.
  destruct mixed_quotes_analysed as [r E]. exists r. split; [exact E|].
  exact (proj2 (opportunities_within_significant
                  DataAnalyzer.init Fixtures.mixed_quotes r E)).
Defined.

Lemma average_interval_spans_duration_witness :
  exists r a,
    DataAnalyzer.analyze_quotes DataAnalyzer.init Fixtures.mixed_quotes
    = Py.Ok (Some r)
    /\ DataAnalyzer.avg_request_interval r = Np.Fin a
    /\ (a * inject_Z (Z.of_nat (DataAnalyzer.successful_quotes r - 1))
        == DataAnalyzer.duration r)%Q.
Proof.
  destruct mixed_quotes_analysed as [r E].
  destruct (average_interval_spans_duration
              DataAnalyzer.init Fixtures.mixed_quotes r E) as (a & Ha & Hd).
  exists r, a. split; [exact E|]. split; [exact Ha|exact Hd].
Defined.

(* ================================================================== *)
(** ** data_analyzer.py: the guarded deviation and the profit scan *)

Section DeviationAndProfit.
Import Py Np Models.
Local Open Scope py_scope.
Local Open Scope Q_scope.

Variable self : DataAnalyzer.t.

Lemma var_nonneg (l : list Q) :
  l <> [] -> exists v, var l = Fin v /\ 0 <= v.
Proof.
  intros Hne. pose proof (mean_fin l Hne) as Hm. set (m := _ / _) in Hm.
  eexists. split; [apply (var_fin l m Hne Hm)|].
  apply Qle_shift_div_l.
  - apply inject_Z_pos. destruct l; [contradiction|simpl; lia].
  - rewrite Qmult_0_l. apply fold_Qplus_nonneg.
    intros z Hz. apply in_map_iff in Hz. destruct Hz as (w & <- & _).
    apply Qsquare_nonneg.
Qed.

(** X12: [calculate_std_dev] is 0.0 for an empty list and the population
    deviation of numpy for every other list (for a single value that
    deviation is 0.0 as well); it is never NaN and never negative. *)
Theorem std_dev_guarded (values : list Q) :
  DataAnalyzer.calculate_std_dev self values
  = (if DataAnalyzer.is_empty values then of_float (Fin 0) else std values)
  /\ sisnan (DataAnalyzer.calculate_std_dev self values) = false
  /\ sltb (DataAnalyzer.calculate_std_dev self values) (of_float (Fin 0))
     = false.
Proof.
  assert (E : DataAnalyzer.calculate_std_dev self values
              = if DataAnalyzer.is_empty values then of_float (Fin 0)
                else std values).
  { unfold DataAnalyzer.calculate_std_dev.
    destruct values as [|x [|y l]]; [reflexivity| |reflexivity].
    cbn [DataAnalyzer.is_empty orb length Nat.ltb Nat.leb].
    symmetry. apply (std_constant [x] x); [discriminate|].
    intros z [<-|[]]. reflexivity. }
  split; [exact E|]. rewrite E.
  destruct values as [|x l]; [split; reflexivity|].
  cbn [DataAnalyzer.is_empty].
  destruct (var_nonneg (x :: l)) as (v & Hv & Hpos); [discriminate|].
  unfold std. rewrite Hv. unfold sqrt.
  assert (E1 : Qltb v 0 = false) by (apply Qltb_false; exact Hpos).
  rewrite E1. destruct (Qeq_bool v 0); split; reflexivity.
Qed.

Lemma nth_firstn {A} (d : A) (l : list A) (k i : nat) :
  (i < k)%nat -> nth i (firstn k l) d = nth i l d.
Proof.
  revert k i. induction l as [|x l IH]; intros k i H.
  - rewrite firstn_nil. reflexivity.
  - destruct k as [|k]; [lia|]. destruct i as [|i]; [reflexivity|].
    simpl. apply IH. lia.
Qed.

Lemma profit_fold_count (gas : Q) (l : list (QuoteData * QuoteData)) (st : Z * Q) :
  let gain (pc : QuoteData * QuoteData) :=
    inject_Z (Z.abs (output_amount (snd pc) - output_amount (fst pc))) - gas in
  let final :=
    fold_left (fun (st : Z * Q) pc =>
                 if Qltb 0 (gain pc) then ((fst st + 1)%Z, snd st + gain pc)
                 else st) l st in
  fst final = (fst st + Z.of_nat (length (filter (fun pc => Qltb 0 (gain pc)) l)))%Z
  /\ (0 <= snd st -> 0 <= snd final).
Proof.
  intros gain. revert st. induction l as [|pc l IH]; intros st; simpl.
  - split; [lia|auto].
  - destruct (Qltb 0 (gain pc)) eqn:E.
    + destruct (IH ((fst st + 1)%Z, snd st + gain pc)) as (H1 & H2).
      simpl in H1, H2. split.
      * rewrite H1. simpl length. lia.
      * intros Hs. apply H2. apply Qltb_lt in E. lra.
    + apply IH.
Qed.

(** X13: [calculate_mev_profitability] never raises and returns the empty
    dict for fewer than 2 successful quotes.  Otherwise, with k
    successful quotes, it examines the first k - 1 consecutive pairs of
    the list it was given (failed quotes included), counts those whose
    amounts differ by more than the gas cost, and reports a total profit
    that is never negative and a profitability rate in [0, 100). *)
Theorem mev_profitability_scan (quotes : list QuoteData) (gas_cost : Q) :
  let k := length (filter success quotes) in
  let examined := Rules.consecutive (firstn k quotes) in
  let gainful (pc : QuoteData * QuoteData) :=
    Qltb 0 (inject_Z (Z.abs (output_amount (snd pc) - output_amount (fst pc)))
            - gas_cost) in
  ((k < 2)%nat ->
   DataAnalyzer.calculate_mev_profitability self quotes gas_cost = Ok None)
  /\ ((2 <= k)%nat ->
      exists r,
        DataAnalyzer.calculate_mev_profitability self quotes gas_cost
        = Ok (Some r)
        /\ length examined = (k - 1)%nat
        /\ DataAnalyzer.profitable_opportunities r
           = Z.of_nat (length (filter gainful examined))
        /\ 0 <= DataAnalyzer.total_potential_profit r
        /\ 0 <= DataAnalyzer.profitability_rate r
        /\ DataAnalyzer.profitability_rate r < 100).
Proof.
  intros k examined gainful.
  unfold DataAnalyzer.calculate_mev_profitability. fold k.
  pose proof (filter_length_le success quotes) as Hle. fold k in Hle.
  split.
  { intros H. destruct (Nat.ltb_spec k 2); [reflexivity|lia]. }
  intros Hk. destruct (Nat.ltb_spec k 2) as [|_]; [lia|].
  set (d := {| timestamp := 0; request_time := 0; response_time := 0;
               latency := 0; output_amount := 0; price_impact_pct := 0;
               route_plan := []; success := false; error := None |}).
  set (head := firstn k quotes).
  assert (Hhead : length head = k) by (unfold head; rewrite length_firstn; lia).
  set (gain := fun pc : QuoteData * QuoteData =>
                 inject_Z (Z.abs (output_amount (snd pc) - output_amount (fst pc)))
                 - gas_cost).
  rewrite (foldM_ext_in _
    (fun (st : Z * Q) i =>
       Ok (if Qltb 0 (gain (nth (i - 1) head d, nth i head d))
           then ((fst st + 1)%Z, snd st + gain (nth (i - 1) head d, nth i head d))
           else st))).
  2:{ intros st i Hi. apply in_range_1 in Hi. destruct Hi as (H1 & H2 & H3).
      rewrite (getitem_nth d quotes i) by lia.
      rewrite (getitem_nth d quotes (i - 1)) by lia.
      rewrite !bind_Ok. unfold head.
      rewrite !nth_firstn by lia. unfold gain. cbn [fst snd].
      destruct (Qltb 0 _); reflexivity. }
  rewrite foldM_pure, bind_Ok.
  rewrite (fold_left_map
             (fun (st : Z * Q) pc =>
                if Qltb 0 (gain pc) then ((fst st + 1)%Z, snd st + gain pc)
                else st)
             (fun i => (nth (i - 1) head d, nth i head d))).
  replace (range 1 k) with (range 1 (length head)) by (now rewrite Hhead).
  rewrite pairs_of_range.
  destruct (profit_fold_count gas_cost (Rules.consecutive head) (0%Z, 0))
    as (Hcount & Hprofit).
  fold gain in Hcount, Hprofit.
  set (final := fold_left _ _ _) in *.
  cbn [fst snd] in Hcount, Hprofit.
  assert (Hbound : (length (filter (fun pc => Qltb 0 (gain pc))
                                   (Rules.consecutive head)) <= k - 1)%nat).
  { etransitivity; [apply filter_length_le|].
    rewrite length_consecutive, Hhead. lia. }
  unfold truediv.
  rewrite inject_Z_nonzero by lia. rewrite bind_Ok.
  rewrite of_nat_nonzero by lia. rewrite bind_Ok.
  eexists. split; [reflexivity|].
  cbn [DataAnalyzer.profitable_opportunities DataAnalyzer.total_potential_profit
       DataAnalyzer.profitability_rate].
  unfold examined. fold head.
  split; [rewrite length_consecutive, Hhead; reflexivity|].
  set (c := length (filter (fun pc => Qltb 0 (gain pc)) (Rules.consecutive head))) in *.
  assert (Hf : fst final = Z.of_nat c) by (rewrite Hcount; reflexivity).
  split; [exact Hf|].
  split; [apply Hprofit; apply Qle_refl|].
  assert (Hkq : 0 < inject_Z (Z.of_nat k)) by (apply inject_Z_pos; lia).
  rewrite Hf.
  assert (Hc0 : 0 <= inject_Z (Z.of_nat c)) by (unfold Qle; simpl; lia).
  assert (Hck : inject_Z (Z.of_nat c) < inject_Z (Z.of_nat k)).
  { unfold Qlt. simpl. lia. }
  split.
  - apply Qmult_le_0_compat; [|discriminate].
    apply Qle_shift_div_l; [exact Hkq|]. lra.
  - assert (E : inject_Z (Z.of_nat c) / inject_Z (Z.of_nat k) < 1).
    { apply Qlt_shift_div_r; [exact Hkq|]. lra. }
    lra.
Qed.

End DeviationAndProfit.

Lemma mev_profitability_scan_witness :
  exists r,
    DataAnalyzer.calculate_mev_profitability DataAnalyzer.init
      Fixtures.mixed_quotes (1 # 100) = Py.Ok (Some r)
    /\ DataAnalyzer.profitable_opportunities r = 2%Z.
Proof.
  destruct (mev_profitability_scan DataAnalyzer.init Fixtures.mixed_quotes
              (1 # 100)) as (_ & H).
  destruct H as (r & Hr & _ & Hc & _); [simpl; lia|].
  exists r. split; [exact Hr|]. rewrite Hc. reflexivity.
Defined.

(* ================================================================== *)
(** ** quote_tracker.py: the worker, its counters and its statistics *)

Section TrackerFacts.
Import Py Np Models.
Local Open Scope py_scope.
Local Open Scope Q_scope.

(** The quote a fetch turns into; the tracker passed does not matter. *)
Lemma get_quote_quote (self other : QuoteTracker.tracker) (rq rs : Q)
  (r : QuoteTracker.response) :
  fst (QuoteTracker.get_quote self rq rs r)
  = fst (QuoteTracker.get_quote other rq rs r).
Proof. destruct r; reflexivity. Qed.

Lemma find_hd_filter {A} (f : A -> bool) (l : list A) :
  find f l = hd_error (filter f l).
Proof.
  induction l as [|x l IH]; simpl; [reflexivity|].
  destruct (f x); [reflexivity|exact IH].
Qed.

Lemma previous_successful_snoc (l : list QuoteData) (q : QuoteData) :
  QuoteTracker.previous_successful (l ++ [q])
  = hd_error (rev (filter success l)).
Proof.
  unfold QuoteTracker.previous_successful.
  rewrite removelast_last, find_hd_filter, filter_rev. reflexivity.
Qed.

Lemma consecutive_cons {A} (x y : A) (t : list A) :
  Rules.consecutive (x :: y :: t) = (x, y) :: Rules.consecutive (y :: t).
Proof. reflexivity. Qed.

Lemma consecutive_snoc {A} (l : list A) (p q : A) :
  Rules.consecutive ((l ++ [p]) ++ [q]) = Rules.consecutive (l ++ [p]) ++ [(p, q)].
Proof.
  induction l as [|x l IH]; [reflexivity|].
  destruct l as [|y l]; [reflexivity|].
  change (Rules.consecutive (((x :: y :: l) ++ [p]) ++ [q]))
    with ((x, y) :: Rules.consecutive (((y :: l) ++ [p]) ++ [q])).
  rewrite IH. reflexivity.
Qed.

(** One iteration never raises: it appends the quote of the fetch and
    moves the counters. *)
Lemma quote_worker_iteration_ok (st : QuoteTracker.tracker) (w : nat)
  (rq rs : Q) (r : QuoteTracker.response) :
  let q := fst (QuoteTracker.get_quote st rq rs r) in
  exists p,
    QuoteTracker.quote_worker_iteration st w rq rs r
    = Ok ({| QuoteTracker.quotes := QuoteTracker.quotes st ++ [q];
             QuoteTracker.total_requests :=
               (QuoteTracker.total_requests st + 1)%Z;
             QuoteTracker.successful_requests :=
               (QuoteTracker.successful_requests st
                + (if success q then 1 else 0))%Z;
             QuoteTracker.failed_requests :=
               (QuoteTracker.failed_requests st
                + (if success q then 0 else 1))%Z |}, p).
Proof.
  unfold QuoteTracker.quote_worker_iteration.
  destruct r as [out imp route|status text|msg]; cbn [QuoteTracker.get_quote fst success].
  - cbn [QuoteTracker.quotes QuoteTracker.total_requests
         QuoteTracker.successful_requests QuoteTracker.failed_requests
         output_amount latency].
    rewrite Z.add_0_r.
    destruct (1 <? _)%nat.
    + destruct (QuoteTracker.previous_successful _).
      * rewrite calculate_drift_ok, bind_Ok. eexists. reflexivity.
      * rewrite bind_Ok. eexists. reflexivity.
    + rewrite bind_Ok. eexists. reflexivity.
  - cbn [QuoteTracker.quotes QuoteTracker.total_requests
         QuoteTracker.successful_requests QuoteTracker.failed_requests error].
    rewrite Z.add_0_r. eexists. reflexivity.
  - cbn [QuoteTracker.quotes QuoteTracker.total_requests
         QuoteTracker.successful_requests QuoteTracker.failed_requests error].
    rewrite Z.add_0_r. eexists. reflexivity.
Qed.

Lemma run_workers_from (fetches : list QuoteTracker.fetch)
  (st : QuoteTracker.tracker) :
  let logged :=
    map (fun f => fst (QuoteTracker.get_quote QuoteTracker.init
                         (QuoteTracker.fetch_requested f)
                         (QuoteTracker.fetch_responded f)
                         (QuoteTracker.fetch_response f))) fetches in
  QuoteTracker.run_workers st fetches
  = Ok {| QuoteTracker.quotes := QuoteTracker.quotes st ++ logged;
          QuoteTracker.total_requests :=
            (QuoteTracker.total_requests st + Z.of_nat (length logged))%Z;
          QuoteTracker.successful_requests :=
            (QuoteTracker.successful_requests st
             + Z.of_nat (length (filter success logged)))%Z;
          QuoteTracker.failed_requests :=
            (QuoteTracker.failed_requests st
             + Z.of_nat (length (filter (fun q => negb (success q)) logged)))%Z |}.
Proof.
  revert st. induction fetches as [|f fetches IH]; intros st.
  - simpl. rewrite app_nil_r, !Z.add_0_r. destruct st; reflexivity.
  - cbn [QuoteTracker.run_workers foldM].
    destruct (quote_worker_iteration_ok st (QuoteTracker.fetch_worker f)
                (QuoteTracker.fetch_requested f) (QuoteTracker.fetch_responded f)
                (QuoteTracker.fetch_response f)) as [p Hp].
    rewrite Hp, !bind_Ok. cbn [fst].
    change (foldM _ fetches ?s) with (QuoteTracker.run_workers s fetches).
    rewrite IH. cbn [QuoteTracker.quotes QuoteTracker.total_requests
                     QuoteTracker.successful_requests
                     QuoteTracker.failed_requests map].
    rewrite (get_quote_quote st QuoteTracker.init).
    set (q := fst (QuoteTracker.get_quote QuoteTracker.init _ _ _)).
    cbn [filter negb]. rewrite <- app_assoc. cbn [app].
    f_equal. f_equal.
    + cbn [length]. lia.
    + destruct (success q); cbn [length negb]; lia.
    + destruct (success q); cbn [length negb]; lia.
Qed.

Lemma filter_partition_length {A} (f : A -> bool) (l : list A) :
  (length (filter f l) + length (filter (fun x => negb (f x)) l))%nat = length l.
Proof.
  induction l as [|x l IH]; simpl; [reflexivity|].
  destruct (f x); simpl; lia.
Qed.

(** X14: Starting from a fresh tracker, any run of worker iterations ends
    without an exception; the log holds exactly one quote per fetch, in
    the order the fetches completed (nothing is ever dropped), and the
    three counters are the length of the log, the number of successful
    quotes in it and the number of failed ones. *)
Theorem worker_counters (fetches : list QuoteTracker.fetch) :
  exists st,
    QuoteTracker.run_workers QuoteTracker.init fetches = Ok st
    /\ QuoteTracker.quotes st
       = map (fun f => fst (QuoteTracker.get_quote QuoteTracker.init
                              (QuoteTracker.fetch_requested f)
                              (QuoteTracker.fetch_responded f)
                              (QuoteTracker.fetch_response f))) fetches
    /\ QuoteTracker.total_requests st
       = Z.of_nat (length (QuoteTracker.quotes st))
    /\ QuoteTracker.successful_requests st
       = Z.of_nat (length (filter success (QuoteTracker.quotes st)))
    /\ QuoteTracker.failed_requests st
       = Z.of_nat (length (filter (fun q => negb (success q))
                                  (QuoteTracker.quotes st)))
    /\ (QuoteTracker.successful_requests st + QuoteTracker.failed_requests st
        = QuoteTracker.total_requests st)%Z.
Proof.
  eexists. split; [apply run_workers_from|].
  cbn [QuoteTracker.quotes QuoteTracker.total_requests
       QuoteTracker.successful_requests QuoteTracker.failed_requests
       QuoteTracker.init app].
  set (logged := map _ fetches).
  pose proof (filter_partition_length success logged).
  repeat split; lia.
Qed.

(** X15: Every quote [get_quote] builds, and so every quote a worker logs,
    carries an error text exactly when it is not successful; a failed
    quote has amount 0, price impact 0 and an empty route; the latency
    is the response time minus the request time, and the timestamp is
    the request time. *)
Theorem logged_quotes_well_formed (fetches : list QuoteTracker.fetch) :
  exists st,
    QuoteTracker.run_workers QuoteTracker.init fetches = Ok st
    /\ Forall (fun q =>
                 (success q = true <-> error q = None)
                 /\ (success q = false ->
                     output_amount q = 0%Z /\ price_impact_pct q == 0
                     /\ route_plan q = [])
                 /\ latency q = response_time q - request_time q
                 /\ timestamp q = request_time q)
              (QuoteTracker.quotes st).
Proof.
  eexists. split; [apply run_workers_from|].
  cbn [QuoteTracker.quotes QuoteTracker.init app].
  apply Forall_forall. intros q Hq. apply in_map_iff in Hq.
  destruct Hq as (f & <- & _).
  destruct (QuoteTracker.fetch_response f); cbn [QuoteTracker.get_quote fst];
    cbn [success error output_amount price_impact_pct route_plan latency
         response_time request_time timestamp];
    repeat split; try reflexivity; try discriminate; intros; discriminate.
Qed.

(** The counters of a state a run from the fresh tracker reaches. *)
Lemma worker_counters_of (fetches : list QuoteTracker.fetch)
  (st : QuoteTracker.tracker) :
  QuoteTracker.run_workers QuoteTracker.init fetches = Ok st ->
  QuoteTracker.total_requests st = Z.of_nat (length (QuoteTracker.quotes st))
  /\ QuoteTracker.successful_requests st
     = Z.of_nat (length (filter success (QuoteTracker.quotes st))).
Proof.
  rewrite run_workers_from. intros H. injection H as <-.
  cbn [QuoteTracker.quotes QuoteTracker.total_requests
       QuoteTracker.successful_requests QuoteTracker.init app].
  split; lia.
Qed.

End TrackerFacts.

Section TrackerStatistics.
Import Py Np Models.
Local Open Scope py_scope.
Local Open Scope Q_scope.

Lemma last_map_snoc {A B} (f : A -> B) (l : list A) (x : A) (d : B) :
  last (map f (l ++ [x])) d = f x.
Proof.
  rewrite map_app. apply last_last.
Qed.

(** X16: For a successful fetch the drift a worker prints is the newest entry
    of the drift series [analyze_quotes] would compute from the log as
    it then stands, and 0.0 when the log holds no earlier successful
    quote; printing it never raises. *)
Theorem live_drift_is_newest_series_entry (st : QuoteTracker.tracker)
  (worker_id : nat) (request_time response_time : Q)
  (outAmount : option Z) (priceImpactPct : option Q)
  (routePlan : option (list string)) :
  exists st' drift series,
    QuoteTracker.quote_worker_iteration st worker_id request_time response_time
      (QuoteTracker.Http200 outAmount priceImpactPct routePlan)
    = Ok (st',
          QuoteTracker.Update worker_id
            (QuoteTracker.from_option outAmount 0%Z)
            ((response_time - request_time) * 1000) drift
            (QuoteTracker.successful_requests st + 1)
            (QuoteTracker.failed_requests st))
    /\ DataAnalyzer.drift_series (filter success (QuoteTracker.quotes st'))
       = Ok series
    /\ drift = last series 0.
Proof.
  unfold QuoteTracker.quote_worker_iteration.
  cbn [QuoteTracker.get_quote success output_amount latency
       QuoteTracker.quotes QuoteTracker.total_requests
       QuoteTracker.successful_requests QuoteTracker.failed_requests].
  set (q := {| timestamp := request_time; success := true |}).
  set (l := QuoteTracker.quotes st).
  rewrite previous_successful_snoc.
  assert (Hf : filter success (l ++ [q]) = filter success l ++ [q])
    by (rewrite filter_app; reflexivity).
  destruct (filter success l) as [|x s] eqn:Es using rev_ind.
  - (* no earlier successful quote *)
    cbn [rev hd_error].
    assert (E : (if (1 <? length (l ++ [q]))%nat then Ok 0 else Ok 0)
                = (Ok 0 : res Q)) by (destruct (1 <? _)%nat; reflexivity).
    rewrite E, bind_Ok.
    eexists _, _, _. split; [reflexivity|].
    cbn [QuoteTracker.quotes]. rewrite Hf, drift_series_ok.
    split; reflexivity.
  - clear IHs. rewrite rev_app_distr. cbn [rev app hd_error].
    assert (Hlen : (1 <? length (l ++ [q]))%nat = true).
    { apply Nat.ltb_lt. rewrite length_app. simpl.
      assert (H0 : (length (filter success l) <= length l)%nat)
        by apply filter_length_le.
      rewrite Es, length_app in H0. simpl in H0. lia. }
    rewrite Hlen, calculate_drift_ok, bind_Ok.
    eexists _, _, _. split; [reflexivity|].
    cbn [QuoteTracker.quotes]. rewrite Hf, drift_series_ok.
    split; [reflexivity|].
    rewrite consecutive_snoc, last_map_snoc. reflexivity.
Qed.

Lemma rate_times_total (x y : Q) : ~ y == 0 -> x / y * 100 * y == x * 100.
Proof. intros H. field. exact H. Qed.

(** X17: On every tracker state a run of worker iterations can reach,
    [print_statistics] never raises (its success-rate division is never
    by zero); it prints exactly when at least 2 quotes are successful,
    and then the total is the length of the log and the success rate is
    successful / total * 100. *)
Theorem print_statistics_safe (fetches : list QuoteTracker.fetch)
  (st : QuoteTracker.tracker) (analyzer : DataAnalyzer.t) (now start_time : Q) :
  QuoteTracker.run_workers QuoteTracker.init fetches = Ok st ->
  let successful := filter success (QuoteTracker.quotes st) in
  exists printed,
    QuoteTracker.print_statistics st analyzer now start_time = Ok printed
    /\ (printed = None <-> (length successful < 2)%nat)
    /\ forall s, printed = Some s ->
         QuoteTracker.stat_total_requests s
         = Z.of_nat (length (QuoteTracker.quotes st))
         /\ QuoteTracker.stat_success_rate s
              * inject_Z (Z.of_nat (length (QuoteTracker.quotes st)))
            == inject_Z (Z.of_nat (length successful)) * 100.
Proof.
  intros Hrun successful.
  destruct (worker_counters_of fetches st Hrun) as (Htot & Hsucc).
  unfold QuoteTracker.print_statistics. fold successful.
  pose proof (filter_length_le success (QuoteTracker.quotes st)) as Hle.
  fold successful in Hle, Hsucc.
  destruct (DataAnalyzer.is_empty (QuoteTracker.quotes st)) eqn:Ee.
  { exists None. split; [reflexivity|]. split; [|discriminate].
    split; [|reflexivity]. intros _. unfold successful.
    destruct (QuoteTracker.quotes st); [simpl; lia|discriminate]. }
  destruct (Nat.ltb_spec (length successful) 2) as [Hlt|Hge].
  { exists None. split; [reflexivity|]. split; [|discriminate].
    split; [intros _; exact Hlt|reflexivity]. }
  change (mapM _ (range 1 (length successful)))
    with (DataAnalyzer.drift_series successful).
  rewrite drift_series_ok, bind_Ok.
  unfold truediv. rewrite Htot, Hsucc.
  rewrite (of_nat_nonzero (length (QuoteTracker.quotes st))) by lia.
  rewrite bind_Ok, length_map.
  rewrite (of_nat_nonzero (length successful)) by lia.
  rewrite bind_Ok.
  destruct successful as [|a [|b s]] eqn:Es;
    [simpl in Hge; lia | simpl in Hge; lia |].
  cbn [Rules.consecutive tl combine map DataAnalyzer.is_empty].
  cbn [min_int max_int]. rewrite !bind_Ok.
  cbn [max_by_abs]. rewrite bind_Ok.
  rewrite of_nat_nonzero by discriminate. rewrite bind_Ok.
  eexists. split; [reflexivity|].
  split; [split; [discriminate|simpl; lia]|].
  intros s0 Hs0. injection Hs0 as <-.
  cbn [QuoteTracker.stat_total_requests QuoteTracker.stat_success_rate].
  split; [reflexivity|].
  apply rate_times_total. intros E. apply Qeq_eq_bool in E.
  rewrite of_nat_nonzero in E; [discriminate|lia].
Qed.

End TrackerStatistics.

Lemma three_fetches_run :
  exists st,
    QuoteTracker.run_workers QuoteTracker.init Fixtures.three_fetches
    = Py.Ok st.
Proof. vm_compute. eexists. reflexivity. Qed.

Lemma print_statistics_safe_witness :
  exists st printed,
    QuoteTracker.run_workers QuoteTracker.init Fixtures.three_fetches
    = Py.Ok st
    /\ QuoteTracker.print_statistics st DataAnalyzer.init 2 0 = Py.Ok printed.
Proof.
  destruct three_fetches_run as [st E].
  destruct (print_statistics_safe Fixtures.three_fetches st DataAnalyzer.init
              2 0 E) as (printed & H & _).
  exists st, printed. split; [exact E|exact H].
Defined.

(* ================================================================== *)
(** ** quote_tracker.py: the export and the scanner against the analyzer *)

Section ExportAndScan.
Import Py Np Models.
Local Open Scope py_scope.
Local Open Scope Q_scope.

Lemma flagged_rows_count (l : list QuoteData) (p : QuoteData) :
  length (filter QuoteTracker.is_mev_opportunity
                 (Rules.csv_rows (Some (output_amount p)) l))
  = length (filter (fun d => Qltb (1 # 100) (Qabs d))
                   (map Rules.pair_drift (Rules.consecutive (p :: l)))).
Proof.
  revert p. induction l as [|q l IH]; intros p; [reflexivity|].
  rewrite consecutive_cons.
  cbn [Rules.csv_rows map filter Rules.previous_drift Rules.csv_row
       QuoteTracker.is_mev_opportunity].
  unfold Rules.pair_drift at 1. cbn [fst snd].
  destruct (Qltb (1 # 100) (Qabs (Rules.drift (output_amount p) (output_amount q))));
    cbn [length]; rewrite IH; reflexivity.
Qed.

(** X18: Whenever the default analyzer returns a result for a list of quotes,
    the export writes rows for the same list, and the number of rows
    flagged is_mev_opportunity is the significant-drift count of the
    analysis. *)
Theorem export_flags_match_analysis (quotes : list QuoteData)
  (r : DataAnalyzer.AnalysisResult) :
  DataAnalyzer.analyze_quotes DataAnalyzer.init quotes = Ok (Some r) ->
  exists rows,
    QuoteTracker.export_to_csv quotes = Ok (Some rows)
    /\ length rows = DataAnalyzer.successful_quotes r
    /\ length (filter QuoteTracker.is_mev_opportunity rows)
       = DataAnalyzer.significant_drifts r.
Proof.
  intros H.
  destruct (analyze_quotes_fields DataAnalyzer.init quotes r H)
    as (Hge & _ & Hs & _ & _ & _ & _ & Hsig & _).
  rewrite export_to_csv_ok, Hs, Hsig.
  destruct (filter success quotes) as [|x l]; [simpl in Hge; lia|].
  eexists. split; [reflexivity|].
  split; [apply length_csv_rows|].
  cbn [Rules.csv_rows Rules.previous_drift Rules.csv_row filter
       QuoteTracker.is_mev_opportunity].
  change (Qltb (1 # 100) (Qabs 0)) with false. cbv iota.
  apply flagged_rows_count.
Qed.

(** X19: One scan of [front_running_simulator] never raises and reports at
    most 19 opportunities, each with a timing advantage above 0.05 and a
    drift beyond 0.01 in absolute value, its profit estimate being that
    absolute drift times the configured amount; on any window the
    number it reports is the number [analyze_frontrun_opportunities]
    counts with the default thresholds. *)
Theorem scan_is_bounded (config : Config.t) (quotes : list QuoteData) :
  (exists reports,
      QuoteTracker.front_running_scan config quotes = Ok reports
      /\ (length reports <= 19)%nat
      /\ Forall (fun o =>
                   5 # 100 < QuoteTracker.timing_advantage o
                   /\ 1 # 100 < Qabs (QuoteTracker.price_drift o)
                   /\ QuoteTracker.profit_potential o
                      = Qabs (QuoteTracker.price_drift o)
                        * inject_Z (Config.amount config))
                reports)
  /\ (exists found,
        QuoteTracker.scan_pairs config quotes = Ok found
        /\ DataAnalyzer.analyze_frontrun_opportunities DataAnalyzer.init quotes
           = Ok (Z.of_nat (length found))).
Proof.
  split.
  - unfold QuoteTracker.front_running_scan.
    destruct (length quotes <? 10)%nat.
    { exists []. repeat split; [simpl; lia|constructor]. }
    set (recent := filter success (slice_last 20 quotes)).
    destruct (length recent <? 5)%nat.
    { exists []. repeat split; [simpl; lia|constructor]. }
    rewrite scan_pairs_ok. eexists. split; [reflexivity|]. split.
    + rewrite length_map.
      etransitivity; [apply filter_length_le|].
      rewrite length_consecutive.
      assert (H : (length recent <= 20)%nat).
      { etransitivity; [apply filter_length_le|].
        rewrite slice_last_length. lia. }
      lia.
    + apply Forall_forall. intros o Ho.
      apply in_map_iff in Ho. destruct Ho as (pc & <- & Hpc).
      apply filter_In in Hpc. destruct Hpc as (_ & Hrule).
      apply opportunityb_spec in Hrule. destruct Hrule as (Ht & Hd).
      cbn [Rules.report QuoteTracker.timing_advantage QuoteTracker.price_drift
           QuoteTracker.profit_potential].
      repeat split; assumption.
  - rewrite scan_pairs_ok, analyze_frontrun_opportunities_ok.
    eexists. split; [reflexivity|]. rewrite length_map. reflexivity.
Qed.

End ExportAndScan.

Lemma export_flags_match_analysis_witness :
  exists r rows,
    DataAnalyzer.analyze_quotes DataAnalyzer.init Fixtures.mixed_quotes
    = Py.Ok (Some r)
    /\ QuoteTracker.export_to_csv Fixtures.mixed_quotes = Py.Ok (Some rows)
    /\ length (filter QuoteTracker.is_mev_opportunity rows)
       = DataAnalyzer.significant_drifts r.
Proof.
  destruct mixed_quotes_analysed as [r E].
  destruct (export_flags_match_analysis Fixtures.mixed_quotes r E)
    as (rows & Hrows & _ & Hflags).
  exists r, rows. split; [exact E|]. split; [exact Hrows|exact Hflags].
Defined.

(* ================================================================== *)
(** ** web_app.py: what the retained list and the dashboard hold *)

Section WebFacts.
Import Py Np Models.
Local Open Scope py_scope.
Local Open Scope Q_scope.

Lemma worker_iteration_suffix (st : WebApp.state) (q : QuoteData) :
  exists dropped,
    WebApp.latest_quotes st ++ [q]
    = dropped ++ WebApp.latest_quotes (WebApp.worker_iteration st q).
Proof.
  unfold WebApp.worker_iteration. cbn [WebApp.latest_quotes].
  destruct (1000 <? length (WebApp.latest_quotes st ++ [q]))%nat.
  - eexists. apply slice_last_suffix.
  - exists []. reflexivity.
Qed.

Lemma worker_iteration_lower (st : WebApp.state) (q : QuoteData) (k : nat) :
  (Nat.min 500 k <= length (WebApp.latest_quotes st))%nat ->
  (Nat.min 500 (S k)
   <= length (WebApp.latest_quotes (WebApp.worker_iteration st q)))%nat.
Proof.
  intros H. unfold WebApp.worker_iteration. cbn [WebApp.latest_quotes].
  destruct (Nat.ltb_spec 1000 (length (WebApp.latest_quotes st ++ [q]))) as [Hgt|Hle].
  - rewrite slice_last_length. lia.
  - rewrite length_app. cbn [length]. lia.
Qed.

Lemma retention_keeps_newest_parts (st : WebApp.state)
  (quotes : list QuoteData) :
  (exists dropped,
      WebApp.latest_quotes st ++ quotes
      = dropped ++ WebApp.latest_quotes (WebApp.run st quotes))
  /\ (Nat.min 500 (length (WebApp.latest_quotes st) + length quotes)
      <= length (WebApp.latest_quotes (WebApp.run st quotes)))%nat.
Proof.
  revert st. induction quotes as [|q quotes IH]; intros st.
  - cbn [WebApp.run fold_left length].
    split; [exists []; now rewrite app_nil_r|lia].
  - cbn [WebApp.run fold_left].
    change (fold_left WebApp.worker_iteration quotes ?s)
      with (WebApp.run s quotes).
    destruct (IH (WebApp.worker_iteration st q)) as ((dropped & Hd) & Hlow).
    destruct (worker_iteration_suffix st q) as (first & Hf).
    split.
    + exists (first ++ dropped).
      rewrite <- app_assoc, <- Hd, app_assoc, <- Hf, <- app_assoc. reflexivity.
    + pose proof (worker_iteration_lower st q (length (WebApp.latest_quotes st))
                    (Nat.le_min_r _ _)) as Hstep.
      cbn [length]. lia.
Qed.

Lemma run_total_requests (quotes : list QuoteData) (st : WebApp.state) :
  WebApp.total_requests (WebApp.run st quotes)
  = (WebApp.total_requests st + Z.of_nat (length quotes))%Z.
Proof.
  revert st. induction quotes as [|q quotes IH]; intros st; [simpl; lia|].
  cbn [WebApp.run fold_left].
  change (fold_left WebApp.worker_iteration quotes ?s)
    with (WebApp.run s quotes).
  rewrite IH. cbn [WebApp.worker_iteration WebApp.total_requests length]. lia.
Qed.

(** X20: Retention only ever forgets the oldest quotes: after any run of
    worker iterations the kept list is the tail end of everything that
    was appended, in order; it holds at least the newest 500 quotes (or
    all of them while fewer exist); and the request counter counts every
    appended quote, trimmed or not. *)
Theorem retention_keeps_newest (st : WebApp.state) (quotes : list QuoteData) :
  let final := WebApp.run st quotes in
  (exists dropped,
      WebApp.latest_quotes st ++ quotes = dropped ++ WebApp.latest_quotes final)
  /\ (Nat.min 500 (length (WebApp.latest_quotes st) + length quotes)
      <= length (WebApp.latest_quotes final))%nat
  /\ WebApp.total_requests final
     = (WebApp.total_requests st + Z.of_nat (length quotes))%Z.
Proof.
  destruct (retention_keeps_newest_parts st quotes) as (Hd & Hlow).
  split; [exact Hd|]. split; [exact Hlow|apply run_total_requests].
Qed.

Lemma recent_is_slice (l : list QuoteData) :
  WebApp.recent l = slice_last 50 l.
Proof.
  unfold WebApp.recent, slice_last.
  destruct (Nat.ltb_spec 50 (length l)) as [|H]; [reflexivity|].
  replace (length l - 50)%nat with 0%nat by lia. reflexivity.
Qed.

Lemma slice_last_of_suffix {A} (n : nat) (dropped kept : list A) :
  (Nat.min n (length (dropped ++ kept)) <= length kept)%nat ->
  slice_last n kept = slice_last n (dropped ++ kept).
Proof.
  intros H. unfold slice_last. rewrite length_app in *.
  rewrite skipn_app.
  destruct (Nat.le_gt_cases (length dropped + length kept) n) as [Hle|Hgt].
  - rewrite Nat.min_r in H by exact Hle.
    assert (E : length dropped = 0%nat) by lia.
    destruct dropped; [|discriminate].
    cbn [length Nat.add app]. rewrite skipn_nil. cbn [app].
    f_equal. lia.
  - rewrite Nat.min_l in H by lia.
    assert (E : skipn (length dropped + length kept - n) dropped = [])
      by (apply skipn_all2; lia).
    rewrite E. cbn [app]. f_equal. lia.
Qed.

(** X21: The window [get_data] formats is always the newest 50 quotes ever
    appended (all of them while fewer exist): trimming the shared list
    never changes what the dashboard shows. *)
Theorem dashboard_shows_newest (st : WebApp.state) (quotes : list QuoteData) :
  WebApp.recent (WebApp.latest_quotes (WebApp.run st quotes))
  = slice_last 50 (WebApp.latest_quotes st ++ quotes).
Proof.
  destruct (retention_keeps_newest_parts st quotes) as ((dropped & Hd) & Hlow).
  rewrite recent_is_slice, Hd.
  apply slice_last_of_suffix.
  rewrite <- Hd, length_app. lia.
Qed.

End WebFacts.

(* ================================================================== *)
(** ** web_app.py: the unguarded drift divisions *)

Section WebDivisions.
Import Py Np Models.
Local Open Scope py_scope.
Local Open Scope Q_scope.

Lemma mapM_raises {A B} (f : A -> res B) (e : exn) (l : list A) :
  (forall x, In x l -> (exists v, f x = Ok v) \/ f x = Raise e) ->
  (exists x, In x l /\ f x = Raise e) ->
  mapM f l = Raise e.
Proof.
  induction l as [|x l IH]; intros Hall (y & Hy & Hr); [destruct Hy|].
  simpl. destruct (Hall x (or_introl eq_refl)) as [(v & Hv)|Hx].
  - rewrite Hv, bind_Ok. rewrite IH; [reflexivity| |].
    + intros z Hz. apply Hall. now right.
    + destruct Hy as [<-|Hy]; [congruence|]. exists y. now split.
  - rewrite Hx. reflexivity.
Qed.

Lemma foldM_raises {A S V} (g : A -> res V) (h : S -> A -> V -> S) (e : exn)
  (l : list A) (s : S) :
  (forall x, In x l -> (exists v, g x = Ok v) \/ g x = Raise e) ->
  (exists x, In x l /\ g x = Raise e) ->
  foldM (fun s x => v <- g x ;; Ok (h s x v)) l s = Raise e.
Proof.
  revert s. induction l as [|x l IH]; intros s Hall (y & Hy & Hr); [destruct Hy|].
  simpl. destruct (Hall x (or_introl eq_refl)) as [(v & Hv)|Hx].
  - rewrite Hv, !bind_Ok. apply IH.
    + intros z Hz. apply Hall. now right.
    + destruct Hy as [<-|Hy]; [congruence|]. exists y. now split.
  - rewrite Hx. reflexivity.
Qed.

Lemma foldM_keeps {A S V} (g : A -> res V) (h : S -> A -> V -> S)
  (P : S -> Prop) (l : list A) (s : S) :
  (forall x, In x l -> exists v, g x = Ok v) ->
  (forall s x v, P s -> P (h s x v)) ->
  P s ->
  exists s', foldM (fun s x => v <- g x ;; Ok (h s x v)) l s = Ok s' /\ P s'.
Proof.
  revert s. induction l as [|x l IH]; intros s Hall Hstep Hs.
  - exists s. split; [reflexivity|exact Hs].
  - simpl. destruct (Hall x (or_introl eq_refl)) as (v & Hv).
    rewrite Hv, !bind_Ok. apply IH; [|exact Hstep|now apply Hstep].
    intros z Hz. apply Hall. now right.
Qed.

Lemma existsb_of_map {A B} (f : B -> bool) (g : A -> B) (l : list A) :
  existsb f (map g l) = existsb (fun x => f (g x)) l.
Proof.
  induction l as [|x l IH]; simpl; [reflexivity|]. now rewrite IH.
Qed.

Lemma set_drift_keeps (formatted : list WebApp.FormattedQuote) (i : nat)
  (d : Q) (m : bool) :
  length (WebApp.set_drift formatted i d m) = length formatted
  /\ map WebApp.f_output_amount (WebApp.set_drift formatted i d m)
     = map WebApp.f_output_amount formatted
  /\ map WebApp.f_success (WebApp.set_drift formatted i d m)
     = map WebApp.f_success formatted.
Proof.
  revert i. induction formatted as [|f rest IH]; intros i; [repeat split|].
  destruct i as [|j]; [repeat split|].
  cbn [WebApp.set_drift length map].
  destruct (IH j) as (H1 & H2 & H3). rewrite H1, H2, H3. repeat split.
Qed.

(** What one step of the loop of [get_data] computes for the pair
    (previous, current) before it stores it. *)
Lemma get_data_step (recent : list QuoteData) (d : QuoteData)
  (formatted : list WebApp.FormattedQuote) (i : nat) :
  In i (range 1 (length recent)) ->
  let previous := nth (i - 1) recent d in
  let current := nth i recent d in
  (current <- getitem recent i ;;
   previous <- getitem recent (i - 1) ;;
   if success current && success previous then
     r <- truediv (inject_Z (output_amount current - output_amount previous))
                  (inject_Z (output_amount previous)) ;;
     Ok (WebApp.set_drift formatted i (round (r * 100) 4)
                          (Qltb (1 # 100) (Qabs (r * 100))))
   else Ok (WebApp.set_drift formatted i 0 false))
  = (v <- (if success current && success previous then
             r <- truediv (inject_Z (output_amount current
                                     - output_amount previous))
                          (inject_Z (output_amount previous)) ;;
             Ok (round (r * 100) 4, Qltb (1 # 100) (Qabs (r * 100)))
           else Ok (0, false)) ;;
     Ok (WebApp.set_drift formatted i (fst v) (snd v))).
Proof.
  intros Hi previous current. read_pair d recent Hi.
  rewrite !bind_Ok. fold previous current.
  destruct (success current && success previous); [|reflexivity].
  destruct (truediv _ _); reflexivity.
Qed.

(** X22: [get_data] divides by the previous amount without a guard: it raises
    ZeroDivisionError exactly when, among the quotes it formats, a
    successful quote of amount 0 is directly followed by a successful
    quote.  Otherwise it returns one entry per quote of the window, at
    most 50, with the amounts and success flags of those quotes in
    order. *)
Theorem get_data_division (latest : list QuoteData) :
  let recent := WebApp.recent latest in
  let zero_then_success (pc : QuoteData * QuoteData) :=
    success (snd pc) && success (fst pc) && (output_amount (fst pc) =? 0)%Z in
  (existsb zero_then_success (Rules.consecutive recent) = true ->
   WebApp.get_data latest = Raise ZeroDivisionError)
  /\ (existsb zero_then_success (Rules.consecutive recent) = false ->
      exists formatted,
        WebApp.get_data latest = Ok formatted
        /\ length formatted = length recent
        /\ (length formatted <= 50)%nat
        /\ map WebApp.f_output_amount formatted = map output_amount recent
        /\ map WebApp.f_success formatted = map success recent).
Proof.
  intros recent zero_then_success.
  set (d := {| timestamp := 0; request_time := 0; response_time := 0;
               latency := 0; output_amount := 0; price_impact_pct := 0;
               route_plan := []; success := false; error := None |}).
  set (pair_at := fun i => (nth (i - 1) recent d, nth i recent d)).
  set (g := fun i =>
              let previous := nth (i - 1) recent d in
              let current := nth i recent d in
              if success current && success previous then
                r <- truediv (inject_Z (output_amount current
                                        - output_amount previous))
                             (inject_Z (output_amount previous)) ;;
                Ok (round (r * 100) 4, Qltb (1 # 100) (Qabs (r * 100)))
              else Ok (0, false)).
  assert (Hg : forall i,
             (zero_then_success (pair_at i) = true
              -> g i = Raise ZeroDivisionError)
             /\ (zero_then_success (pair_at i) = false
                 -> exists v, g i = Ok v)).
  { intros i. unfold g, zero_then_success, pair_at. cbn [fst snd].
    destruct (success (nth i recent d) && success (nth (i - 1) recent d)).
    - unfold truediv. cbn [andb].
      destruct (Z.eqb_spec (output_amount (nth (i - 1) recent d)) 0) as [E|E].
      + rewrite E. split; [reflexivity|discriminate].
      + rewrite inject_Z_nonzero by exact E.
        split; [discriminate|]. intros _. eexists. reflexivity.
    - split; [discriminate|]. intros _. eexists. reflexivity. }
  assert (Hpairs : map pair_at (range 1 (length recent)) = Rules.consecutive recent)
    by apply pairs_of_range.
  assert (Hshort : (length recent <= 50)%nat).
  { unfold recent. rewrite recent_is_slice, slice_last_length. lia. }
  assert (Hformat : length (map WebApp.format_quote recent) = length recent
                    /\ map WebApp.f_output_amount (map WebApp.format_quote recent)
                       = map output_amount recent
                    /\ map WebApp.f_success (map WebApp.format_quote recent)
                       = map success recent).
  { rewrite length_map, !map_map. repeat split. }
  unfold WebApp.get_data. fold recent.
  rewrite <- Hpairs, existsb_of_map.
  destruct (Nat.ltb_spec 1 (length recent)) as [Hlong|Hone].
  - rewrite length_map.
    rewrite (foldM_ext_in _
      (fun formatted i =>
         v <- g i ;; Ok (WebApp.set_drift formatted i (fst v) (snd v))))
      by (intros formatted i Hi; apply (get_data_step recent d formatted i Hi)).
    split.
    + intros Hbad. apply existsb_exists in Hbad. destruct Hbad as (i & Hi & Hz).
      apply foldM_raises.
      * intros x _. destruct (zero_then_success (pair_at x)) eqn:E.
        -- right. now apply Hg.
        -- left. now apply Hg.
      * exists i. split; [exact Hi|now apply Hg].
    + intros Hgood.
      destruct (foldM_keeps g
                  (fun formatted i v => WebApp.set_drift formatted i (fst v) (snd v))
                  (fun formatted =>
                     length formatted = length recent
                     /\ map WebApp.f_output_amount formatted = map output_amount recent
                     /\ map WebApp.f_success formatted = map success recent)
                  (range 1 (length recent)) (map WebApp.format_quote recent))
        as (formatted & Hok & Hlen & Ham & Hsu).
      * intros x Hx. apply Hg.
        destruct (zero_then_success (pair_at x)) eqn:E; [|reflexivity].
        assert (Hex : existsb (fun i => zero_then_success (pair_at i))
                              (range 1 (length recent)) = true)
          by (apply existsb_exists; exists x; now split).
        congruence.
      * intros s x v (H1 & H2 & H3).
        destruct (set_drift_keeps s x (fst v) (snd v)) as (K1 & K2 & K3).
        rewrite K1, K2, K3. repeat split; assumption.
      * exact Hformat.
      * exists formatted. rewrite Hlen. repeat split; assumption.
  - split.
    + intros Hbad. apply existsb_exists in Hbad. destruct Hbad as (i & Hi & _).
      apply in_range_1 in Hi. lia.
    + intros _. exists (map WebApp.format_quote recent).
      destruct Hformat as (H1 & H2 & H3). rewrite H1.
      repeat split; assumption.
Qed.

End WebDivisions.

Lemma get_data_division_witness :
  WebApp.get_data
    [Fixtures.sample 0 (1 # 10) 0 true; Fixtures.sample 1 (1 # 10) 5 true]
  = Py.Raise Py.ZeroDivisionError
  /\ exists formatted,
       WebApp.get_data Fixtures.mixed_quotes = Py.Ok formatted
       /\ length formatted = 4%nat.
Proof.
  split.
  - apply (proj1 (get_data_division
                    [Fixtures.sample 0 (1 # 10) 0 true;
                     Fixtures.sample 1 (1 # 10) 5 true])).
    reflexivity.
  - destruct (proj2 (get_data_division Fixtures.mixed_quotes) eq_refl)
      as (formatted & H & Hlen & _).
    exists formatted. split; [exact H|exact Hlen].
Defined.

Section WebStatistics.
Import Py Np Models.
Local Open Scope py_scope.
Local Open Scope Q_scope.

Lemma web_drift_step (successful : list QuoteData) (d : QuoteData) (i : nat) :
  In i (range 1 (length successful)) ->
  let previous := nth (i - 1) successful d in
  let current := nth i successful d in
  (previous <- getitem successful (i - 1) ;;
   current <- getitem successful i ;;
   r <- truediv (inject_Z (output_amount current - output_amount previous))
                (inject_Z (output_amount previous)) ;;
   Ok (r * 100))
  = if (output_amount previous =? 0)%Z then Raise ZeroDivisionError
    else Ok (Rules.pair_drift (previous, current)).
Proof.
  intros Hi previous current. read_pair d successful Hi.
  rewrite !bind_Ok. fold previous current.
  unfold truediv, Rules.pair_drift, Rules.drift. cbn [fst snd].
  destruct (Z.eqb_spec (output_amount previous) 0) as [E|E].
  - rewrite E. reflexivity.
  - rewrite inject_Z_nonzero by exact E. reflexivity.
Qed.

(** X23: One pass of [stats_reporter] leaves the statistics as they were when
    fewer than 2 quotes are successful, and also when a successful quote
    of amount 0 is followed by a later successful quote: the drift
    division then raises and the exception is swallowed.  In every
    other case the pass stores new statistics whose totals are the
    lengths of the list and of its successful part and whose
    mev_opportunities is the number of drifts beyond 0.01, the
    significant-drift count of the default analysis of the same list. *)
Theorem stats_pass_outcomes (latest : list QuoteData)
  (latest_stats : option WebApp.Stats) (now start_time : Q) :
  let successful := filter success latest in
  let zero_first (pc : QuoteData * QuoteData) :=
    (output_amount (fst pc) =? 0)%Z in
  let pass := WebApp.stats_reporter_pass latest latest_stats now start_time in
  ((length successful < 2)%nat -> pass = latest_stats)
  /\ (existsb zero_first (Rules.consecutive successful) = true ->
      pass = latest_stats)
  /\ ((2 <= length successful)%nat ->
      existsb zero_first (Rules.consecutive successful) = false ->
      exists stats,
        pass = Some stats
        /\ WebApp.s_total_requests stats = length latest
        /\ WebApp.s_successful_requests stats = length successful
        /\ WebApp.s_mev_opportunities stats
           = length (filter (fun d => Qltb (1 # 100) (Qabs d))
                            (map Rules.pair_drift
                                 (Rules.consecutive successful)))
        /\ forall r,
             DataAnalyzer.analyze_quotes DataAnalyzer.init latest
             = Ok (Some r) ->
             WebApp.s_mev_opportunities stats
             = DataAnalyzer.significant_drifts r).
Proof.
  intros successful zero_first pass.
  unfold pass, WebApp.stats_reporter_pass, WebApp.compute_stats.
  fold successful.
  pose proof (filter_length_le success latest) as Hle. fold successful in Hle.
  destruct (DataAnalyzer.is_empty latest) eqn:Ee.
  { assert (Hs : successful = []).
    { unfold successful. destruct latest; [reflexivity|discriminate]. }
    rewrite Hs. split; [reflexivity|]. split; [reflexivity|].
    simpl. lia. }
  destruct (Nat.ltb_spec 1 (length successful)) as [Hlong|Hshort].
  2:{ split; [reflexivity|]. split; [|lia].
      intros Hbad. reflexivity. }
  set (d := {| timestamp := 0; request_time := 0; response_time := 0;
               latency := 0; output_amount := 0; price_impact_pct := 0;
               route_plan := []; success := false; error := None |}).
  set (pair_at := fun i => (nth (i - 1) successful d, nth i successful d)).
  assert (Hpairs : map pair_at (range 1 (length successful))
                   = Rules.consecutive successful) by apply pairs_of_range.
  rewrite (mapM_ext_in _
             (fun i => if zero_first (pair_at i) then Raise ZeroDivisionError
                       else Ok (Rules.pair_drift (pair_at i))))
    by (intros i Hi; apply (web_drift_step successful d i Hi)).
  split; [lia|]. split.
  - intros Hbad. rewrite <- Hpairs, existsb_of_map in Hbad.
    apply existsb_exists in Hbad. destruct Hbad as (i & Hi & Hz).
    rewrite (mapM_raises _ ZeroDivisionError); [reflexivity| |].
    + intros x _. destruct (zero_first (pair_at x)); [now right|left; eauto].
    + exists i. split; [exact Hi|]. now rewrite Hz.
  - intros _ Hgood. rewrite <- Hpairs, existsb_of_map in Hgood.
    rewrite (mapM_ext_in _ (fun i => Ok (Rules.pair_drift (pair_at i)))).
    2:{ intros i Hi. destruct (zero_first (pair_at i)) eqn:E; [|reflexivity].
        assert (Hex : existsb (fun x => zero_first (pair_at x))
                              (range 1 (length successful)) = true)
          by (apply existsb_exists; exists i; now split).
        congruence. }
    rewrite mapM_pure, bind_Ok. unfold pair_at.
    rewrite (map_range_consecutive d Rules.pair_drift successful).
    set (drifts := map Rules.pair_drift (Rules.consecutive successful)).
    assert (Hd : length drifts = (length successful - 1)%nat).
    { unfold drifts. rewrite length_map. apply length_consecutive. }
    unfold truediv.
    rewrite (of_nat_nonzero (length latest)) by lia. rewrite bind_Ok.
    rewrite length_map.
    rewrite (of_nat_nonzero (length successful)) by lia. rewrite bind_Ok.
    destruct successful as [|a [|b s]] eqn:Es;
      [simpl in Hlong; lia | simpl in Hlong; lia |].
    cbn [map min_int max_int]. rewrite !bind_Ok.
    destruct drifts as [|x ds] eqn:Ed; [simpl in Hd; lia|].
    cbn [DataAnalyzer.is_empty max_by_abs]. rewrite bind_Ok.
    rewrite of_nat_nonzero by discriminate. rewrite bind_Ok.
    eexists. split; [reflexivity|].
    cbn [WebApp.s_total_requests WebApp.s_successful_requests
         WebApp.s_mev_opportunities].
    split; [reflexivity|]. split; [reflexivity|]. split; [reflexivity|].
    intros r Hr.
    destruct (analyze_quotes_fields DataAnalyzer.init latest r Hr)
      as (_ & _ & _ & _ & _ & _ & _ & Hsig & _).
    rewrite Hsig. unfold successful in Es. rewrite Es.
    fold (Rules.consecutive (a :: b :: s)).
    change (map Rules.pair_drift (Rules.consecutive (a :: b :: s))) with drifts.
    rewrite Ed. reflexivity.
Qed.

End WebStatistics.

Lemma stats_pass_outcomes_witness :
  WebApp.stats_reporter_pass
    [Fixtures.sample 0 (1 # 10) 0 true; Fixtures.sample 1 (1 # 10) 5 true]
    None 2 0 = None
  /\ exists stats,
       WebApp.stats_reporter_pass Fixtures.mixed_quotes None 4 0 = Some stats
       /\ WebApp.s_mev_opportunities stats = 2%nat.
Proof.
  split.
  - apply (stats_pass_outcomes
             [Fixtures.sample 0 (1 # 10) 0 true;
              Fixtures.sample 1 (1 # 10) 5 true] None 2 0).
    reflexivity.
  - destruct (stats_pass_outcomes Fixtures.mixed_quotes None 4 0)
      as (_ & _ & H).
    destruct H as (stats & Hs & _ & _ & Hm & _); [simpl; lia|reflexivity|].
    exists stats. split; [exact Hs|]. rewrite Hm. reflexivity.
Defined.

(* ================================================================== *)
(** ** data_analyzer.py: how many anomalies a threshold can flag *)

Section AnomalyCount.
Import Py Np Models.
Local Open Scope Q_scope.

Lemma Qabs_square (y : Q) : Qabs y * Qabs y == y * y.
Proof.
  rewrite <- Qabs_Qmult. apply Qabs_pos. apply Qsquare_nonneg.
Qed.

(** A z-score above a positive threshold means a squared deviation above
    the squared threshold times the variance. *)
Lemma z_exceeds_inv (m v t : Q) (q : QuoteData) :
  0 < v -> 0 < t ->
  sgtb (DataAnalyzer.z_score_of (Fin m) (sqrt (Fin v)) q) (of_float (Fin t))
  = true ->
  t * t * v
  < (inject_Z (output_amount q) + - m) * (inject_Z (output_amount q) + - m).
Proof.
  intros Hv Ht.
  set (y := inject_Z (output_amount q) + - m).
  assert (E1 : Qltb v 0 = false) by (apply Qltb_false; lra).
  assert (E2 : Qeq_bool v 0 = false) by (apply Qeq_bool_pos; exact Hv).
  assert (E3 : Qeq_bool (1 * v) 0 = false) by (apply Qeq_bool_pos; lra).
  unfold sqrt. rewrite E1, E2.
  unfold DataAnalyzer.z_score_of, sdiv, of_float, of_Z, fsub, fneg, fadd,
    fabs, fmul, fdiv.
  cbn [coef radicand]. rewrite E3. fold y.
  unfold sgtb, sltb, sisnan, isnan, ssign, ssquare, fmul, fltb.
  cbn [coef radicand orb].
  assert (Et : (t ?= 0) = Gt) by (apply Qgt_alt; exact Ht).
  rewrite Et.
  destruct (Qabs y / (1 * v) ?= 0); try discriminate.
  rewrite Qltb_lt. intros H.
  assert (Ew : Qabs y / (1 * v) * (Qabs y / (1 * v)) * (1 * v)
               == y * y / v).
  { transitivity (Qabs y * Qabs y / v); [field; lra|].
    rewrite Qabs_square. reflexivity. }
  rewrite Ew in H.
  assert (Ey : y * y == y * y / v * v) by (field; lra).
  rewrite Ey. apply Qmult_lt_r; [exact Hv|]. lra.
Qed.

Lemma sum_filter_le {A} (f : A -> Q) (P : A -> bool) (l : list A) :
  (forall x, 0 <= f x) ->
  fold_left Qplus (map f (filter P l)) 0 <= fold_left Qplus (map f l) 0.
Proof.
  intros Hf. induction l as [|x l IH]; [apply Qle_refl|].
  cbn [filter map]. destruct (P x).
  - cbn [map]. rewrite !fold_Qplus_cons. lra.
  - rewrite fold_Qplus_cons. specialize (Hf x). lra.
Qed.

Lemma sum_lower_bound {A} (f : A -> Q) (c : Q) (l : list A) :
  (forall x, In x l -> c <= f x) ->
  inject_Z (Z.of_nat (length l)) * c <= fold_left Qplus (map f l) 0.
Proof.
  induction l as [|x l IH]; intros H.
  - cbn [length map fold_left]. change (inject_Z (Z.of_nat 0)) with 0.
    rewrite Qmult_0_l. apply Qle_refl.
  - cbn [length map]. rewrite inject_Z_of_nat_succ, fold_Qplus_cons.
    assert (c <= f x) by (apply H; now left).
    assert (inject_Z (Z.of_nat (length l)) * c <= fold_left Qplus (map f l) 0)
      by (apply IH; intros y Hy; apply H; now right).
    lra.
Qed.

(** X24: For a positive threshold t, [detect_price_anomalies] never flags
    more than n / t^2 of n successful quotes: the number of anomalies
    times t^2 is at most n.  With the default threshold 2.0 at most a
    quarter of the successful quotes can be anomalies. *)
Theorem anomalies_are_few (self : DataAnalyzer.t) (quotes : list QuoteData)
  (z_threshold : Q) :
  0 < z_threshold ->
  inject_Z (Z.of_nat (length (DataAnalyzer.detect_price_anomalies
                                self quotes z_threshold)))
    * (z_threshold * z_threshold)
  <= inject_Z (Z.of_nat (length (filter success quotes))).
Proof.
  intros Ht. rewrite detect_price_anomalies_ok.
  set (successful := filter success quotes).
  assert (Hnn : 0 <= inject_Z (Z.of_nat (length successful)))
    by (unfold Qle; simpl; lia).
  destruct (Nat.ltb_spec (length successful) 10) as [Hlt|Hge].
  { cbn [length]. change (inject_Z (Z.of_nat 0)) with 0.
    rewrite Qmult_0_l. exact Hnn. }
  assert (Hne : Rules.amounts successful <> []).
  { unfold Rules.amounts. destruct successful; [simpl in Hge; lia|discriminate]. }
  assert (Hla : length (Rules.amounts successful) = length successful)
    by (unfold Rules.amounts; apply length_map).
  pose proof (mean_fin _ Hne) as Hm. set (m := _ / _) in Hm.
  pose proof (var_fin _ m Hne Hm) as Hv. rewrite Hla in Hv.
  set (S := fold_left Qplus _ 0) in Hv.
  set (n := inject_Z (Z.of_nat (length successful))) in *.
  assert (Hn : 0 < n) by (apply inject_Z_pos; lia).
  assert (HS : 0 <= S).
  { apply fold_Qplus_nonneg. intros z Hz. apply in_map_iff in Hz.
    destruct Hz as (w & <- & _). apply Qsquare_nonneg. }
  rewrite Hm. unfold std. rewrite Hv.
  set (P := fun q => sgtb (DataAnalyzer.z_score_of (Fin m) (sqrt (Fin (S / n))) q)
                          (of_float (Fin z_threshold))).
  rewrite length_map.
  destruct (Qeq_bool (S / n) 0) eqn:Ez.
  - (* zero variance: every z-score is NaN *)
    apply Qeq_bool_eq in Ez.
    rewrite filter_none;
      [cbn [length]; change (inject_Z (Z.of_nat 0)) with 0;
       rewrite Qmult_0_l; exact Hnn|].
    intros q Hq. unfold P. apply sgtb_nan. unfold sisnan, sqrt.
    assert (E1 : Qltb (S / n) 0 = false) by (apply Qltb_false; lra).
    rewrite E1, (Qeq_eq_bool _ _ Ez).
    rewrite z_score_zero_over_zero; [reflexivity|].
    assert (Hdev : forall x, In x (Rules.amounts successful) -> x + - m == 0).
    { apply (var_zero_deviations _ m Hne Hm).
      rewrite (var_fin _ m Hne Hm), Hla. fold S n. simpl.
      now apply Qeq_eq_bool. }
    assert (Hin : In (inject_Z (output_amount q)) (Rules.amounts successful)).
    { unfold Rules.amounts. apply in_map_iff. exists q. split; [reflexivity|exact Hq]. }
    specialize (Hdev _ Hin). lra.
  - apply Qeq_bool_neq in Ez.
    assert (Hvpos : 0 < S / n).
    { assert (0 <= S / n) by (apply Qle_shift_div_l; [exact Hn|lra]).
      destruct (Qlt_le_dec 0 (S / n)) as [|Hle]; [assumption|].
      exfalso. apply Ez. lra. }
    set (v := S / n) in *.
    set (sq := fun q : QuoteData =>
                 (inject_Z (output_amount q) + - m)
                 * (inject_Z (output_amount q) + - m)).
    assert (Hsum : S = fold_left Qplus (map sq successful) 0).
    { unfold S, Rules.amounts. rewrite map_map. reflexivity. }
    assert (Hlow : inject_Z (Z.of_nat (length (filter P successful)))
                     * (z_threshold * z_threshold * v)
                   <= fold_left Qplus (map sq (filter P successful)) 0).
    { apply sum_lower_bound. intros q Hq. apply filter_In in Hq.
      destruct Hq as (_ & Hq). apply Qlt_le_weak.
      apply (z_exceeds_inv m v z_threshold q Hvpos Ht Hq). }
    assert (Hup : fold_left Qplus (map sq (filter P successful)) 0 <= S).
    { rewrite Hsum. apply sum_filter_le. intros q. apply Qsquare_nonneg. }
    assert (HSv : S == v * n) by (unfold v; field; lra).
    set (k := inject_Z (Z.of_nat (length (filter P successful)))) in *.
    apply Qmult_le_r with (z := v); [exact Hvpos|].
    lra.
Qed.

End AnomalyCount.

Lemma anomalies_are_few_witness :
  (inject_Z (Z.of_nat (length (DataAnalyzer.detect_price_anomalies
                                 DataAnalyzer.init Fixtures.spike_quotes 2)))
     * (2 * 2)
   <= inject_Z (Z.of_nat (length (filter Models.success Fixtures.spike_quotes))))%Q.
Proof.
  apply (anomalies_are_few DataAnalyzer.init Fixtures.spike_quotes 2).
  reflexivity.
Defined.
